(** * create_offline_installer.py: a shallow embedding and its properties

    The script builds an offline Miniconda installer bundle.  Everything it
    does is a sequence of effects on the host: the file system, the Windows
    registry, the terminal, child processes and one HTTP download.  The
    embedding threads an explicit [World] through a state-and-exception
    monad; Python library functions the script calls ([str.split],
    [str.replace], [re.match], [glob.glob], [os.path.join], [shutil.rmtree],
    ...) are modelled next to the code that uses them. *)

From Stdlib Require Import Ascii String ZArith List Bool Lia.
From stdpp Require Import base option list strings gmap fin_maps.

Open Scope string_scope.

(* ===================================================================== *)
(** * Python values, exceptions and results                               *)
(* ===================================================================== *)

(** What the script hands to [print] or stores in an exception message.
    [VFormat] keeps a format string together with the argument list it is
    applied to (the script formats [install_args] with [%s] and with
    [str.format]); the [repr] of the list is not computed. *)
Inductive pyval :=
  | VStr (s : string)
  | VList (l : list string)
  | VDict (d : gmap string string)
  | VFormat (fmt : string) (arg : list string).

Inductive exn :=
  | RuntimeError (msg : pyval)
  | AttributeError (msg : string)
  | KeyError (key : string)
  | FileExistsError (path : string)
  | FileNotFoundError (path : string)
  | NotADirectoryError (path : string)
  | IsADirectoryError (path : string)
  | SameFileError (path : string)
  | OSError (msg : string)
  | WindowsError (msg : string)
  | RequestException (msg : string)
  | TypeError (msg : string).

Inductive result (A : Type) :=
  | Ok (a : A)
  | Raise (e : exn).
Arguments Ok {A} a.
Arguments Raise {A} e.

Definition is_ok {A} (r : result A) : bool :=
  match r with Ok _ => true | Raise _ => false end.

(* ===================================================================== *)
(** * Python [str] operations                                             *)
(* ===================================================================== *)

Definition newline : ascii := "010"%char.
Definition nl : string := String newline "".
(** The double quote character, and the backslash. *)
Definition dquote : string := String "034"%char "".
Definition backslash : ascii := "092"%char.

(** The strings of the embedding are strings of ASCII characters.  On
    those, the class [\d] of [re] is the ten digits and [str.lower] moves
    the twenty-six capital letters; Python gives both a wider meaning on
    the rest of Unicode (other decimal digits, other cased letters), which
    is not modelled.  Statements whose truth depends on a character not
    being a digit, or on two strings differing after case folding, are
    therefore made for ASCII strings, with [is_ascii] as a hypothesis. *)
Definition is_ascii (s : string) : bool :=
  forallb (fun c => (nat_of_ascii c <? 128)%nat) (list_ascii_of_string s).

Definition is_digit (c : ascii) : bool :=
  (48 <=? nat_of_ascii c)%nat && (nat_of_ascii c <=? 57)%nat.

(** [s.startswith(p)] *)
Definition startswith (p s : string) : bool := String.prefix p s.

(** [s.endswith(p)] *)
Fixpoint endswith (p s : string) : bool :=
  String.eqb p s ||
  match s with
  | EmptyString => false
  | String _ s' => endswith p s'
  end.

(** [sep.join(l)] *)
Definition join (sep : string) (l : list string) : string := String.concat sep l.

(** [s.split(sep)] for a one-character separator: the fields between the
    separators, empty fields included; never the empty list. *)
Fixpoint split (sep : ascii) (s : string) : list string :=
  match s with
  | EmptyString => [EmptyString]
  | String c s' =>
      if Ascii.eqb c sep then EmptyString :: split sep s'
      else match split sep s' with
           | f :: fs => String c f :: fs
           | [] => [String c EmptyString]
           end
  end.

(** [s.replace(old, new)] for a non-empty [old]: the occurrences of [old]
    are found left to right, without overlap.  [skip] counts the characters
    of an occurrence that are still to be dropped. *)
Fixpoint replace_go (old new : string) (skip : nat) (s : string) : string :=
  match s with
  | EmptyString => EmptyString
  | String c s' =>
      match skip with
      | S k => replace_go old new k s'
      | O =>
          if String.prefix old s
          then new ++ replace_go old new (String.length old - 1) s'
          else String c (replace_go old new 0 s')
      end
  end.

Definition replace (old new s : string) : string := replace_go old new 0 s.

(** [s.lower()] on ASCII strings. *)
Definition lower_char (c : ascii) : ascii :=
  let n := nat_of_ascii c in
  if (65 <=? n)%nat && (n <=? 90)%nat then ascii_of_nat (n + 32) else c.

Fixpoint map_string (f : ascii -> ascii) (s : string) : string :=
  match s with
  | EmptyString => EmptyString
  | String c s' => String (f c) (map_string f s')
  end.

Fixpoint string_forallb (f : ascii -> bool) (s : string) : bool :=
  match s with
  | EmptyString => true
  | String c s' => f c && string_forallb f s'
  end.

(** The first [n] characters of [s] ([s[:n]]). *)
Fixpoint string_take (n : nat) (s : string) : string :=
  match n, s with
  | S k, String c s' => String c (string_take k s')
  | _, _ => EmptyString
  end.

(* ===================================================================== *)
(** * Regular expressions: the fragment of [re] the script relies on      *)
(* ===================================================================== *)

Module Re.

Inductive atom :=
  | Dot              (* .   any character but a newline *)
  | DotAll           (* .   under (?s): any character *)
  | Digit            (* \d *)
  | Lit (c : ascii).

Inductive item :=
  | One (a : atom)
  | Star (a : atom)  (* a*  greedy *)
  | EndZ.            (* \Z *)

Definition atom_matches (a : atom) (c : ascii) : bool :=
  match a with
  | Dot => negb (Ascii.eqb c newline)
  | DotAll => true
  | Digit => is_digit c
  | Lit c' => Ascii.eqb c c'
  end.

Definition bump (r : option (list nat)) : option (list nat) :=
  match r with
  | Some (n :: ns) => Some (S n :: ns)
  | _ => None
  end.

(** A backtracking matcher anchored at the start of the string, as
    [re.match] is.  The result lists how many characters each item of the
    pattern consumed.  A starred atom first tries to take one more
    character and gives it back only when the rest of the pattern then
    fails: the leftmost-greedy choice of Python's engine. *)
Fixpoint match_items (p : list item) (s : string) : option (list nat) :=
  match p with
  | [] => Some []
  | One a :: p' =>
      match s with
      | String c s' =>
          if atom_matches a c then cons 1%nat <$> match_items p' s' else None
      | EmptyString => None
      end
  | EndZ :: p' =>
      match s with
      | EmptyString => cons 0%nat <$> match_items p' s
      | String _ _ => None
      end
  | Star a :: p' =>
      (fix star (s : string) : option (list nat) :=
         let stop := cons 0%nat <$> match_items p' s in
         match s with
         | String c s' =>
             if atom_matches a c then
               match bump (star s') with
               | Some r => Some r
               | None => stop
               end
             else stop
         | EmptyString => stop
         end) s
  end.

End Re.

(** The pattern of [package_name]: a group holding a greedy dot-star, a
    hyphen, one digit, a greedy dot-star.  Group 1 is item 0. *)
Definition package_name_pattern : list Re.item :=
  [Re.Star Re.Dot; Re.One (Re.Lit "-"); Re.One Re.Digit; Re.Star Re.Dot].

(** [MinicondaOfflineInstaller.package_name]: group 1 of [re.match] of the
    pattern on [package_filename].  When the match fails [re.match] returns
    [None] and [.group] raises. *)
Definition package_name (package_filename : string) : result string :=
  match Re.match_items package_name_pattern package_filename with
  | Some (n :: _) => Ok (string_take n package_filename)
  | _ => Raise (AttributeError "'NoneType' object has no attribute 'group'")
  end.

(* ===================================================================== *)
(** * The host                                                            *)
(* ===================================================================== *)

(** A file-system entry.  Paths are the strings the script builds with
    [os.path.join]; a regular file carries its content and permission bits. *)
Inductive node :=
  | File (content : string) (mode : Z)
  | Dir.

(** The Windows registry: the two environment keys the script opens, each
    with named values.  A value whose data is not a string (a [REG_DWORD],
    say) has no [split] method. *)
Inductive hkey := HKEY_CURRENT_USER | HKEY_LOCAL_MACHINE.

Inductive reg_type := REG_SZ | REG_EXPAND_SZ | REG_OTHER (code : Z).

Inductive reg_data :=
  | RegString (s : string)
  | RegNumber (n : Z).

Record reg_key := {
  rk_values : gmap string (reg_data * reg_type);
  (** whether the process may open the key for query and set *)
  rk_access : bool
}.

Global Instance hkey_eq_dec : EqDecision hkey.
Proof. solve_decision. Defined.

Global Instance hkey_countable : Countable hkey.
Proof.
  refine (inj_countable'
            (fun k => match k with HKEY_CURRENT_USER => false | HKEY_LOCAL_MACHINE => true end)
            (fun b : bool => if b then HKEY_LOCAL_MACHINE else HKEY_CURRENT_USER) _).
  intros []; reflexivity.
Defined.

Global Instance reg_type_eq_dec : EqDecision reg_type.
Proof. solve_decision. Defined.

(** Everything the script can observe or change. *)
Record World := {
  fs : gmap string node;
  registry : gmap (hkey * string) reg_key;
  (** values handed to [print], oldest first *)
  stdout : list pyval;
  (** argument list and environment of every child process, oldest first *)
  calls : list (list string * gmap string string);
  (** number of [WM_SETTINGCHANGE] broadcasts sent *)
  broadcasts : nat
}.

(** What the script reads from its host and what the outside world answers.
    [run_child] is the child process behind [subprocess.call]: it may change
    the file system and the registry and exits with a code, or cannot be
    started at all.  [requests_get] is the HTTP download, as the chunks of
    the response body. *)
Class Host := {
  sys_platform : string;
  platform_system : string;
  os_environ : gmap string string;
  (** the directory of the script, [dirname(abspath(__file__))] *)
  script_dir : string;
  home_dir : string;
  os_path_abspath : string -> string;
  os_path_normpath : string -> string;
  ExpandEnvironmentStrings : string -> string;
  run_child :
    list string -> gmap string string ->
    gmap string node -> gmap (hkey * string) reg_key ->
    result (Z * gmap string node * gmap (hkey * string) reg_key);
  requests_get : string -> result (list string)
}.

Section OsPath.
Context `{Host}.

Definition IS_WINDOWS : bool := String.eqb sys_platform "win32".

(** [os.sep], [os.pathsep] *)
Definition os_sep : ascii := if IS_WINDOWS then backslash else "/"%char.
Definition os_pathsep : ascii := if IS_WINDOWS then ";"%char else ":"%char.

(** The characters [os.path] treats as separators: both slashes on
    Windows. *)
Definition is_sep (c : ascii) : bool :=
  Ascii.eqb c os_sep || (IS_WINDOWS && Ascii.eqb c "/"%char).

Definition first_is_sep (s : string) : bool :=
  match s with
  | String c _ => is_sep c
  | EmptyString => false
  end.

Fixpoint last_is_sep (s : string) : bool :=
  match s with
  | EmptyString => false
  | String c EmptyString => is_sep c
  | String _ s' => last_is_sep s'
  end.

(** One step of [os.path.join], for components without a drive letter: an
    absolute component restarts the path, otherwise it is appended after
    one separator. *)
Definition join2 (path b : string) : string :=
  if first_is_sep b then b
  else if String.eqb path "" || last_is_sep path then path ++ b
  else path ++ String os_sep b.

Definition os_path_join (a : string) (p : list string) : string :=
  fold_left join2 p a.

Fixpoint split_go (head tail s : string) : string * string :=
  match s with
  | EmptyString => (head, tail)
  | String c s' =>
      if is_sep c then split_go (head ++ tail ++ String c "") "" s'
      else split_go head (tail ++ String c "") s'
  end.

(** [s.rstrip] of the separators. *)
Fixpoint rstrip_sep (s : string) : string :=
  match s with
  | EmptyString => EmptyString
  | String c s' =>
      if string_forallb is_sep s then EmptyString else String c (rstrip_sep s')
  end.

(** [os.path.split]: everything up to the last separator, and what
    follows it; trailing separators are stripped from the head unless it
    is the root. *)
Definition os_path_split (p : string) : string * string :=
  let '(head, tail) := split_go "" "" p in
  (if string_forallb is_sep head then head else rstrip_sep head, tail).

Definition os_path_basename (p : string) : string := snd (os_path_split p).
Definition os_path_dirname (p : string) : string := fst (os_path_split p).

(** [os.path.normcase]: the identity on POSIX; on Windows, lower case with
    forward slashes turned into backslashes. *)
Definition nt_normcase (s : string) : string :=
  map_string (fun c => if Ascii.eqb c "/"%char then backslash else lower_char c) s.

Definition os_path_normcase (s : string) : string :=
  if IS_WINDOWS then nt_normcase s else s.

(** [os.path.expanduser] for [~] and [~/...]. *)
Definition os_path_expanduser (p : string) : string :=
  match p with
  | String "~" rest =>
      match rest with
      | EmptyString => home_dir
      | String c _ => if is_sep c then home_dir ++ rest else p
      end
  | _ => p
  end.

End OsPath.

(* ===================================================================== *)
(** * File-system operations                                              *)
(* ===================================================================== *)

Section FileSystem.
Context `{Host}.

(** The operations fail where the operating system makes them fail, with
    the exception class Python gives on a POSIX system.  Windows reports a
    path that runs through a regular file under another class; the
    theorems that tell [NotADirectoryError] from [FileNotFoundError] are
    stated off Windows. *)

(** [strip_prefix p s]: the rest of [s] after the prefix [p]. *)
Fixpoint strip_prefix (p s : string) : option string :=
  match p, s with
  | EmptyString, _ => Some s
  | String a p', String b s' => if Ascii.eqb a b then strip_prefix p' s' else None
  | String _ _, EmptyString => None
  end.

(** [is_under d p]: the path [p] lies strictly below the directory [d]. *)
Definition is_under (d p : string) : bool :=
  match strip_prefix (d ++ String os_sep "") p with
  | Some _ => true
  | None => false
  end.

(** The name of [p] inside directory [d], when [p] is a direct child. *)
Definition child_name (d p : string) : option string :=
  match strip_prefix (d ++ String os_sep "") p with
  | Some n =>
      if negb (String.eqb n "") && string_forallb (fun c => negb (is_sep c)) n
      then Some n else None
  | None => None
  end.

(** The proper ancestors of a path, outermost first: the non-empty
    prefixes that end just before a separator. *)
Fixpoint ancestors_go (acc s : string) : list string :=
  match s with
  | EmptyString => []
  | String c s' =>
      (if Ascii.eqb c os_sep && negb (String.eqb acc "") && negb (last_is_sep acc)
       then [acc] else [])
      ++ ancestors_go (acc ++ String c "") s'
  end.

Definition ancestors (p : string) : list string := ancestors_go "" p.

Definition path_strip (p : string) : string :=
  if string_forallb is_sep p then p else rstrip_sep p.

(** [os.path.exists]: a path that ends with a separator names a
    directory, so it does not exist where a regular file lies. *)
Definition os_path_exists (fs : gmap string node) (p : string) : bool :=
  match fs !! path_strip p with
  | Some Dir => true
  | Some (File _ _) => negb (last_is_sep p)
  | None => false
  end.

(** [os.path.isdir] *)
Definition os_path_isdir (fs : gmap string node) (p : string) : bool :=
  match fs !! path_strip p with
  | Some Dir => true
  | _ => false
  end.

(** [shutil.rmtree]: removes the directory and everything below it;
    raises when the path is missing or is not a directory. *)
Definition fs_rmtree (p : string) (fs : gmap string node) : result (gmap string node) :=
  match fs !! p with
  | Some Dir =>
      Ok (filter (fun kv : string * node =>
                    kv.1 <> p /\ is_under p kv.1 = false) fs)
  | Some (File _ _) => Raise (NotADirectoryError p)
  | None => Raise (FileNotFoundError p)
  end.

(** The [mkdir] calls of [os.makedirs] on the missing ancestors of
    [leaf].  An ancestor that is a regular file exists, so it is passed
    over, and the [mkdir] of the next component below it fails: the error
    names that component. *)
Fixpoint mkdir_chain (leaf : string) (qs : list string) (fs : gmap string node)
  : result (gmap string node) :=
  match qs with
  | [] => Ok fs
  | q :: qs' =>
      match fs !! q with
      | Some Dir => mkdir_chain leaf qs' fs
      | Some (File _ _) => Raise (NotADirectoryError (hd leaf qs'))
      | None => mkdir_chain leaf qs' (<[q := Dir]> fs)
      end
  end.

(** [os.makedirs(p)] with the default [exist_ok=False]: creates the
    missing ancestors, then the leaf, which must not exist. *)
Definition fs_makedirs (p : string) (fs : gmap string node) : result (gmap string node) :=
  match fs !! p with
  | Some _ => Raise (FileExistsError p)
  | None =>
      match mkdir_chain p (ancestors p) fs with
      | Ok fs' => Ok (<[p := Dir]> fs')
      | Raise e => Raise e
      end
  end.

(** The permission bits of a newly created file. *)
Definition default_mode : Z := 420.

Definition is_file (o : option node) : bool :=
  match o with
  | Some (File _ _) => true
  | _ => false
  end.

(** The error of [open(p, 'w')] when the parent of [p] is not a
    directory, as a POSIX system reports it: [NotADirectoryError] when the
    path runs through a regular file, [FileNotFoundError] when a directory
    on the way is missing. *)
Definition open_error (p : string) (fs : gmap string node) : exn :=
  if is_file (fs !! os_path_dirname p)
     || existsb (fun q => is_file (fs !! q)) (ancestors p)
  then NotADirectoryError p
  else FileNotFoundError p.

(** [open(p, 'w')], one or more [write]s and the close: the parent
    directory must exist; an existing file is truncated and keeps its
    permission bits. *)
Definition fs_write (p content : string) (fs : gmap string node)
  : result (gmap string node) :=
  let parent := os_path_dirname p in
  let parent_ok :=
    match parent with
    | EmptyString => true
    | _ => match fs !! parent with Some Dir => true | _ => false end
    end in
  if parent_ok then
    match fs !! p with
    | Some Dir => Raise (IsADirectoryError p)
    | Some (File _ m) => Ok (<[p := File content m]> fs)
    | None => Ok (<[p := File content default_mode]> fs)
    end
  else Raise (open_error p fs).

(** [shutil.copyfile(src, dst)]: content only. *)
Definition fs_copyfile (src dst : string) (fs : gmap string node)
  : result (gmap string node) :=
  if String.eqb src dst then Raise (SameFileError src)
  else match fs !! src with
       | Some (File content _) => fs_write dst content fs
       | Some Dir => Raise (IsADirectoryError src)
       | None => Raise (FileNotFoundError src)
       end.

(** [os.chmod] *)
Definition fs_chmod (p : string) (mode : Z) (fs : gmap string node)
  : result (gmap string node) :=
  match fs !! p with
  | Some (File content _) => Ok (<[p := File content mode]> fs)
  | Some Dir => Ok fs
  | None => Raise (FileNotFoundError p)
  end.

(** [os.listdir]: the names of the entries directly inside [d], in the
    order the file system hands them out. *)
Definition fs_listdir (d : string) (fs : gmap string node) : list string :=
  omap (fun kv : string * node => child_name d kv.1) (map_to_list fs).

(** [fnmatch.translate] for patterns made of literals, [*] and [?]. *)
Fixpoint fnmatch_translate (pat : string) : list Re.item :=
  match pat with
  | EmptyString => [Re.EndZ]
  | String c pat' =>
      (if Ascii.eqb c "*"%char then Re.Star Re.DotAll
       else if Ascii.eqb c "?"%char then Re.One Re.DotAll
       else Re.One (Re.Lit c)) :: fnmatch_translate pat'
  end.

(** One test of [fnmatch.filter]: pattern and name are case-normalised. *)
Definition fnmatch (name pat : string) : bool :=
  match Re.match_items (fnmatch_translate (os_path_normcase pat)) (os_path_normcase name) with
  | Some _ => true
  | None => false
  end.

Definition ishidden (name : string) : bool := startswith "." name.

(** [glob.glob(pattern)] for a pattern whose directory part is literal
    and whose last component holds the wildcards, the only shape the
    script uses: the entries of the directory that match the last
    component, dot-files left out unless the pattern itself starts with a
    dot, each joined to the directory. *)
Definition glob (pattern : string) (fs : gmap string node) : list string :=
  let '(dirname, basename) := os_path_split pattern in
  let names := fs_listdir dirname fs in
  let names := if ishidden basename then names
               else List.filter (fun n => negb (ishidden n)) names in
  map (fun n => os_path_join dirname [n])
      (List.filter (fun n => fnmatch n basename) names).

End FileSystem.

(* ===================================================================== *)
(** * The monad of the script: state and exceptions                       *)
(* ===================================================================== *)

Definition M (A : Type) : Type := World -> result A * World.

Global Instance M_ret : MRet M := fun A a w => (Ok a, w).

Global Instance M_bind : MBind M := fun A B f m w =>
  match m w with
  | (Ok a, w') => f a w'
  | (Raise e, w') => (Raise e, w')
  end.

Definition raise {A} (e : exn) : M A := fun w => (Raise e, w).

(** A pure computation that may raise. *)
Definition lift {A} (r : result A) : M A := fun w => (r, w).

(** [try: body / except: handler]: effects of [body] up to the exception
    stay. *)
Definition try_except {A} (body : M A) (handler : exn -> M A) : M A := fun w =>
  match body w with
  | (Raise e, w') => handler e w'
  | (Ok a, w') => (Ok a, w')
  end.

(** [try: body / finally: cleanup]: the cleanup runs in both cases; the
    outcome of [body] stands unless the cleanup itself raises. *)
Definition try_finally {A} (body : M A) (cleanup : M unit) : M A := fun w =>
  match body w with
  | (r, w') =>
      match cleanup w' with
      | (Ok _, w'') => (r, w'')
      | (Raise e, w'') => (Raise e, w'')
      end
  end.

Global Instance result_ret : MRet result := fun A a => Ok a.

Global Instance result_bind : MBind result := fun A B f r =>
  match r with
  | Ok a => f a
  | Raise e => Raise e
  end.

Definition set_fs (f : gmap string node) (w : World) : World :=
  {| fs := f; registry := registry w; stdout := stdout w;
     calls := calls w; broadcasts := broadcasts w |}.

Definition set_registry (r : gmap (hkey * string) reg_key) (w : World) : World :=
  {| fs := fs w; registry := r; stdout := stdout w;
     calls := calls w; broadcasts := broadcasts w |}.

(** [print(v)] *)
Definition print (v : pyval) : M unit := fun w =>
  (Ok tt, {| fs := fs w; registry := registry w; stdout := stdout w ++ [v];
             calls := calls w; broadcasts := broadcasts w |}).

(** A file-system operation: on an exception the file system is as before. *)
Definition with_fs (op : gmap string node -> result (gmap string node)) : M unit := fun w =>
  match op (fs w) with
  | Ok f => (Ok tt, set_fs f w)
  | Raise e => (Raise e, w)
  end.

Definition get_fs : M (gmap string node) := fun w => (Ok (fs w), w).

(** [for x in l: body(x)] *)
Fixpoint for_each {A} (l : list A) (body : A -> M unit) : M unit :=
  match l with
  | [] => mret tt
  | x :: l' => body x ;; for_each l' body
  end.

Section Process.
Context `{Host}.

(** [subprocess.call(args, env=env)]: blocks until the child exits and
    returns its exit code; raises when the child cannot be started. *)
Definition subprocess_call (args : list string) (env : gmap string string) : M Z := fun w =>
  let w1 := {| fs := fs w; registry := registry w; stdout := stdout w;
               calls := calls w ++ [(args, env)]; broadcasts := broadcasts w |} in
  match run_child args env (fs w1) (registry w1) with
  | Ok (code, f, r) => (Ok code, set_registry r (set_fs f w1))
  | Raise e => (Raise e, w1)
  end.

End Process.

(* ===================================================================== *)
(** * The Windows part: editing PATH in the registry                      *)
(* ===================================================================== *)

Section Windows.
Context `{Host}.

(** A key handle is the key's place in the registry. *)
Definition reg_OpenKey (root : hkey) (keyname : string) : M (hkey * string) := fun w =>
  match registry w !! (root, keyname) with
  | Some k =>
      if rk_access k then (Ok (root, keyname), w)
      else (Raise (WindowsError "Access is denied"), w)
  | None => (Raise (WindowsError "The system cannot find the file specified"), w)
  end.

Definition reg_QueryValueEx (key : hkey * string) (name : string)
  : M (reg_data * reg_type) := fun w =>
  match registry w !! key with
  | Some k =>
      match rk_values k !! name with
      | Some v => (Ok v, w)
      | None => (Raise (WindowsError "The system cannot find the file specified"), w)
      end
  | None => (Raise (WindowsError "The handle is invalid"), w)
  end.

Definition reg_SetValueEx (key : hkey * string) (name : string)
    (ty : reg_type) (data : reg_data) : M unit := fun w =>
  match registry w !! key with
  | Some k =>
      (Ok tt,
       set_registry
         (<[key := {| rk_values := <[name := (data, ty)]> (rk_values k);
                      rk_access := rk_access k |}]> (registry w)) w)
  | None => (Raise (WindowsError "The handle is invalid"), w)
  end.

Definition reg_CloseKey (key : hkey * string) : M unit := mret tt.

(** [sz_expand] *)
Definition sz_expand (value : string) (value_type : reg_type) : string :=
  if decide (value_type = REG_EXPAND_SZ) then ExpandEnvironmentStrings value
  else value.

(** [reg_value[0].split(os.pathsep)]: only a string has [split]. *)
Definition data_split (d : reg_data) : M (list string) :=
  match d with
  | RegString s => mret (split os_pathsep s)
  | RegNumber _ => raise (AttributeError "'int' object has no attribute 'split'")
  end.

(** One turn of the inner loop of [remove_from_system_path], on the pair
    [(any_change, results)]. *)
Definition path_step (pathname : string) (ty : reg_type)
    (st : bool * list string) (v : string) : bool * list string :=
  let vexp := sz_expand v ty in
  if String.eqb (os_path_normcase (os_path_normpath vexp)) pathname
  then (true, st.2)
  else (st.1, (st.2 ++ [v])%list).

(** The body of the outer loop of [remove_from_system_path], for one
    [(root, keyname)] pair; [pathname] is already normalised. *)
Definition remove_from_key (pathname path_env_var : string)
    (rk : hkey * string) : M unit :=
  key ← reg_OpenKey rk.1 rk.2;
  reg_value ←
    try_except (v ← reg_QueryValueEx key path_env_var; mret (Some v))
      (fun e => match e with
                | WindowsError _ => reg_CloseKey key ;; mret None
                | _ => raise e
                end);
  match reg_value with
  | None => mret tt
  | Some reg_value =>
      try_except
        (vs ← data_split reg_value.1;
         let '(any_change, results) :=
           fold_left (path_step pathname reg_value.2) vs (false, []) in
         let modified_path := join (String os_pathsep "") results in
         if any_change
         then reg_SetValueEx key path_env_var reg_value.2 (RegString modified_path)
         else mret tt)
        (fun _ => reg_CloseKey key)
  end.

Definition envkeys (allusers : bool) : list (hkey * string) :=
  (HKEY_CURRENT_USER, "Environment") ::
  (if allusers
   then [(HKEY_LOCAL_MACHINE,
          "SYSTEM\CurrentControlSet\Control\Session Manager\Environment")]
   else []).

(** [remove_from_system_path(pathname, allusers, path_env_var)] *)
Definition remove_from_system_path (pathname : string) (allusers : bool)
    (path_env_var : string) : M unit :=
  let pathname := os_path_normcase (os_path_normpath pathname) in
  for_each (envkeys allusers) (remove_from_key pathname path_env_var).

(** The first argument of [add_to_system_path]: one path, or a list of
    paths. *)
Inductive path_arg :=
  | OnePath (p : string)
  | PathList (l : list string).

(** The first loop of [add_to_system_path]: every path is made absolute
    and must be a directory; [new_paths] collects them, joined by
    [os.pathsep].  An empty string counts as not yet set, as [None]
    does. *)
Fixpoint add_paths_loop (f : gmap string node) (paths : list string)
    (new_paths : option string) : result (option string) :=
  match paths with
  | [] => Ok new_paths
  | p :: rest =>
      let p := os_path_abspath p in
      if negb (os_path_isdir f p) then
        Raise (RuntimeError
                 (VStr ("Directory " ++ dquote ++ p ++ dquote
                          ++ " does not exist, cannot add it to the path")))
      else
        let new_paths :=
          match new_paths with
          | Some np =>
              if String.eqb np "" then Some p
              else Some (np ++ String os_pathsep p)
          | None => Some p
          end in
        add_paths_loop f rest new_paths
  end.

(** [a + os.pathsep + b] on a registry datum and the collected paths:
    only two strings can be concatenated. *)
Definition concat_path (a b : option reg_data) : result reg_data :=
  match a, b with
  | Some (RegString x), Some (RegString y) => Ok (RegString (x ++ String os_pathsep y))
  | _, _ => Raise (TypeError "unsupported operand type(s) for +")
  end.

(** [add_to_system_path(paths, allusers, path_env_var)].  [SetValueEx]
    stores [None] as the empty string. *)
Definition add_to_system_path (paths : path_arg) (allusers : bool)
    (path_env_var : string) : M unit :=
  let paths := match paths with PathList l => l | OnePath p => [p] end in
  f ← get_fs;
  new_paths ← lift (add_paths_loop f paths None);
  let '(root, keyname) :=
    if allusers
    then (HKEY_LOCAL_MACHINE,
          "SYSTEM\CurrentControlSet\Control\Session Manager\Environment")
    else (HKEY_CURRENT_USER, "Environment") in
  key ← reg_OpenKey root keyname;
  try_finally
    (reg_value ←
       try_except (v ← reg_QueryValueEx key path_env_var; mret (Some v))
         (fun e => match e with
                   | WindowsError _ => mret None
                   | _ => raise e
                   end);
     typed ←
       match reg_value with
       | None =>
           mret (REG_EXPAND_SZ,
                 match new_paths with
                 | Some s => RegString s
                 | None => RegString ""
                 end)
       | Some reg_value =>
           final_value ←
             lift (if allusers
                   then concat_path (Some reg_value.1) (RegString <$> new_paths)
                   else concat_path (RegString <$> new_paths) (Some reg_value.1));
           mret (reg_value.2, final_value)
       end;
     reg_SetValueEx key path_env_var typed.1 typed.2)
    (reg_CloseKey key).

(** [broadcast_environment_settings_change] *)
Definition broadcast_environment_settings_change : M unit := fun w =>
  (Ok tt, {| fs := fs w; registry := registry w; stdout := stdout w;
             calls := calls w; broadcasts := S (broadcasts w) |}).

End Windows.

(* ===================================================================== *)
(** * The classes                                                         *)
(* ===================================================================== *)

(** The class attributes and overridable methods an installer class
    declares; [MinicondaOfflineInstaller] below is the one the script
    defines. *)
Record InstallerClass := {
  version : string;
  ccdc_version : string;
  conda_python_version : string;
  bitness : string;
  base_conda_packages : list string
}.

(** An instance: its class and what [__init__] stores. *)
Record Self := {
  cls : InstallerClass;
  distribution : string;
  output_installer : string;
  conda_bz2_src_packages : string;
  conda_conda_src_packages : string
}.

Definition api_pkgs : list string :=
  ["Pillow"; "six"; "lxml"; "numpy"; "matplotlib"; "pytest"].

Definition script_pkgs : list string :=
  ["docxtpl"; "pockets"; "docutils"; "pygments"; "sphinx"; "pandas"; "py-xgboost"].

Definition MinicondaOfflineInstaller : InstallerClass := {|
  version := "4.7.12.1";
  ccdc_version := "-2";
  conda_python_version := "3";
  bitness := "64bit";
  base_conda_packages := api_pkgs ++ script_pkgs
|}.

(** [AnacondaMixin.extensions], [platforms], [architectures] *)
Definition extensions : gmap string string :=
  list_to_map [("Windows", "exe"); ("Linux", "sh"); ("Darwin", "sh")].

Definition platforms : gmap string string :=
  list_to_map [("Windows", "Windows"); ("Linux", "Linux"); ("Darwin", "MacOSX")].

Definition architectures : gmap string string :=
  list_to_map [("64bit", "x86_64")].

(** [d[k]] *)
Definition dict_get (d : gmap string string) (k : string) : result string :=
  match d !! k with
  | Some v => Ok v
  | None => Raise (KeyError k)
  end.

(** [MinicondaOfflineInstaller.windows_install_script], line by line. *)
Definition windows_install_script : string :=
  join nl [
    "@echo off";
    "if x%~s1==x (";
    "  echo " ++ dquote ++ "install target_dir [ccdc_packages_and_package_name_pairs...]" ++ dquote;
    "  goto end";
    ")";
    "setlocal";
    "set installer_dir=%~dps0";
    "start /wait " ++ dquote ++ dquote ++ " " ++ dquote
      ++ "%installer_dir%{{ installer_exe }}" ++ dquote ++ " /AddToPath=0 /S /D=%~s1";
    "call %~s1\Scripts\activate";
    "call conda install -y --channel " ++ dquote ++ "%installer_dir%conda_offline_channel"
      ++ dquote ++ " --offline --override-channels {{ conda_packages }}";
    "shift";
    ":next_package";
    "if not " ++ dquote ++ "%1" ++ dquote ++ " == " ++ dquote ++ dquote ++ " (";
    "    call conda install -y --channel " ++ dquote ++ "%installer_dir%%1_conda_channel"
      ++ dquote ++ " --offline --override-channels %2";
    "    shift";
    "    shift";
    "    goto next_package";
    ")";
    "endlocal";
    ":end";
    ""
  ].

(** [MinicondaOfflineInstaller.unix_install_script], line by line. *)
Definition unix_install_script : string :=
  join nl [
    "#!/bin/sh";
    "if test $# -eq 0 ; then";
    "    echo 'install target_dir [ccdc_packages_and_package_name_pairs...]'";
    "    exit 1";
    "fi";
    "INSTALLER_DIR=$(dirname -- " ++ dquote ++ "$0" ++ dquote ++ ")";
    "chmod +x $INSTALLER_DIR/{{ installer_exe }}";
    "$INSTALLER_DIR/{{ installer_exe }} -b -p $1";
    "unset PYTHONPATH";
    "unset PYTHONHOME";
    ". $1/bin/activate " ++ dquote ++ dquote;
    "conda install -y --channel " ++ dquote ++ "$INSTALLER_DIR/conda_offline_channel"
      ++ dquote ++ " --offline --override-channels {{ conda_packages }}";
    "shift";
    "while test $# -gt 1";
    "do";
    "    conda install -y --channel " ++ dquote ++ "$INSTALLER_DIR/$1_conda_channel"
      ++ dquote ++ " --offline --override-channels $2";
    "    shift";
    "    shift";
    "done";
    ""
  ].

Section Classes.
Context `{Host}.

(** [AnacondaMixin.installer_name] *)
Definition installer_name (c : InstallerClass) (distribution : string)
  : result string :=
  p ← dict_get platforms platform_system;
  a ← dict_get architectures (bitness c);
  e ← dict_get extensions platform_system;
  mret (distribution ++ conda_python_version c ++ "-" ++ version c ++ "-"
          ++ p ++ "-" ++ a ++ "." ++ e).

(** The properties [name], [build_install_dir], [output_dir],
    [output_conda_offline_channel]. *)
Definition name : string := "miniconda3".

Definition build_install_dir : string := "build_temp".

Definition output_dir (c : InstallerClass) : string :=
  os_path_join "output" [name ++ "-" ++ version c ++ ccdc_version c].

Definition output_conda_offline_channel (c : InstallerClass) : string :=
  os_path_join (output_dir c) ["conda_offline_channel"].

(** [MinicondaOfflineInstaller.__init__] *)
Definition init (c : InstallerClass) : result Self :=
  let distribution := "Miniconda" in
  n ← installer_name c distribution;
  mret {| cls := c;
          distribution := distribution;
          output_installer := os_path_join (output_dir c) [n];
          conda_bz2_src_packages := os_path_join build_install_dir ["pkgs"; "*.bz2"];
          conda_conda_src_packages := os_path_join build_install_dir ["pkgs"; "*.conda"] |}.

Section Methods.
Variable self : Self.

(** [AnacondaMixin._args_for] *)
Definition _args_for (executable_name : string) : string :=
  os_path_join build_install_dir
    [if IS_WINDOWS then "Scripts" else "bin";
     executable_name ++ (if IS_WINDOWS then ".exe" else "")].

(** [AnacondaMixin._run_pkg_manager] *)
Definition _run_pkg_manager (pkg_manager_name : string)
    (extra_args package_specs : list string) : M unit :=
  let my_env := os_environ in
  let my_env :=
    <["CONDARC" := os_path_join script_dir ["condarc-for-offline-installer-creation"]]>
      my_env in
  my_env ←
    (if IS_WINDOWS then
       match my_env !! "PATH" with
       | Some old =>
           mret (<["PATH" := os_path_join build_install_dir ["Library"; "bin"]
                               ++ ";" ++ old]> my_env)
       | None => raise (KeyError "PATH")
       end
     else mret my_env);
  let args := ([_args_for pkg_manager_name] ++ extra_args ++ package_specs)%list in
  outcome ← subprocess_call args my_env;
  if negb (outcome =? 0)%Z then
    print (VStr "_run_pkg_manager fail info") ;;
    print (VList args) ;;
    print (VDict my_env) ;;
    raise (RuntimeError
             (VStr ("Could not install " ++ join " " package_specs
                      ++ " with " ++ pkg_manager_name)))
  else mret tt.

(** [AnacondaMixin.conda_install], the base-class method. *)
Definition AnacondaMixin_conda_install (package_specs : list string) : M unit :=
  _run_pkg_manager "conda" ["install"; "-y"] package_specs.

(** [MinicondaOfflineInstaller.conda_install], which overrides it. *)
Definition conda_install (package_specs : list string) : M unit :=
  _run_pkg_manager "conda" ["install"; "-y"; "--download-only"] package_specs.

(** [conda_cleanup], [conda_update] *)
Definition conda_cleanup : M unit :=
  _run_pkg_manager "conda" ["clean"; "-y"; "--all"] [].

Definition conda_update : M unit :=
  _run_pkg_manager "conda" ["update"; "-y"; "--all"] [].

(** [conda_index] *)
Definition conda_index (channel : string) : M unit :=
  let patch_file := os_path_join script_dir ["repodata-hotfixes/main.py"] in
  _run_pkg_manager "conda" ["index"; "-p"; patch_file; channel] [].

(** [AnacondaMixin.install_args] *)
Definition install_args : list string :=
  if IS_WINDOWS then
    [output_installer self; "/S"; "/D=" ++ os_path_abspath build_install_dir]
  else
    ["sh"; output_installer self; "-b"; "-f"; "-p"; os_path_abspath build_install_dir].

(** [AnacondaMixin._clean_up_system_path] *)
Definition _clean_up_system_path : M unit :=
  f ← get_fs;
  let for_all_users :=
    negb (os_path_exists f (os_path_join build_install_dir [".nonadmin"])) in
  remove_from_system_path build_install_dir for_all_users "PATH" ;;
  remove_from_system_path (os_path_join build_install_dir ["Scripts"])
    for_all_users "PATH" ;;
  broadcast_environment_settings_change.

(** [AnacondaMixin.install_anaconda] *)
Definition install_anaconda : M unit :=
  print (VFormat "Running %s" install_args) ;;
  outcome ← subprocess_call install_args os_environ;
  (if IS_WINDOWS then _clean_up_system_path else mret tt) ;;
  if negb (outcome =? 0)%Z then
    raise (RuntimeError
             (VFormat ("Failed to run " ++ dquote ++ "{0}" ++ dquote) install_args))
  else mret tt.

(** [AnacondaMixin.pin_python_version] *)
Definition pin_python_version : M unit :=
  let pin_file := os_path_join build_install_dir ["conda-meta"; "pinned"] in
  let pin_string := "python " ++ conda_python_version (cls self) ++ ".*" ++ nl in
  with_fs (fs_write pin_file pin_string).

(** [AnacondaMixin.check_condarc_presence] *)
Definition check_condarc_presence : M unit :=
  for_each
    ["/etc/conda/.condarc"; "/etc/conda/condarc"; "/etc/conda/condarc.d/";
     "/var/lib/conda/.condarc"; "/var/lib/conda/condarc"; "/var/lib/conda/condarc.d/";
     "~/.conda/.condarc"; "~/.conda/condarc"; "~/.conda/condarc.d/"; "~/.condarc"]
    (fun path =>
       f ← get_fs;
       if os_path_exists f (os_path_expanduser path)
       then print (VStr ("Conda configuration found in " ++ path
                           ++ ". This might affect installation of packages"))
       else mret tt).

(** [get_source_packages_from_mirror] *)
Definition get_source_packages_from_mirror : M unit :=
  n ← lift (installer_name (cls self) (distribution self));
  let installer_url := "https://repo.continuum.io/miniconda/" ++ n in
  print (VStr ("Get " ++ installer_url ++ " -> " ++ output_installer self)) ;;
  r ← lift (requests_get installer_url);
  with_fs (fs_write (output_installer self) (String.concat "" r)).

(** [clean_build_and_output] *)
Definition clean_build_and_output : M unit :=
  try_except (with_fs (fs_rmtree (output_dir (cls self)))) (fun _ => mret tt) ;;
  try_except (with_fs (fs_rmtree build_install_dir)) (fun _ => mret tt).

(** [channel_arch] *)
Definition channel_arch : string :=
  if String.eqb sys_platform "win32" then
    if String.eqb (bitness (cls self)) "64bit" then "win-64" else "win-32"
  else if String.eqb sys_platform "darwin" then "osx-64"
  else "linux-64".

(** One of the two loops of [copy_packages]; [known_packages] is the
    set the loop adds to. *)
Fixpoint copy_loop (conda_package_dest : string) (packages : list string)
    (known_packages : gset string) : M (gset string) :=
  match packages with
  | [] => mret known_packages
  | conda_package :: rest =>
      let filename := os_path_basename conda_package in
      n ← lift (package_name filename);
      let known_packages := known_packages ∪ {[n]} in
      with_fs (fs_copyfile conda_package
                 (os_path_join conda_package_dest [filename])) ;;
      copy_loop conda_package_dest rest known_packages
  end.

(** [copy_packages] *)
Definition copy_packages : M unit :=
  let conda_package_dest :=
    os_path_join (output_conda_offline_channel (cls self)) [channel_arch] in
  with_fs (fs_makedirs conda_package_dest) ;;
  let known_packages : gset string := ∅ in
  f ← get_fs;
  known_packages ← copy_loop conda_package_dest
                     (glob (conda_bz2_src_packages self) f) known_packages;
  f ← get_fs;
  known_packages ← copy_loop conda_package_dest
                     (glob (conda_conda_src_packages self) f) known_packages;
  mret tt.

(** [index_offline_channel] *)
Definition index_offline_channel : M unit :=
  try_except (AnacondaMixin_conda_install ["conda-build"]) (fun _ => mret tt) ;;
  conda_index (output_conda_offline_channel (cls self)).

(** The text [write_install_script] writes. *)
Definition render_install_script (installer_exe : string) : string :=
  let script :=
    if String.eqb sys_platform "win32" then windows_install_script
    else unix_install_script in
  let script := replace "{{ installer_exe }}" installer_exe script in
  replace "{{ conda_packages }}" (join " " (base_conda_packages (cls self))) script.

(** [write_install_script] *)
Definition write_install_script : M unit :=
  let '(installer_dir, installer_exe) := os_path_split (output_installer self) in
  let install_name :=
    os_path_join installer_dir
      ["install." ++ (if String.eqb sys_platform "win32" then "bat" else "sh")] in
  with_fs (fs_write install_name (render_install_script installer_exe)) ;;
  if negb (String.eqb sys_platform "win32")
  then with_fs (fs_chmod install_name 493)
  else mret tt.

(** [build] *)
Definition build : M unit :=
  print (VStr "Cleaning up build and output directories") ;;
  clean_build_and_output ;;
  with_fs (fs_makedirs build_install_dir) ;;
  with_fs (fs_makedirs (output_dir (cls self))) ;;
  print (VStr "Getting installer") ;;
  get_source_packages_from_mirror ;;
  print (VStr "Check there are no condarc files around") ;;
  check_condarc_presence ;;
  print (VStr "Install anaconda in the build directory") ;;
  install_anaconda ;;
  print (VStr "Pin python version") ;;
  pin_python_version ;;
  print (VStr "Remove conda packages that were part of the installer") ;;
  conda_cleanup ;;
  print (VStr "Download updates so that we can distribute them consistently") ;;
  conda_update ;;
  print (VStr "Fetch packages") ;;
  conda_install (base_conda_packages (cls self)) ;;
  print (VStr "Copy packages to output directory") ;;
  copy_packages ;;
  print (VStr "Create index of offline channel") ;;
  index_offline_channel ;;
  print (VStr "Create install script") ;;
  write_install_script.

End Methods.

(** The [__main__] block: [MinicondaOfflineInstaller().build()]. *)
Definition main : M unit :=
  self ← lift (init MinicondaOfflineInstaller);
  build self.

End Classes.

(* ===================================================================== *)
(** * Example hosts                                                       *)
(* ===================================================================== *)

(** A child process for the examples.  The installer creates the runtime
    tree; [conda install --download-only] fills the package cache; a plain
    [conda install -y] exits with [plain_install_exit]; every other command
    succeeds and changes nothing. *)
Definition example_child (plain_install_exit : Z)
    (args : list string) (env : gmap string string)
    (f : gmap string node) (r : gmap (hkey * string) reg_key)
  : result (Z * gmap string node * gmap (hkey * string) reg_key) :=
  match args with
  | "sh" :: _ =>
      Ok (0%Z,
          <["build_temp/pkgs" := Dir]> (<["build_temp/conda-meta" := Dir]> f), r)
  | _ :: "install" :: "-y" :: "--download-only" :: _ =>
      Ok (0%Z,
          <["build_temp/pkgs/six-1.12.0-py37_0.tar.bz2" := File "six" 420]>
            (<["build_temp/pkgs/pillow-6.2.1-py37h34e0f95_0.conda" := File "pillow" 420]> f),
          r)
  | _ :: "install" :: "-y" :: _ => Ok (plain_install_exit, f, r)
  | _ => Ok (0%Z, f, r)
  end.

Definition example_linux (plain_install_exit : Z) : Host := {|
  sys_platform := "linux";
  platform_system := "Linux";
  os_environ := {[ "PATH" := "/usr/bin" ]};
  script_dir := "/src";
  home_dir := "/root";
  os_path_abspath := fun p => "/work/" ++ p;
  os_path_normpath := fun p => p;
  ExpandEnvironmentStrings := fun p => p;
  run_child := example_child plain_install_exit;
  requests_get := fun _ => Ok ["#!/bin/sh"; nl]
|}.

Definition example_windows : Host := {|
  sys_platform := "win32";
  platform_system := "Windows";
  os_environ := {[ "PATH" := "C:\Windows" ]};
  script_dir := "C:\src";
  home_dir := "C:\Users\me";
  os_path_abspath := fun p => "C:\work\" ++ p;
  os_path_normpath := fun p => p;
  ExpandEnvironmentStrings := fun p => replace "%TOOLS%" "C:\Tools" p;
  run_child := fun _ _ f r => Ok (0%Z, f, r);
  requests_get := fun _ => Ok ["MZ"]
|}.

Definition empty_world : World :=
  {| fs := ∅; registry := ∅; stdout := []; calls := []; broadcasts := 0 |}.

(** The instance [__init__] builds on the example Linux host. *)
Definition linux_self : Self := {|
  cls := MinicondaOfflineInstaller;
  distribution := "Miniconda";
  output_installer := "output/miniconda3-4.7.12.1-2/Miniconda3-4.7.12.1-Linux-x86_64.sh";
  conda_bz2_src_packages := "build_temp/pkgs/*.bz2";
  conda_conda_src_packages := "build_temp/pkgs/*.conda"
|}.

(** A scratch runtime whose package cache holds the given files, each with
    its own name as content. *)
Definition cache_fs (names : list string) : gmap string node :=
  foldr (fun n f => <["build_temp/pkgs/" ++ n := File n 420]> f)
        (<["build_temp/pkgs" := Dir]> (<["build_temp" := Dir]> ∅)) names.

Definition cache_world : World := {|
  fs := cache_fs ["six-1.12.0-py37_0.tar.bz2"; "pillow-6.2.1-py37h34e0f95_0.conda"];
  registry := ∅; stdout := []; calls := []; broadcasts := 0
|}.

(** The same cache with one more archive, whose name has no version. *)
Definition bad_cache_world : World := {|
  fs := cache_fs ["README.bz2"; "six-1.12.0-py37_0.conda"];
  registry := ∅; stdout := []; calls := []; broadcasts := 0
|}.

(* ===================================================================== *)
(** * Predicates the properties are stated with                           *)
(* ===================================================================== *)

(** [s] holds a hyphen immediately followed by a decimal digit. *)
Fixpoint has_hyphen_digit (s : string) : bool :=
  match s with
  | EmptyString => false
  | String c s' =>
      (Ascii.eqb c "-" && match s' with
                          | String d _ => is_digit d
                          | EmptyString => false
                          end)
      || has_hyphen_digit s'
  end.

(** The installer file name pattern as the comment in [installer_name]
    documents it: Ana or Mini, then conda, a hyphen, the version, a hyphen,
    the platform, a hyphen, the architecture, a dot, the extension. *)
Definition documented_installer_name (s : string) : Prop :=
  exists prefix ver plat arch ext,
    (prefix = "Ana" \/ prefix = "Mini") /\
    s = prefix ++ "conda-" ++ ver ++ "-" ++ plat ++ "-" ++ arch ++ "." ++ ext.

(** A class that differs from [MinicondaOfflineInstaller] only in the list
    [base_conda_packages] returns. *)
Definition with_base_packages (pkgs : list string) : InstallerClass := {|
  version := version MinicondaOfflineInstaller;
  ccdc_version := ccdc_version MinicondaOfflineInstaller;
  conda_python_version := conda_python_version MinicondaOfflineInstaller;
  bitness := bitness MinicondaOfflineInstaller;
  base_conda_packages := pkgs
|}.

(** The environment [_run_pkg_manager] hands to the child: the process
    environment with [CONDARC] pointed at the file next to the script and,
    on Windows, the runtime's [Library\bin] put in front of the old
    [PATH]. *)
Definition child_env `{Host} (old_path : string) : gmap string string :=
  let env0 :=
    <["CONDARC" := os_path_join script_dir ["condarc-for-offline-installer-creation"]]>
      os_environ in
  if IS_WINDOWS
  then <["PATH" := os_path_join build_install_dir ["Library"; "bin"] ++ ";" ++ old_path]> env0
  else env0.

(** Whether a PATH entry names the directory [pathname]: both are compared
    after [normpath] and [normcase], the entry after environment
    expansion when the value is a [REG_EXPAND_SZ]. *)
Definition path_matches `{Host} (pathname : string) (ty : reg_type) (v : string) : bool :=
  String.eqb (os_path_normcase (os_path_normpath (sz_expand v ty)))
             (os_path_normcase (os_path_normpath pathname)).

(** The line of the unix install script that installs the base packages. *)
Definition unix_conda_install_line (conda_packages : string) : string :=
  "conda install -y --channel " ++ dquote ++ "$INSTALLER_DIR/conda_offline_channel"
    ++ dquote ++ " --offline --override-channels " ++ conda_packages.

(** The unix install script with the installer file name and the package
    list written in. *)
Definition unix_install_text (installer_exe conda_packages : string) : string :=
  join nl [
    "#!/bin/sh";
    "if test $# -eq 0 ; then";
    "    echo 'install target_dir [ccdc_packages_and_package_name_pairs...]'";
    "    exit 1";
    "fi";
    "INSTALLER_DIR=$(dirname -- " ++ dquote ++ "$0" ++ dquote ++ ")";
    "chmod +x $INSTALLER_DIR/" ++ installer_exe;
    "$INSTALLER_DIR/" ++ installer_exe ++ " -b -p $1";
    "unset PYTHONPATH";
    "unset PYTHONHOME";
    ". $1/bin/activate " ++ dquote ++ dquote;
    unix_conda_install_line conda_packages;
    "shift";
    "while test $# -gt 1";
    "do";
    "    conda install -y --channel " ++ dquote ++ "$INSTALLER_DIR/$1_conda_channel"
      ++ dquote ++ " --offline --override-channels $2";
    "    shift";
    "    shift";
    "done";
    ""
  ].

(** The Windows install script with the installer file name and the
    package list written in. *)
Definition windows_install_text (installer_exe conda_packages : string) : string :=
  join nl [
    "@echo off";
    "if x%~s1==x (";
    "  echo " ++ dquote ++ "install target_dir [ccdc_packages_and_package_name_pairs...]" ++ dquote;
    "  goto end";
    ")";
    "setlocal";
    "set installer_dir=%~dps0";
    "start /wait " ++ dquote ++ dquote ++ " " ++ dquote
      ++ "%installer_dir%" ++ installer_exe ++ dquote ++ " /AddToPath=0 /S /D=%~s1";
    "call %~s1\Scripts\activate";
    "call conda install -y --channel " ++ dquote ++ "%installer_dir%conda_offline_channel"
      ++ dquote ++ " --offline --override-channels " ++ conda_packages;
    "shift";
    ":next_package";
    "if not " ++ dquote ++ "%1" ++ dquote ++ " == " ++ dquote ++ dquote ++ " (";
    "    call conda install -y --channel " ++ dquote ++ "%installer_dir%%1_conda_channel"
      ++ dquote ++ " --offline --override-channels %2";
    "    shift";
    "    shift";
    "    goto next_package";
    ")";
    "endlocal";
    ":end";
    ""
  ].

(** No character of [s] is a slash or a backslash. *)
Definition no_slash (s : string) : bool :=
  string_forallb
    (fun c => negb (Ascii.eqb c "/"%char) && negb (Ascii.eqb c backslash)) s.

(** The instance [__init__] builds on the example Linux host for a class
    with the base package list [pkgs]. *)
Definition linux_self_with (pkgs : list string) : Self := {|
  cls := with_base_packages pkgs;
  distribution := "Miniconda";
  output_installer := "output/miniconda3-4.7.12.1-2/Miniconda3-4.7.12.1-Linux-x86_64.sh";
  conda_bz2_src_packages := "build_temp/pkgs/*.bz2";
  conda_conda_src_packages := "build_temp/pkgs/*.conda"
|}.

(** A pattern character that [fnmatch] reads literally. *)
Definition no_wildcard (s : string) : bool :=
  string_forallb
    (fun c => negb (Ascii.eqb c "*"%char) && negb (Ascii.eqb c "?"%char)) s.

(** The package cache of the scratch runtime, [build_temp/pkgs]. *)
Definition cache_dir `{Host} : string := build_install_dir ++ String os_sep "pkgs".

(** A name a directory listing can hold: not empty, no separator. *)
Definition valid_name `{Host} (n : string) : bool :=
  negb (String.eqb n "") && string_forallb (fun c => negb (is_sep c)) n.

(** [n] is the name of an archive the copy step looks for: it ends with
    [suffix] (compared the way the platform compares file names) and is not
    a dot-file. *)
Definition archive_name `{Host} (suffix n : string) : bool :=
  valid_name n && negb (ishidden n) && endswith suffix (os_path_normcase n).

(** The platform-keyed subdirectory of the output channel the copy step
    fills. *)
Definition channel_dir `{Host} (self : Self) : string :=
  os_path_join (output_conda_offline_channel (cls self)) [channel_arch self].

(** [n] names an archive of either kind. *)
Definition is_archive `{Host} (n : string) : bool :=
  archive_name ".bz2" n || archive_name ".conda" n.

(** The first character of a string. *)
Definition head_char (s : string) : option ascii :=
  match s with
  | String c _ => Some c
  | EmptyString => None
  end.

(** [shutil.rmtree] inside [try: ... except: pass]. *)
Definition rmtree_or_keep `{Host} (p : string) (f : gmap string node) : gmap string node :=
  match fs_rmtree p f with
  | Ok f' => f'
  | Raise _ => f
  end.

(** The first step of [build]: the two directories are removed, then
    created. *)
Definition reset_step `{Host} (self : Self) : M unit :=
  clean_build_and_output self ;;
  with_fs (fs_makedirs build_install_dir) ;;
  with_fs (fs_makedirs (output_dir (cls self))).

(** Every non-empty prefix of a path that ends just before a separator. *)
Fixpoint prefix_dirs_go `{Host} (acc s : string) : list string :=
  match s with
  | EmptyString => []
  | String c s' =>
      (if Ascii.eqb c os_sep && negb (String.eqb acc "") then [acc] else [])
      ++ prefix_dirs_go (acc ++ String c "") s'
  end.

Definition is_dir (o : option node) : bool :=
  match o with
  | Some Dir => true
  | _ => false
  end.

(** The file system is a tree: whatever exists lies below directories
    only. *)
Definition fs_wf `{Host} (f : gmap string node) : Prop :=
  forallb (fun kv : string * node =>
             forallb (fun d => is_dir (f !! d)) (prefix_dirs_go "" kv.1))
          (map_to_list f) = true.


(** The pipeline as a list of steps, each with the line [build] prints
    before it. *)
Definition build_steps `{Host} (self : Self) : list (string * M unit) :=
  [("Cleaning up build and output directories", reset_step self);
   ("Getting installer", get_source_packages_from_mirror self);
   ("Check there are no condarc files around", check_condarc_presence);
   ("Install anaconda in the build directory", install_anaconda self);
   ("Pin python version", pin_python_version self);
   ("Remove conda packages that were part of the installer", conda_cleanup);
   ("Download updates so that we can distribute them consistently", conda_update);
   ("Fetch packages", conda_install (base_conda_packages (cls self)));
   ("Copy packages to output directory", copy_packages self);
   ("Create index of offline channel", index_offline_channel self);
   ("Create install script", write_install_script self)].

(** Sequencing the steps of a list with [;;], as [build] is written. *)
Fixpoint run_steps (steps : list (string * M unit)) : M unit :=
  match steps with
  | [] => mret tt
  | (banner, action) :: rest => print (VStr banner) ;; action ;; run_steps rest
  end.

(** A forward-only run of a list of steps: each step is announced and
    executed once, in order, on the world its predecessor left; the first
    exception that leaves a step ends the run with that exception. *)
Inductive runs : list (string * M unit) -> World -> result unit -> World -> Prop :=
  | runs_done w :
      runs [] w (Ok tt) w
  | runs_step banner action rest w w1 r w2 :
      action (print (VStr banner) w).2 = (Ok tt, w1) ->
      runs rest w1 r w2 ->
      runs ((banner, action) :: rest) w r w2
  | runs_abort banner action rest w e w1 :
      action (print (VStr banner) w).2 = (Raise e, w1) ->
      runs ((banner, action) :: rest) w (Raise e) w1.

(** The package-manager command lines of a complete run, in order. *)
Definition conda_invocations `{Host} (self : Self) : list (list string) :=
  [_args_for "conda" :: ["clean"; "-y"; "--all"];
   _args_for "conda" :: ["update"; "-y"; "--all"];
   _args_for "conda" :: "install" :: "-y" :: "--download-only"
     :: base_conda_packages (cls self);
   _args_for "conda" :: ["install"; "-y"; "conda-build"];
   _args_for "conda" :: ["index"; "-p";
                         os_path_join script_dir ["repodata-hotfixes/main.py"];
                         output_conda_offline_channel (cls self)]].

(** All child processes of a complete run: the installer, then the
    package-manager commands. *)
Definition expected_calls `{Host} (self : Self) (old_path : string)
  : list (list string * gmap string string) :=
  (install_args self, os_environ)
  :: map (fun a => (a, child_env old_path)) (conda_invocations self).

(** [silent m]: the computation starts no child process. *)
Definition silent {A} (m : M A) : Prop :=
  forall w, calls (m w).2 = calls w.

(** [logs m L]: the child processes [m] starts are a prefix of [L], and all
    of [L] when [m] returns normally. *)
Definition logs {A} (m : M A) (L : list (list string * gmap string string)) : Prop :=
  forall w, exists l,
    calls (m w).2 = (calls w ++ l)%list
    /\ l `prefix_of` L
    /\ (is_ok (m w).1 = true -> l = L).

(** [always m l]: whatever happens, [m] starts exactly the child processes
    [l]. *)
Definition always {A} (m : M A) (l : list (list string * gmap string string)) : Prop :=
  forall w, calls (m w).2 = (calls w ++ l)%list.

(* ===================================================================== *)
(** * Further hosts and predicates                                        *)
(* ===================================================================== *)

(** [p] is a prefix of [s] without a newline that a hyphen and a decimal
    digit follow: a place where the pattern of [package_name] can end its
    group. *)
Definition name_candidate (s p : string) : Prop :=
  exists d rest,
    s = p ++ String "-" (String d rest)
    /\ is_digit d = true
    /\ string_forallb (fun c => negb (Ascii.eqb c newline)) p = true.

(** The key [add_to_system_path] edits. *)
Definition add_key (allusers : bool) : hkey * string :=
  if allusers
  then (HKEY_LOCAL_MACHINE,
        "SYSTEM\CurrentControlSet\Control\Session Manager\Environment")
  else (HKEY_CURRENT_USER, "Environment").

(** The registry [r] with the value [var] of the key at [rk] set. *)
Definition with_value (rk : hkey * string) (k : reg_key) (var : string)
    (d : reg_data) (ty : reg_type)
    (r : gmap (hkey * string) reg_key) : gmap (hkey * string) reg_key :=
  <[rk := {| rk_values := <[var := (d, ty)]> (rk_values k);
             rk_access := rk_access k |}]> r.

(** [r'] differs from [r] at most in the string value [var] of keys among
    [keys], whose new text is the old one with some entries left out. *)
Definition path_edit `{Host} (var : string) (keys : list (hkey * string))
    (r r' : gmap (hkey * string) reg_key) : Prop :=
  forall rk,
    r' !! rk = r !! rk
    \/ (In rk keys
        /\ exists k s ty l,
             r !! rk = Some k
             /\ rk_values k !! var = Some (RegString s, ty)
             /\ sublist l (split os_pathsep s)
             /\ r' !! rk = Some {| rk_values :=
                                     <[var := (RegString (join (String os_pathsep "") l), ty)]>
                                       (rk_values k);
                                   rk_access := rk_access k |}).

(** The key of the machine-wide environment. *)
Definition machine_key : hkey * string :=
  (HKEY_LOCAL_MACHINE,
   "SYSTEM\CurrentControlSet\Control\Session Manager\Environment").

Definition user_key : hkey * string := (HKEY_CURRENT_USER, "Environment").

(** A Windows host whose [abspath] leaves a path on drive C as it is. *)
Definition example_windows_abs : Host := {|
  sys_platform := "win32";
  platform_system := "Windows";
  os_environ := {[ "PATH" := "C:\Windows" ]};
  script_dir := "C:\src";
  home_dir := "C:\Users\me";
  os_path_abspath := fun p => if String.prefix "C:\" p then p else "C:\work\" ++ p;
  os_path_normpath := fun p => p;
  ExpandEnvironmentStrings := fun p => replace "%TOOLS%" "C:\Tools" p;
  run_child := fun _ _ f r => Ok (0%Z, f, r);
  requests_get := fun _ => Ok ["MZ"]
|}.

Definition user_env : reg_key :=
  {| rk_values := {[ "PATH" := (RegString "C:\Tools;%TOOLS%\bin", REG_EXPAND_SZ) ]};
     rk_access := true |}.

Definition machine_env (access : bool) : reg_key :=
  {| rk_values := {[ "PATH" := (RegString "C:\Windows", REG_SZ) ]};
     rk_access := access |}.

(** A machine with an installed runtime; [admin] tells whether the
    process may open the machine-wide key. *)
Definition anaconda_world (admin : bool) : World := {|
  fs := {[ "C:\Anaconda3" := Dir; "C:\Anaconda3\Scripts" := Dir ]};
  registry := {[ user_key := user_env; machine_key := machine_env admin ]};
  stdout := [];
  calls := [];
  broadcasts := 0
|}.

(** The process may open every key of [keys]. *)
Definition keys_open (keys : list (hkey * string))
    (r : gmap (hkey * string) reg_key) : Prop :=
  forall rk, In rk keys -> exists k, r !! rk = Some k /\ rk_access k = true.

(** The instance [__init__] builds on the example Windows hosts. *)
Definition windows_self : Self := {|
  cls := MinicondaOfflineInstaller;
  distribution := "Miniconda";
  output_installer :=
    "output\miniconda3-4.7.12.1-2\Miniconda3-4.7.12.1-Windows-x86_64.exe";
  conda_bz2_src_packages := "build_temp\pkgs\*.bz2";
  conda_conda_src_packages := "build_temp\pkgs\*.conda"
|}.

(** The places [check_condarc_presence] looks at, in its order. *)
Definition condarc_paths : list string :=
  ["/etc/conda/.condarc"; "/etc/conda/condarc"; "/etc/conda/condarc.d/";
   "/var/lib/conda/.condarc"; "/var/lib/conda/condarc"; "/var/lib/conda/condarc.d/";
   "~/.conda/.condarc"; "~/.conda/condarc"; "~/.conda/condarc.d/"; "~/.condarc"].

(** The line printed for a place that exists. *)
Definition condarc_warning (path : string) : pyval :=
  VStr ("Conda configuration found in " ++ path
          ++ ". This might affect installation of packages").

(** The world with more output. *)
Definition with_output (l : list pyval) (w : World) : World :=
  {| fs := fs w; registry := registry w; stdout := (stdout w ++ l)%list;
     calls := calls w; broadcasts := broadcasts w |}.

(** A host like the example Linux host, with a given answer of
    [platform.system()] and a given answer of the mirror. *)
Definition example_host (system : string) (download : result (list string)) : Host := {|
  sys_platform := "linux";
  platform_system := system;
  os_environ := {[ "PATH" := "/usr/bin" ]};
  script_dir := "/src";
  home_dir := "/root";
  os_path_abspath := fun p => "/work/" ++ p;
  os_path_normpath := fun p => p;
  ExpandEnvironmentStrings := fun p => p;
  run_child := example_child 0;
  requests_get := fun _ => download
|}.

(** A Windows host whose environment has no PATH. *)
Definition example_windows_no_path : Host := {|
  sys_platform := "win32";
  platform_system := "Windows";
  os_environ := ∅;
  script_dir := "C:\src";
  home_dir := "C:\Users\me";
  os_path_abspath := fun p => "C:\work\" ++ p;
  os_path_normpath := fun p => p;
  ExpandEnvironmentStrings := fun p => p;
  run_child := fun _ _ f r => Ok (0%Z, f, r);
  requests_get := fun _ => Ok ["MZ"]
|}.

(** The two directories set up, the runtime installed, and a stray
    configuration file in the home directory. *)
Definition ready_world : World := {|
  fs := {[ "output" := Dir;
           "output/miniconda3-4.7.12.1-2" := Dir;
           "build_temp" := Dir;
           "build_temp/conda-meta" := Dir;
           "/root" := Dir;
           "/root/.condarc" := File "channels: []" 420 ]};
  registry := ∅; stdout := []; calls := []; broadcasts := 0
|}.

(** A world with three of the ten places: a regular file under a name the
    list writes with a trailing separator, a directory under such a name,
    and a file in the home directory. *)
Definition condarc_world : World := {|
  fs := {[ "/etc" := Dir;
           "/etc/conda" := Dir;
           "/etc/conda/condarc.d" := File "channels: []" 420;
           "/var" := Dir;
           "/var/lib" := Dir;
           "/var/lib/conda" := Dir;
           "/var/lib/conda/condarc.d" := Dir;
           "/root" := Dir;
           "/root/.condarc" := File "channels: []" 420 ]};
  registry := ∅; stdout := []; calls := []; broadcasts := 0
|}.

(** A host like the example Linux host whose child processes all exit
    with [code] and change nothing. *)
Definition example_host_exit (code : Z) : Host := {|
  sys_platform := "linux";
  platform_system := "Linux";
  os_environ := {[ "PATH" := "/usr/bin" ]};
  script_dir := "/src";
  home_dir := "/root";
  os_path_abspath := fun p => "/work/" ++ p;
  os_path_normpath := fun p => p;
  ExpandEnvironmentStrings := fun p => p;
  run_child := fun _ _ f r => Ok (code, f, r);
  requests_get := fun _ => Ok ["#!/bin/sh"; nl]
|}.

(** A user install on Windows: the marker file of a non-admin install is
    there, and the machine-wide key is closed to the process. *)
Definition nonadmin_world : World := {|
  fs := {[ "build_temp" := Dir; "build_temp\.nonadmin" := File "" 420 ]};
  registry := {[ user_key := user_env; machine_key := machine_env false ]};
  stdout := [];
  calls := [];
  broadcasts := 0
|}.

(** The comparison the PATH clean-up is meant to make, written without the
    helpers of the script.  On Windows two ASCII paths are the same text
    when they agree character by character up to the case of the letters
    and the direction of the slashes. *)
Definition same_letter (c d : ascii) : bool :=
  let a := nat_of_ascii c in
  let b := nat_of_ascii d in
  (a =? b)%nat
  || ((65 <=? a)%nat && (a <=? 90)%nat && (b =? a + 32)%nat)
  || ((65 <=? b)%nat && (b <=? 90)%nat && (a =? b + 32)%nat)
  || (((a =? 47)%nat || (a =? 92)%nat) && ((b =? 47)%nat || (b =? 92)%nat)).

Fixpoint same_path_text (a b : string) : bool :=
  match a, b with
  | EmptyString, EmptyString => true
  | String c a', String d b' => same_letter c d && same_path_text a' b'
  | _, _ => false
  end.

(** An entry as the system reads it: environment references are expanded
    in a value of type [REG_EXPAND_SZ] only. *)
Definition expanded `{Host} (ty : reg_type) (v : string) : string :=
  match ty with
  | REG_EXPAND_SZ => ExpandEnvironmentStrings v
  | _ => v
  end.

(** The entry [v] names the directory [pathname]. *)
Definition names_target `{Host} (pathname : string) (ty : reg_type) (v : string) : bool :=
  same_path_text (os_path_normpath (expanded ty v)) (os_path_normpath pathname).

(** Every character, in the order of its code. *)
Definition all_ascii : list ascii := map ascii_of_nat (seq 0 256).

(** A user PATH that names one directory in four ways: through a
    variable, in capitals, with forward slashes, and as a longer path that
    only starts with it. *)
Definition cleanup_world : World := {|
  fs := ∅;
  registry :=
    {[ (HKEY_CURRENT_USER, "Environment") :=
         {| rk_values :=
              {[ "PATH" :=
                   (RegString "C:\Python;%TOOLS%\bin;C:\Tools\BIN;c:/tools/bin;%TOOLS%\bin2",
                    REG_EXPAND_SZ) ]};
            rk_access := true |} ]};
  stdout := [];
  calls := [];
  broadcasts := 0
|}.

(** A host like the example Linux host on which the installer succeeds
    and every conda command exits with [code]. *)
Definition example_conda_exit (code : Z) : Host := {|
  sys_platform := "linux";
  platform_system := "Linux";
  os_environ := {[ "PATH" := "/usr/bin" ]};
  script_dir := "/src";
  home_dir := "/root";
  os_path_abspath := fun p => "/work/" ++ p;
  os_path_normpath := fun p => p;
  ExpandEnvironmentStrings := fun p => p;
  run_child := fun args _ f r =>
    if String.eqb (hd "" args) "sh"
    then Ok (0%Z, <["build_temp/conda-meta" := Dir]> f, r)
    else Ok (code, f, r);
  requests_get := fun _ => Ok ["#!/bin/sh"; nl]
|}.

(* ===================================================================== *)
(** * Facts about strings and the matcher                                 *)
(* ===================================================================== *)

Lemma match_star_unfold (a : Re.atom) (p : list Re.item) (s : string) :
  Re.match_items (Re.Star a :: p) s =
  match s with
  | String c s' =>
      if Re.atom_matches a c then
        match Re.bump (Re.match_items (Re.Star a :: p) s') with
        | Some r => Some r
        | None => cons 0%nat <$> Re.match_items p s
        end
      else cons 0%nat <$> Re.match_items p s
  | EmptyString => cons 0%nat <$> Re.match_items p s
  end.
Proof. destruct s; reflexivity. Qed.

Lemma no_hyphen_digit_tail (s : string) :
  has_hyphen_digit s = false ->
  Re.match_items [Re.One (Re.Lit "-"); Re.One Re.Digit; Re.Star Re.Dot] s = None.
Proof.
  destruct s as [|c s]; [reflexivity|].
  cbn [has_hyphen_digit]. intros Hn.
  apply orb_false_iff in Hn as [Hn _].
  cbn [Re.match_items Re.atom_matches].
  destruct (Ascii.eqb c "-"); [|reflexivity].
  destruct s as [|d s]; [reflexivity|].
  cbn in Hn. rewrite Hn. reflexivity.
Qed.

Lemma no_hyphen_digit_no_match (s : string) :
  has_hyphen_digit s = false ->
  Re.match_items package_name_pattern s = None.
Proof.
  unfold package_name_pattern.
  induction s as [|c s IH]; intros Hn.
  - reflexivity.
  - rewrite match_star_unfold.
    rewrite (no_hyphen_digit_tail _ Hn).
    cbn [has_hyphen_digit] in Hn. apply orb_false_iff in Hn as [_ Hn].
    rewrite (IH Hn). cbn. destruct (negb (Ascii.eqb c newline)); reflexivity.
Qed.

Lemma string_app_nil (s : string) : "" ++ s = s.
Proof. reflexivity. Qed.

Lemma string_app_cons (c : ascii) (a s : string) :
  String c a ++ s = String c (a ++ s).
Proof. reflexivity. Qed.

Lemma star_dot_total (s : string) :
  exists k, Re.match_items [Re.Star Re.Dot] s = Some [k].
Proof.
  induction s as [|c s [k IH]].
  - exists 0%nat. reflexivity.
  - rewrite match_star_unfold, IH. cbn.
    destruct (negb (Ascii.eqb c newline)); eauto.
Qed.

Lemma string_take_app (p s : string) : string_take (String.length p) (p ++ s) = p.
Proof.
  induction p as [|c p IH].
  - destruct s; reflexivity.
  - change (String c (string_take (String.length p) (p ++ s)) = String c p).
    by rewrite IH.
Qed.

(** The greedy group stops at the last hyphen that a digit follows. *)
Lemma match_last_hyphen_digit (p rest : string) (d : ascii) :
  string_forallb (fun c => negb (Ascii.eqb c newline)) p = true ->
  is_digit d = true ->
  has_hyphen_digit (String d rest) = false ->
  exists ns,
    Re.match_items package_name_pattern (p ++ String "-" (String d rest))
    = Some (String.length p :: ns).
Proof.
  intros Hp Hd Hrest. unfold package_name_pattern.
  induction p as [|c p IH].
  - rewrite string_app_nil, match_star_unfold.
    pose proof (no_hyphen_digit_no_match _ Hrest) as Hnone.
    unfold package_name_pattern in Hnone. rewrite Hnone.
    destruct (star_dot_total rest) as [k Hk].
    cbn [Re.atom_matches Re.bump Re.match_items].
    cbn in Hk |- *. rewrite Hd. cbn. rewrite Hk. cbn. eauto.
  - cbn [string_forallb] in Hp. apply andb_true_iff in Hp as [Hc Hp].
    destruct (IH Hp) as [ns Hns].
    rewrite string_app_cons, match_star_unfold, Hns.
    cbn [Re.atom_matches]. rewrite Hc. cbn. eauto.
Qed.

Lemma package_name_last_hyphen_digit (p rest : string) (d : ascii) :
  string_forallb (fun c => negb (Ascii.eqb c newline)) p = true ->
  is_digit d = true ->
  has_hyphen_digit (String d rest) = false ->
  package_name (p ++ String "-" (String d rest)) = Ok p.
Proof.
  intros Hp Hd Hrest.
  destruct (match_last_hyphen_digit p rest d Hp Hd Hrest) as [ns Hns].
  unfold package_name. rewrite Hns. by rewrite string_take_app.
Qed.

(* ===================================================================== *)
(** * Package names                                                       *)
(* ===================================================================== *)

(** C3. [package_name] is documented to return the part of the file name
    before the version number.  On a file name of the form
    name-version-build.ext whose build string starts with a digit, the
    greedy group runs up to the last hyphen that a digit follows and the
    version is returned as part of the name. *)
Theorem package_name_numeric_build :
  package_name "ca-certificates-2019.10.16-0.tar.bz2" = Ok "ca-certificates-2019.10.16"
  /\ package_name "name-1.2.3-0.ext" = Ok "name-1.2.3"
  /\ package_name "name-1.2.3-0.ext" <> Ok "name".
Proof. split; [reflexivity | split; [reflexivity | discriminate]]. Qed.

(** When the version starts with a digit and nothing after it holds a
    hyphen followed by a digit, the name is recovered. *)
Lemma package_name_alphabetic_build (pkg ver build : string) (d : ascii) :
  string_forallb (fun c => negb (Ascii.eqb c newline)) pkg = true ->
  is_digit d = true ->
  has_hyphen_digit (String d ver ++ "-" ++ build) = false ->
  package_name (pkg ++ "-" ++ String d ver ++ "-" ++ build) = Ok pkg.
Proof.
  intros Hp Hd Hrest.
  rewrite string_app_cons, string_app_nil, string_app_cons.
  by apply package_name_last_hyphen_digit.
Qed.

(* ===================================================================== *)
(** * The installer file name                                             *)
(* ===================================================================== *)

(** C8, as the code has it.  On the three systems the tables know, and for
    the one architecture key they know, the rendered name is the
    distribution, immediately followed by the Python major version of the
    class, then hyphen, version, hyphen, platform, hyphen, architecture,
    dot, extension. *)
Theorem installer_name_rendered `{Host} (c : InstallerClass) (d : string) :
  platform_system = "Windows" \/ platform_system = "Linux" \/ platform_system = "Darwin" ->
  bitness c = "64bit" ->
  exists plat ext,
    In (platform_system, plat, ext)
      [("Windows", "Windows", "exe"); ("Linux", "Linux", "sh"); ("Darwin", "MacOSX", "sh")]
    /\ installer_name c d
       = Ok (d ++ conda_python_version c ++ "-" ++ version c ++ "-"
               ++ plat ++ "-" ++ "x86_64" ++ "." ++ ext).
Proof.
  intros Hsys Hbit. unfold installer_name. rewrite Hbit.
  destruct Hsys as [-> | [-> | ->]].
  - exists "Windows", "exe". split; [simpl; auto | reflexivity].
  - exists "Linux", "sh". split; [simpl; auto | reflexivity].
  - exists "MacOSX", "sh". split; [simpl; auto | reflexivity].
Qed.

(** C8 fails as stated: the name the script renders on Linux has the
    Python major version between the distribution and the first hyphen,
    which the documented pattern does not allow. *)
Lemma installer_name_not_documented :
  @installer_name (example_linux 0) MinicondaOfflineInstaller "Miniconda"
    = Ok "Miniconda3-4.7.12.1-Linux-x86_64.sh"
  /\ ~ documented_installer_name "Miniconda3-4.7.12.1-Linux-x86_64.sh".
Proof.
  split; [reflexivity|].
  intros (prefix & ver & plat & arch & ext & [-> | ->] & Heq);
    rewrite ?string_app_cons, ?string_app_nil in Heq; discriminate Heq.
Qed.

Lemma installer_name_rendered_witness :
  exists plat ext,
    In ("Linux", plat, ext)
      [("Windows", "Windows", "exe"); ("Linux", "Linux", "sh"); ("Darwin", "MacOSX", "sh")]
    /\ @installer_name (example_linux 0) MinicondaOfflineInstaller "Miniconda"
       = Ok ("Miniconda" ++ "3" ++ "-" ++ "4.7.12.1" ++ "-"
               ++ plat ++ "-" ++ "x86_64" ++ "." ++ ext).
Proof.
  apply (@installer_name_rendered (example_linux 0) MinicondaOfflineInstaller "Miniconda").
  - right; left; reflexivity.
  - reflexivity.
Defined.

Lemma installer_name_unknown_system `{Host} (c : InstallerClass) (d : string) :
  platforms !! platform_system = None ->
  installer_name c d = Raise (KeyError platform_system).
Proof. intros Hnone. unfold installer_name, dict_get. by rewrite Hnone. Qed.

(* ===================================================================== *)
(** * Package-manager invocations                                         *)
(* ===================================================================== *)

Ltac run_monad :=
  unfold mbind, M_bind, mret, M_ret, raise, lift, try_except, print,
    with_fs, get_fs, set_fs, set_registry; cbn [fst snd].

Section PkgManager.
Context `{Host}.

Lemma run_pkg_manager_started (n : string) (extra specs : list string)
    (w : World) (old_path : string) :
  (IS_WINDOWS = true -> os_environ !! "PATH" = Some old_path) ->
  _run_pkg_manager n extra specs w =
  (let args := (_args_for n :: extra ++ specs)%list in
   outcome ← subprocess_call args (child_env old_path);
   if negb (outcome =? 0)%Z then
     print (VStr "_run_pkg_manager fail info") ;;
     print (VList args) ;;
     print (VDict (child_env old_path)) ;;
     raise (RuntimeError
              (VStr ("Could not install " ++ join " " specs ++ " with " ++ n)))
   else mret tt) w.
Proof.
  intros Hpath. unfold _run_pkg_manager, child_env.
  destruct IS_WINDOWS eqn:HW.
  - rewrite lookup_insert_ne by discriminate. rewrite (Hpath eq_refl).
    reflexivity.
  - reflexivity.
Qed.

(** What the exit code of the child decides. *)
Lemma run_pkg_manager_outcome (n : string) (extra specs : list string)
    (w : World) (old_path : string) (code : Z)
    (f : gmap string node) (r : gmap (hkey * string) reg_key) :
  (IS_WINDOWS = true -> os_environ !! "PATH" = Some old_path) ->
  let args := (_args_for n :: extra ++ specs)%list in
  let env := child_env old_path in
  run_child args env (fs w) (registry w) = Ok (code, f, r) ->
  let w' := (_run_pkg_manager n extra specs w).2 in
  fs w' = f /\ registry w' = r
  /\ calls w' = (calls w ++ [(args, env)])%list
  /\ (code <> 0%Z ->
      (_run_pkg_manager n extra specs w).1
        = Raise (RuntimeError
                   (VStr ("Could not install " ++ join " " specs ++ " with " ++ n)))
      /\ stdout w'
         = (stdout w ++ [VStr "_run_pkg_manager fail info"; VList args; VDict env])%list)
  /\ (code = 0%Z ->
      (_run_pkg_manager n extra specs w).1 = Ok tt
      /\ stdout w' = stdout w).
Proof.
  intros Hpath args env Hrun.
  rewrite (run_pkg_manager_started _ _ _ _ _ Hpath).
  fold args env. run_monad. unfold subprocess_call. cbn [fs registry].
  rewrite Hrun.
  destruct (Z.eqb_spec code 0) as [-> | Hne]; cbn.
  - repeat split; try done.
  - repeat split; try done.
    by rewrite <- !app_assoc.
Qed.

End PkgManager.

(* ===================================================================== *)
(** * The pipeline as a sequence of steps                                 *)
(* ===================================================================== *)

Lemma M_bind_assoc {A B C} (m : M A) (f : A -> M B) (g : B -> M C) (w : World) :
  ((m ≫= f) ≫= g) w = (m ≫= (fun x => f x ≫= g)) w.
Proof.
  unfold mbind, M_bind. destruct (m w) as [[a|e] w1]; [|reflexivity].
  reflexivity.
Qed.

Lemma M_bind_ext {A B} (m : M A) (f g : A -> M B) (w : World) :
  (forall a w1, f a w1 = g a w1) -> (m ≫= f) w = (m ≫= g) w.
Proof.
  intros Hfg. unfold mbind, M_bind. destruct (m w) as [[a|e] w1]; [apply Hfg | reflexivity].
Qed.


Section Pipeline.
Context `{Host}.
Variable self : Self.

Lemma build_is_run_steps (w : World) :
  build self w = run_steps (build_steps self) w.
Proof.
  unfold build, build_steps, run_steps, reset_step, mbind, M_bind, mret, M_ret.
  destruct (print _ w) as [[[]|e0] w0]; [|reflexivity].
  destruct (clean_build_and_output self w0) as [[[]|e1] w1]; [|reflexivity].
  destruct (with_fs (fs_makedirs build_install_dir) w1) as [[[]|e2] w2]; [|reflexivity].
  destruct (with_fs (fs_makedirs (output_dir (cls self))) w2) as [[[]|e3] w3];
    [|reflexivity].
  repeat match goal with
         | |- context [let (_, _) := ?m ?w in _] =>
             destruct (m w) as [[[]|?] ?]; [|reflexivity]
         end.
  reflexivity.
Qed.

Lemma run_steps_cons (banner : string) (action : M unit)
    (rest : list (string * M unit)) (w : World) :
  run_steps ((banner, action) :: rest) w =
  match action (print (VStr banner) w).2 with
  | (Ok _, w1) => run_steps rest w1
  | (Raise e, w1) => (Raise e, w1)
  end.
Proof. reflexivity. Qed.

Lemma run_steps_runs (steps : list (string * M unit)) (w : World) :
  runs steps w (run_steps steps w).1 (run_steps steps w).2.
Proof.
  revert w. induction steps as [|[banner action] rest IH]; intros w.
  - apply runs_done.
  - rewrite run_steps_cons.
    destruct (action _) as [[[]|e] w1] eqn:Hact.
    + eapply runs_step; [exact Hact | apply IH].
    + eapply runs_abort. exact Hact.
Qed.

(** The two places where an exception is caught inside a step. *)
Lemma clean_build_and_output_never_raises (w : World) :
  (clean_build_and_output self w).1 = Ok tt.
Proof.
  unfold clean_build_and_output. run_monad.
  destruct (fs_rmtree (output_dir (cls self)) (fs w)); cbn;
    destruct (fs_rmtree build_install_dir _); reflexivity.
Qed.

Lemma index_offline_channel_swallows (w : World) :
  index_offline_channel self w =
  conda_index (output_conda_offline_channel (cls self))
    (AnacondaMixin_conda_install ["conda-build"] w).2.
Proof.
  unfold index_offline_channel. run_monad.
  destruct (AnacondaMixin_conda_install ["conda-build"] w) as [[[]|e] w1];
    reflexivity.
Qed.

(** C1, as the code has it.  [build] is one forward-only run of its
    eleven announced steps, in the order of the source: every step is
    started once, on the world its predecessor left, and the first
    exception that leaves a step ends the run and is the result of
    [build].  Two failures never leave their step: a failed directory
    removal in the reset step, and a failed installation of conda-build
    at the start of the index step. *)
Theorem build_forward_only (w : World) :
  runs (build_steps self) w (build self w).1 (build self w).2
  /\ map fst (build_steps self) =
     ["Cleaning up build and output directories";
      "Getting installer";
      "Check there are no condarc files around";
      "Install anaconda in the build directory";
      "Pin python version";
      "Remove conda packages that were part of the installer";
      "Download updates so that we can distribute them consistently";
      "Fetch packages";
      "Copy packages to output directory";
      "Create index of offline channel";
      "Create install script"]
  /\ (forall w0, (clean_build_and_output self w0).1 = Ok tt)
  /\ (forall w0,
        index_offline_channel self w0 =
        conda_index (output_conda_offline_channel (cls self))
          (AnacondaMixin_conda_install ["conda-build"] w0).2).
Proof.
  split; [|split; [reflexivity|split]].
  - rewrite build_is_run_steps. apply run_steps_runs.
  - apply clean_build_and_output_never_raises.
  - apply index_offline_channel_swallows.
Qed.

End Pipeline.

(** C1 fails as stated: on a host where the plain installation of
    conda-build exits with code 1, that invocation raises [RuntimeError]
    in whatever world it runs, the failure report is printed during the
    index step, and the run still goes on to the last step and returns
    normally. *)
Lemma build_survives_failed_install :
  (forall w,
     (@AnacondaMixin_conda_install (example_linux 1) ["conda-build"] w).1
     = Raise (RuntimeError (VStr "Could not install conda-build with conda")))
  /\ (@main (example_linux 1) empty_world).1 = Ok tt
  /\ stdout (@main (example_linux 1) empty_world).2 !! 12%nat
     = Some (VStr "_run_pkg_manager fail info")
  /\ last (stdout (@main (example_linux 1) empty_world).2)
     = Some (VStr "Create install script").
Proof.
  split; [|split; [|split]]; vm_compute; reflexivity.
Qed.

(* ===================================================================== *)
(** * A failed package-manager command and the run                        *)
(* ===================================================================== *)

Section FailedCommand.
Context `{Host}.
Variable self : Self.

Lemma run_steps_app (pre post : list (string * M unit)) (w : World) :
  run_steps (pre ++ post) w =
  match run_steps pre w with
  | (Ok _, w1) => run_steps post w1
  | (Raise e, w1) => (Raise e, w1)
  end.
Proof.
  revert w. induction pre as [|[banner action] pre IH]; intros w; [reflexivity|].
  cbn [app]. rewrite !run_steps_cons.
  destruct (action _) as [[[]|e] w1]; [apply IH|reflexivity].
Qed.

(** An exception that leaves a step of [build] ends the run there. *)
Lemma build_aborts_at (pre rest : list (string * M unit)) (banner : string)
    (action : M unit) (w w1 w2 : World) (e : exn) :
  build_steps self = (pre ++ (banner, action) :: rest)%list ->
  run_steps pre w = (Ok tt, w1) ->
  action (print (VStr banner) w1).2 = (Raise e, w2) ->
  build self w = (Raise e, w2).
Proof.
  intros Hsteps Hpre Hact.
  rewrite build_is_run_steps, Hsteps, run_steps_app, Hpre, run_steps_cons.
  by rewrite Hact.
Qed.

(** C4. Once the child process has run, its exit code decides: a
    non-zero code prints the marker line, the argument list and the
    environment, in that order, and raises [RuntimeError]; a zero code
    prints nothing and returns normally.  The exception ends the run when
    the command is a step of [build] by itself, as the cache clean-up, the
    update and the fetch of the base packages are, and when it is the
    index command; the exception of the plain installation of conda-build
    is dropped by the index step, which goes on to the index command. *)
Theorem run_pkg_manager_exit_code (n : string) (extra specs : list string)
    (w : World) (old_path : string) (code : Z)
    (f : gmap string node) (r : gmap (hkey * string) reg_key) :
  (IS_WINDOWS = true -> os_environ !! "PATH" = Some old_path) ->
  let args := (_args_for n :: extra ++ specs)%list in
  let env := child_env old_path in
  run_child args env (fs w) (registry w) = Ok (code, f, r) ->
  let w' := (_run_pkg_manager n extra specs w).2 in
  let failure :=
    RuntimeError (VStr ("Could not install " ++ join " " specs ++ " with " ++ n)) in
  fs w' = f /\ registry w' = r
  /\ calls w' = (calls w ++ [(args, env)])%list
  /\ (code <> 0%Z ->
      (_run_pkg_manager n extra specs w).1 = Raise failure
      /\ stdout w'
         = (stdout w ++ [VStr "_run_pkg_manager fail info"; VList args; VDict env])%list)
  /\ (code = 0%Z ->
      (_run_pkg_manager n extra specs w).1 = Ok tt
      /\ stdout w' = stdout w)
  /\ (code <> 0%Z ->
      forall pre banner rest w0 w1,
        build_steps self
        = (pre ++ (banner, _run_pkg_manager n extra specs) :: rest)%list ->
        run_steps pre w0 = (Ok tt, w1) ->
        w = (print (VStr banner) w1).2 ->
        build self w0 = (Raise failure, w'))
  /\ (exists pre rest,
        build_steps self
        = (pre ++ ("Remove conda packages that were part of the installer",
                   _run_pkg_manager "conda" ["clean"; "-y"; "--all"] []) :: rest)%list)
  /\ (exists pre rest,
        build_steps self
        = (pre ++ ("Download updates so that we can distribute them consistently",
                   _run_pkg_manager "conda" ["update"; "-y"; "--all"] []) :: rest)%list)
  /\ (exists pre rest,
        build_steps self
        = (pre ++ ("Fetch packages",
                   _run_pkg_manager "conda" ["install"; "-y"; "--download-only"]
                     (base_conda_packages (cls self))) :: rest)%list)
  /\ (n = "conda" -> extra = ["install"; "-y"] -> specs = ["conda-build"] ->
      index_offline_channel self w
      = _run_pkg_manager "conda"
          ["index"; "-p"; os_path_join script_dir ["repodata-hotfixes/main.py"];
           output_conda_offline_channel (cls self)] [] w')
  /\ (forall pre rest w0 w1,
        build_steps self
        = (pre ++ ("Create index of offline channel", index_offline_channel self)
               :: rest)%list ->
        run_steps pre w0 = (Ok tt, w1) ->
        n = "conda" ->
        extra = ["index"; "-p"; os_path_join script_dir ["repodata-hotfixes/main.py"];
                 output_conda_offline_channel (cls self)] ->
        specs = [] ->
        w = (AnacondaMixin_conda_install ["conda-build"]
               (print (VStr "Create index of offline channel") w1).2).2 ->
        code <> 0%Z ->
        build self w0 = (Raise failure, w')).
Proof.
  intros Hpath args env Hrun w' failure.
  destruct (run_pkg_manager_outcome n extra specs w old_path code f r Hpath Hrun)
    as (Hf & Hr & Hc & Hbad & Hgood).
  fold args env w' in Hf, Hr, Hc, Hbad, Hgood.
  assert (forall w0, index_offline_channel self w0
                     = conda_index (output_conda_offline_channel (cls self))
                         (AnacondaMixin_conda_install ["conda-build"] w0).2) as Hindex.
  { intros w0. unfold index_offline_channel, try_except, mbind, M_bind, mret, M_ret.
    by destruct (AnacondaMixin_conda_install ["conda-build"] w0) as [[[]|e] w2]. }
  split; [done|]. split; [done|]. split; [done|]. split; [done|]. split; [done|].
  split; [|split; [|split; [|split; [|split]]]].
  - intros Hcode pre banner rest w0 w1 Hsteps Hpre ->.
    apply (build_aborts_at pre rest banner _ w0 w1 _ _ Hsteps Hpre).
    destruct (Hbad Hcode) as [Hres _]. fold failure in Hres. subst w'.
    by destruct (_run_pkg_manager n extra specs _) as [res w2]; cbn [fst snd] in *; subst.
  - by exists (firstn 5 (build_steps self)), (skipn 6 (build_steps self)).
  - by exists (firstn 6 (build_steps self)), (skipn 7 (build_steps self)).
  - by exists (firstn 7 (build_steps self)), (skipn 8 (build_steps self)).
  - intros -> -> ->. apply Hindex.
  - intros pre rest w0 w1 Hsteps Hpre -> -> -> -> Hcode.
    apply (build_aborts_at pre rest _ _ w0 w1 _ _ Hsteps Hpre).
    rewrite Hindex. unfold conda_index.
    destruct (Hbad Hcode) as [Hres _]. fold failure in Hres. subst w'.
    by destruct (_run_pkg_manager _ _ _ _) as [res w2]; cbn [fst snd] in *; subst.
Qed.

End FailedCommand.

Lemma run_pkg_manager_exit_code_witness :
  (@build (example_conda_exit 1) linux_self empty_world).1
  = Raise (RuntimeError (VStr "Could not install  with conda")).
Proof.
  set (pre := firstn 5 (@build_steps (example_conda_exit 1) linux_self)).
  set (w1 := (run_steps pre empty_world).2).
  set (w := (print (VStr "Remove conda packages that were part of the installer") w1).2).
  destruct (@run_pkg_manager_exit_code (example_conda_exit 1) linux_self
              "conda" ["clean"; "-y"; "--all"] [] w "" 1%Z (fs w) (registry w))
    as (_ & _ & _ & _ & _ & Habort & _).
  - discriminate.
  - reflexivity.
  - rewrite (Habort ltac:(discriminate) pre
               "Remove conda packages that were part of the installer"
               (skipn 6 (@build_steps (example_conda_exit 1) linux_self))
               empty_world w1).
    + reflexivity.
    + reflexivity.
    + subst w1 pre. vm_compute; reflexivity.
    + reflexivity.
Defined.

(** C4 fails as stated: where the plain installation of conda-build exits
    with code 1, [_run_pkg_manager] prints its report and raises, and yet
    the index step that started it returns normally and the run goes on to
    its end. *)
Lemma failed_command_does_not_abort :
  (@_run_pkg_manager (example_linux 1) "conda" ["install"; "-y"] ["conda-build"]
     cache_world).1
  = Raise (RuntimeError (VStr "Could not install conda-build with conda"))
  /\ stdout (@index_offline_channel (example_linux 1) linux_self cache_world).2 !! 0%nat
     = Some (VStr "_run_pkg_manager fail info")
  /\ (@index_offline_channel (example_linux 1) linux_self cache_world).1 = Ok tt
  /\ (@main (example_linux 1) empty_world).1 = Ok tt.
Proof.
  split; [|split; [|split]]; vm_compute; reflexivity.
Qed.

(* ===================================================================== *)
(** * Which child processes a computation starts                          *)
(* ===================================================================== *)

Lemma silent_ret {A} (a : A) : silent (mret a : M A).
Proof. intros w. reflexivity. Qed.

Lemma silent_raise {A} (e : exn) : silent (raise e : M A).
Proof. intros w. reflexivity. Qed.

Lemma silent_lift {A} (r : result A) : silent (lift r).
Proof. intros w. reflexivity. Qed.

Lemma silent_print (v : pyval) : silent (print v).
Proof. intros w. reflexivity. Qed.

Lemma silent_get_fs : silent get_fs.
Proof. intros w. reflexivity. Qed.

Lemma silent_with_fs (op : gmap string node -> result (gmap string node)) :
  silent (with_fs op).
Proof. intros w. unfold with_fs. destruct (op (fs w)); reflexivity. Qed.

Lemma silent_bind {A B} (m : M A) (f : A -> M B) :
  silent m -> (forall a, silent (f a)) -> silent (m ≫= f).
Proof.
  intros Hm Hf w. unfold mbind, M_bind. specialize (Hm w).
  destruct (m w) as [[a|e] w1]; cbn in *; [|exact Hm].
  rewrite (Hf a w1). exact Hm.
Qed.

Lemma silent_try_except {A} (m : M A) (h : exn -> M A) :
  silent m -> (forall e, silent (h e)) -> silent (try_except m h).
Proof.
  intros Hm Hh w. unfold try_except. specialize (Hm w).
  destruct (m w) as [[a|e] w1]; cbn in *; [exact Hm|].
  rewrite (Hh e w1). exact Hm.
Qed.

Lemma silent_for_each {A} (l : list A) (body : A -> M unit) :
  (forall a, silent (body a)) -> silent (for_each l body).
Proof.
  intros Hb. induction l as [|a l IH]; cbn [for_each].
  - apply silent_ret.
  - apply silent_bind; [apply Hb | intros _; exact IH].
Qed.

Create HintDb silent.
#[export] Hint Resolve silent_ret silent_raise silent_lift silent_print silent_get_fs
  silent_with_fs silent_bind silent_try_except silent_for_each : silent.

Section Silent.
Context `{Host}.

Lemma silent_remove_from_key (pathname var : string) (rk : hkey * string) :
  silent (remove_from_key pathname var rk).
Proof.
  unfold remove_from_key.
  apply silent_bind.
  { intros w. unfold reg_OpenKey.
    destruct (registry w !! _) as [k|]; [destruct (rk_access k)|]; reflexivity. }
  intros key. apply silent_bind.
  { apply silent_try_except.
    - apply silent_bind; [|auto with silent].
      intros w. unfold reg_QueryValueEx.
      destruct (registry w !! key) as [k|]; [destruct (rk_values k !! var)|]; reflexivity.
    - intros []; unfold reg_CloseKey; auto with silent. }
  intros [[d ty]|]; [|auto with silent].
  apply silent_try_except; [|intros; unfold reg_CloseKey; auto with silent].
  apply silent_bind.
  { destruct d; cbn [data_split fst]; auto with silent. }
  intros vs. destruct (fold_left _ vs _) as [[] results]; [|auto with silent].
  intros w. unfold reg_SetValueEx. destruct (registry w !! key); reflexivity.
Qed.

Lemma silent_remove_from_system_path (pathname : string) (allusers : bool) (var : string) :
  silent (remove_from_system_path pathname allusers var).
Proof.
  unfold remove_from_system_path. apply silent_for_each.
  intros rk. apply silent_remove_from_key.
Qed.

Lemma silent_clean_up_system_path : silent _clean_up_system_path.
Proof.
  unfold _clean_up_system_path.
  apply silent_bind; [apply silent_get_fs|]. intros f.
  apply silent_bind; [apply silent_remove_from_system_path|]. intros _.
  apply silent_bind; [apply silent_remove_from_system_path|]. intros _.
  intros w. reflexivity.
Qed.

End Silent.

Lemma logs_silent {A} (m : M A) : silent m -> logs m [].
Proof.
  intros Hm w. exists []. rewrite app_nil_r. split; [apply Hm|]. split; [done|done].
Qed.

Lemma logs_bind_silent {A B} (m : M A) (f : A -> M B) L :
  silent m -> (forall a, logs (f a) L) -> logs (m ≫= f) L.
Proof.
  intros Hm Hf w. unfold mbind, M_bind. specialize (Hm w).
  destruct (m w) as [[a|e] w1]; cbn in *.
  - destruct (Hf a w1) as (l & Hl & Hpre & Hok). exists l. by rewrite Hl, Hm.
  - exists []. rewrite app_nil_r. split; [done|]. split; [apply prefix_nil|done].
Qed.

Lemma logs_bind_always {A B} (m : M A) (f : A -> M B) l0 L :
  always m l0 -> (forall a, logs (f a) L) -> logs (m ≫= f) (l0 ++ L).
Proof.
  intros Hm Hf w. unfold mbind, M_bind. specialize (Hm w).
  destruct (m w) as [[a|e] w1]; cbn in *.
  - destruct (Hf a w1) as (l & Hl & Hpre & Hok). exists (l0 ++ l)%list.
    rewrite Hl, Hm, app_assoc. split; [done|]. split.
    + by apply prefix_app.
    + intros Hyes. by rewrite (Hok Hyes).
  - exists l0. split; [done|]. split; [by apply prefix_app_r|done].
Qed.

Section CallLog.
Context `{Host}.
Variable self : Self.
Variable old_path : string.
Hypothesis path_set : IS_WINDOWS = true -> os_environ !! "PATH" = Some old_path.

Lemma always_run_pkg_manager (n : string) (extra specs : list string) :
  always (_run_pkg_manager n extra specs)
    [((_args_for n :: extra ++ specs)%list, child_env old_path)].
Proof.
  intros w. rewrite (run_pkg_manager_started _ _ _ _ _ path_set).
  run_monad. unfold subprocess_call.
  destruct (run_child _ _ _ _) as [[[code f] r]|e]; [|reflexivity].
  destruct (negb (code =? 0)%Z); cbn; reflexivity.
Qed.

Lemma always_install_anaconda :
  always (install_anaconda self) [(install_args self, os_environ)].
Proof.
  intros w. unfold install_anaconda.
  unfold mbind, M_bind at 1. unfold print at 1.
  unfold mbind, M_bind at 1. unfold subprocess_call at 1. cbn [fs registry].
  destruct (run_child _ _ _ _) as [[[code f] r]|e]; [|reflexivity].
  unfold mbind, M_bind.
  destruct IS_WINDOWS.
  - pose proof (silent_clean_up_system_path
                  (set_registry r (set_fs f
                     {| fs := fs w; registry := registry w;
                        stdout := (stdout w ++ [VFormat "Running %s" (install_args self)])%list;
                        calls := (calls w ++ [(install_args self, os_environ)])%list;
                        broadcasts := broadcasts w |}))) as Hs.
    destruct (_clean_up_system_path _) as [[[]|e] w1]; cbn in Hs |- *; [|exact Hs].
    destruct (negb (code =? 0)%Z); cbn; exact Hs.
  - cbn. destruct (negb (code =? 0)%Z); reflexivity.
Qed.

Lemma always_index_offline_channel :
  always (index_offline_channel self)
    [(_args_for "conda" :: ["install"; "-y"; "conda-build"], child_env old_path);
     (_args_for "conda" :: ["index"; "-p";
                            os_path_join script_dir ["repodata-hotfixes/main.py"];
                            output_conda_offline_channel (cls self)],
      child_env old_path)].
Proof.
  intros w. rewrite index_offline_channel_swallows.
  unfold conda_index. rewrite always_run_pkg_manager.
  unfold AnacondaMixin_conda_install. rewrite always_run_pkg_manager.
  by rewrite <- app_assoc.
Qed.

Lemma silent_copy_loop (dest : string) (packages : list string) (known : gset string) :
  silent (copy_loop dest packages known).
Proof.
  revert known. induction packages as [|p packages IH]; intros known; cbn [copy_loop].
  - apply silent_ret.
  - apply silent_bind; [apply silent_lift|]. intros n.
    apply silent_bind; [apply silent_with_fs|]. intros _. apply IH.
Qed.

Lemma silent_copy_packages : silent (copy_packages self).
Proof.
  unfold copy_packages.
  repeat (apply silent_bind;
          [first [apply silent_with_fs | apply silent_get_fs | apply silent_copy_loop]
          | intros ?]).
  apply silent_ret.
Qed.

Lemma silent_write_install_script : silent (write_install_script self).
Proof.
  unfold write_install_script. destruct (os_path_split _) as [d e].
  apply silent_bind; [apply silent_with_fs|]. intros _.
  destruct (negb _); auto with silent.
Qed.

Lemma silent_get_source_packages_from_mirror :
  silent (get_source_packages_from_mirror self).
Proof. unfold get_source_packages_from_mirror. auto 10 with silent. Qed.

Lemma silent_check_condarc_presence : silent check_condarc_presence.
Proof.
  unfold check_condarc_presence. apply silent_for_each. intros path.
  apply silent_bind; [apply silent_get_fs|]. intros f.
  destruct (os_path_exists _ _); auto with silent.
Qed.

Lemma silent_clean_build_and_output : silent (clean_build_and_output self).
Proof. unfold clean_build_and_output. auto 10 with silent. Qed.

(** The child processes of a run of [build], in order. *)
Lemma build_logs : logs (build self) (expected_calls self old_path).
Proof.
  unfold build, expected_calls, conda_invocations.
  apply logs_bind_silent; [apply silent_print | intros _].
  apply logs_bind_silent; [apply silent_clean_build_and_output | intros _].
  apply logs_bind_silent; [apply silent_with_fs | intros _].
  apply logs_bind_silent; [apply silent_with_fs | intros _].
  apply logs_bind_silent; [apply silent_print | intros _].
  apply logs_bind_silent; [apply silent_get_source_packages_from_mirror | intros _].
  apply logs_bind_silent; [apply silent_print | intros _].
  apply logs_bind_silent; [apply silent_check_condarc_presence | intros _].
  apply logs_bind_silent; [apply silent_print | intros _].
  apply (logs_bind_always _ _ [_]); [apply always_install_anaconda | intros _].
  apply logs_bind_silent; [apply silent_print | intros _].
  apply logs_bind_silent; [apply silent_with_fs | intros _].
  apply logs_bind_silent; [apply silent_print | intros _].
  apply (logs_bind_always _ _ [_]); [apply always_run_pkg_manager | intros _].
  apply logs_bind_silent; [apply silent_print | intros _].
  apply (logs_bind_always _ _ [_]); [apply always_run_pkg_manager | intros _].
  apply logs_bind_silent; [apply silent_print | intros _].
  apply (logs_bind_always _ _ [_]); [apply always_run_pkg_manager | intros _].
  apply logs_bind_silent; [apply silent_print | intros _].
  apply logs_bind_silent; [apply silent_copy_packages | intros _].
  apply logs_bind_silent; [apply silent_print | intros _].
  apply (logs_bind_always _ _ [_; _] []); [apply always_index_offline_channel | intros _].
  apply logs_bind_silent; [apply silent_print | intros _].
  apply logs_silent, silent_write_install_script.
Qed.

Lemma string_length_app (a b : string) :
  String.length (a ++ b) = (String.length a + String.length b)%nat.
Proof.
  induction a as [|x a IH]; [reflexivity|].
  rewrite string_app_cons. cbn [String.length]. by rewrite IH.
Qed.

Lemma join2_length (a b : string) : (String.length b <= String.length (join2 a b))%nat.
Proof.
  unfold join2. destruct (first_is_sep b); [lia|].
  destruct (String.eqb a "" || last_is_sep a); rewrite string_length_app; [lia|].
  cbn [String.length]. lia.
Qed.

(** C9. The index step first tries to install conda-build with the
    base-class [conda_install] and goes on to index the channel whatever
    that attempt did, any exception included.  The attempt is a plain
    [install -y].  Of the package-manager commands of a run only the fetch
    of the base packages carries [--download-only]: the installation of
    conda-build is the one use of the [install] subcommand without it, and
    the update, which fetches packages too, runs without it as well. *)
Theorem index_installs_conda_build_for_real :
  (forall w,
     index_offline_channel self w =
     conda_index (output_conda_offline_channel (cls self))
       (AnacondaMixin_conda_install ["conda-build"] w).2)
  /\ (forall w,
        calls (AnacondaMixin_conda_install ["conda-build"] w).2 =
        (calls w ++ [(_args_for "conda" :: ["install"; "-y"; "conda-build"],
                      child_env old_path)])%list)
  /\ logs (build self) (expected_calls self old_path)
  /\ (forall rest,
        In (_args_for "conda" :: "install" :: rest) (conda_invocations self) ->
        rest = ["-y"; "conda-build"] \/ In "--download-only" rest)
  /\ ~ In "--download-only" ["-y"; "conda-build"]
  /\ (forall sub rest,
        In (_args_for "conda" :: sub :: rest) (conda_invocations self) ->
        In "--download-only" rest ->
        sub = "install"
        /\ rest = "-y" :: "--download-only" :: base_conda_packages (cls self))
  /\ In (_args_for "conda" :: ["update"; "-y"; "--all"]) (conda_invocations self)
  /\ ~ In "--download-only" ["update"; "-y"; "--all"].
Proof.
  split; [apply index_offline_channel_swallows|].
  split; [intros w; apply always_run_pkg_manager|].
  split; [apply build_logs|].
  split; [|split; [|split; [|split]]].
  - intros rest Hin. unfold conda_invocations in Hin. cbn [In] in Hin.
    destruct Hin as [Hin | [Hin | [Hin | [Hin | [Hin | []]]]]];
      try discriminate Hin.
    + injection Hin as <-. right. cbn. auto.
    + injection Hin as <-. by left.
  - cbn. intros [Hin | [Hin | []]]; discriminate Hin.
  - intros sub rest Hin Hflag. unfold conda_invocations in Hin. cbn [In] in Hin.
    destruct Hin as [Hin | [Hin | [Hin | [Hin | [Hin | []]]]]].
    + injection Hin as <- <-. cbn in Hflag. by destruct Hflag as [?|[?|[]]].
    + injection Hin as <- <-. cbn in Hflag. by destruct Hflag as [?|[?|[]]].
    + injection Hin as <- <-. done.
    + injection Hin as <- <-. cbn in Hflag. by destruct Hflag as [?|[?|[]]].
    + injection Hin as <- <-. exfalso. cbn [In] in Hflag.
      destruct Hflag as [Hf|[Hf|[Hf|[]]]]; [done| |].
      * pose proof (join2_length script_dir "repodata-hotfixes/main.py") as Hlen.
        cbn [os_path_join fold_left] in Hf. rewrite Hf in Hlen. cbn in Hlen. lia.
      * pose proof (join2_length (output_dir (cls self)) "conda_offline_channel") as Hlen.
        unfold output_conda_offline_channel in Hf.
        cbn [os_path_join fold_left] in Hf. rewrite Hf in Hlen. cbn in Hlen. lia.
  - unfold conda_invocations. cbn [In]. auto.
  - cbn [In]. intros [Hf|[Hf|[Hf|[]]]]; discriminate Hf.
Qed.

End CallLog.

Lemma index_installs_conda_build_for_real_witness :
  logs (@build (example_linux 1) linux_self)
    (@expected_calls (example_linux 1) linux_self "").
Proof.
  destruct (@index_installs_conda_build_for_real (example_linux 1) linux_self "")
    as (_ & _ & Hlogs & _).
  - discriminate.
  - exact Hlogs.
Defined.

(** C9 fails as stated: in a complete run the update, the third child
    process, fetches packages with [update -y --all], without
    [--download-only], as the installation of conda-build, the fifth, does
    with [install -y]. *)
Lemma update_fetches_for_real :
  (@main (example_linux 0) empty_world).1 = Ok tt
  /\ fst <$> calls (@main (example_linux 0) empty_world).2 !! 2%nat
     = Some ["build_temp/bin/conda"; "update"; "-y"; "--all"]
  /\ fst <$> calls (@main (example_linux 0) empty_world).2 !! 4%nat
     = Some ["build_temp/bin/conda"; "install"; "-y"; "conda-build"]
  /\ ~ In "--download-only" ["build_temp/bin/conda"; "update"; "-y"; "--all"].
Proof.
  split; [|split; [|split]]; [vm_compute; reflexivity..|].
  cbn [In]. intros [Hf|[Hf|[Hf|[Hf|[]]]]]; discriminate Hf.
Qed.

(* ===================================================================== *)
(** * Paths and the file system                                           *)
(* ===================================================================== *)

Lemma string_app_assoc (a b c : string) : (a ++ b) ++ c = a ++ b ++ c.
Proof.
  induction a as [|x a IH]; [reflexivity|].
  rewrite !string_app_cons. by rewrite IH.
Qed.

Lemma string_app_nil_r (a : string) : a ++ "" = a.
Proof.
  induction a as [|x a IH]; [reflexivity|].
  rewrite string_app_cons. by rewrite IH.
Qed.

Lemma string_app_inv_head (a b c : string) : a ++ b = a ++ c -> b = c.
Proof.
  induction a as [|x a IH]; [done|].
  rewrite !string_app_cons. intros [= Heq]. auto.
Qed.

Lemma strip_prefix_Some (p s r : string) :
  strip_prefix p s = Some r <-> s = p ++ r.
Proof.
  revert s. induction p as [|a p IH]; intros s; cbn [strip_prefix].
  - rewrite string_app_nil. split; [intros [= ->]; reflexivity | intros ->; reflexivity].
  - rewrite string_app_cons. destruct s as [|b s].
    + split; [discriminate | intros Heq; discriminate Heq].
    + destruct (Ascii.eqb_spec a b) as [->|Hne].
      * rewrite IH. split; [intros ->; reflexivity | intros [= ->]; reflexivity].
      * split; [discriminate | intros [= Hab _]; congruence].
Qed.

Section Paths.
Context `{Host}.

Lemma is_under_spec (d p : string) :
  is_under d p = true <-> exists r, p = d ++ String os_sep r.
Proof.
  unfold is_under. destruct (strip_prefix _ p) as [r|] eqn:Hs.
  - apply strip_prefix_Some in Hs. split; [|done]. intros _. exists r.
    by rewrite Hs, string_app_assoc.
  - split; [discriminate|]. intros [r Hr].
    assert (strip_prefix (d ++ String os_sep "") p = Some r) as Hs'.
    { apply strip_prefix_Some. by rewrite Hr, string_app_assoc. }
    congruence.
Qed.

Lemma is_under_trans (a b c : string) :
  is_under a b = true -> is_under b c = true -> is_under a c = true.
Proof.
  rewrite !is_under_spec. intros [r1 ->] [r2 ->].
  exists (r1 ++ String os_sep r2). by rewrite string_app_assoc.
Qed.

Lemma is_under_irrefl (d : string) : is_under d d = false.
Proof.
  destruct (is_under d d) eqn:Hu; [|done].
  apply is_under_spec in Hu as [r Hr].
  apply (f_equal String.length) in Hr. rewrite string_length_app in Hr.
  cbn in Hr. lia.
Qed.

(** Whatever lies below a prefix of [p] that ends before a separator is
    found by the scan. *)
Lemma prefix_dirs_go_complete (acc s1 r : string) :
  acc ++ s1 <> "" ->
  In (acc ++ s1) (prefix_dirs_go acc (s1 ++ String os_sep r)).
Proof.
  revert acc. induction s1 as [|c s1 IH]; intros acc Hne.
  - rewrite string_app_nil_r in *. rewrite string_app_nil.
    cbn [prefix_dirs_go]. rewrite Ascii.eqb_refl.
    destruct (String.eqb_spec acc ""); [done|]. cbn. by left.
  - rewrite string_app_cons. cbn [prefix_dirs_go].
    apply in_or_app. right.
    replace (acc ++ String c s1) with ((acc ++ String c "") ++ s1)
      by (by rewrite string_app_assoc).
    apply IH. by rewrite string_app_assoc.
Qed.

Lemma fs_wf_below (f : gmap string node) (d p : string) :
  fs_wf f -> d <> "" -> is_under d p = true -> is_Some (f !! p) ->
  f !! d = Some Dir.
Proof.
  unfold fs_wf. intros Hwf Hd Hu [v Hv].
  assert (In (p, v) (map_to_list f)) as Hin
    by (by apply list_elem_of_In, elem_of_map_to_list).
  pose proof (proj1 (forallb_forall _ _) Hwf _ Hin) as Hp. cbn in Hp.
  apply is_under_spec in Hu as [r ->].
  assert (In d (prefix_dirs_go "" (d ++ String os_sep r))) as Hd'.
  { apply (prefix_dirs_go_complete "" d r). by rewrite string_app_nil. }
  pose proof (proj1 (forallb_forall _ _) Hp _ Hd') as Hdir.
  unfold is_dir in Hdir. destruct (f !! d) as [[]|]; done || discriminate.
Qed.

Lemma prefix_dirs_go_sound (acc s d : string) :
  In d (prefix_dirs_go acc s) ->
  d <> "" /\ exists s1 r, s = s1 ++ String os_sep r /\ d = acc ++ s1.
Proof.
  revert acc. induction s as [|c s IH]; intros acc; cbn [prefix_dirs_go]; [done|].
  intros [Hin|Hin]%in_app_or.
  - destruct (Ascii.eqb_spec c os_sep) as [->|]; [|done].
    destruct (String.eqb_spec acc ""); [done|].
    destruct Hin as [<-|[]]. split; [done|].
    exists "", s. by rewrite string_app_nil, string_app_nil_r.
  - destruct (IH _ Hin) as (Hne & s1 & r & -> & ->). split; [done|].
    exists (String c s1), r. by rewrite string_app_assoc.
Qed.

Lemma prefix_dirs_under (p d : string) :
  In d (prefix_dirs_go "" p) -> d <> "" /\ is_under d p = true.
Proof.
  intros (Hne & s1 & r & -> & ->)%prefix_dirs_go_sound.
  rewrite string_app_nil in *. split; [done|]. apply is_under_spec. eauto.
Qed.

Lemma ancestors_prefix_dirs (acc s a : string) :
  In a (ancestors_go acc s) -> In a (prefix_dirs_go acc s).
Proof.
  revert acc. induction s as [|c s IH]; intros acc; cbn [ancestors_go prefix_dirs_go];
    [done|].
  intros [Hin|Hin]%in_app_or; apply in_or_app.
  - left. destruct (Ascii.eqb c os_sep); [|done].
    destruct (negb (String.eqb acc "")); [|done].
    by destruct (negb (last_is_sep acc)).
  - right. by apply IH.
Qed.

Lemma ancestors_under (p a : string) :
  In a (ancestors p) -> a <> "" /\ is_under a p = true.
Proof. intros Hin. by apply prefix_dirs_under, ancestors_prefix_dirs. Qed.


(** ** [shutil.rmtree] *)

Lemma fs_rmtree_gone (p k : string) (f f' : gmap string node) :
  fs_rmtree p f = Ok f' -> k = p \/ is_under p k = true -> f' !! k = None.
Proof.
  unfold fs_rmtree. destruct (f !! p) as [[]|]; try discriminate.
  intros [= <-] Hk. apply map_lookup_filter_None. right. intros x _ [Hne Hu]. cbn in *.
  destruct Hk as [->|Hk]; [done | congruence].
Qed.

Lemma fs_rmtree_kept (p k : string) (f f' : gmap string node) :
  fs_rmtree p f = Ok f' -> k <> p -> is_under p k = false -> f' !! k = f !! k.
Proof.
  unfold fs_rmtree. destruct (f !! p) as [[]|]; try discriminate.
  intros [= <-] Hne Hu. destruct (f !! k) as [v|] eqn:Hk.
  - apply map_lookup_filter_Some. by split.
  - apply map_lookup_filter_None. by left.
Qed.

Lemma fs_rmtree_sub (p k : string) (f f' : gmap string node) (v : node) :
  fs_rmtree p f = Ok f' -> f' !! k = Some v ->
  f !! k = Some v /\ k <> p /\ is_under p k = false.
Proof.
  intros Hrm Hk.
  destruct (decide (k = p)) as [->|Hne].
  { rewrite (fs_rmtree_gone _ _ _ _ Hrm) in Hk by auto. discriminate. }
  destruct (is_under p k) eqn:Hu.
  { rewrite (fs_rmtree_gone _ _ _ _ Hrm) in Hk by auto. discriminate. }
  by rewrite (fs_rmtree_kept _ _ _ _ Hrm) in Hk.
Qed.


(** ** [os.makedirs] *)

Lemma mkdir_chain_lookup (p : string) (qs : list string) (f f' : gmap string node) :
  mkdir_chain p qs f = Ok f' ->
  (forall k, f !! k = Some Dir -> f' !! k = Some Dir)
  /\ (forall k, ~ In k qs -> f' !! k = f !! k).
Proof.
  revert f. induction qs as [|q qs IH]; intros f; cbn [mkdir_chain].
  - intros [= <-]. done.
  - destruct (f !! q) as [[]|] eqn:Hq; [discriminate| |].
    + intros Hchain. destruct (IH _ Hchain) as [Hd Hk]. split; [done|].
      intros k Hnin. apply Hk. intros Hin. apply Hnin. by right.
    + intros Hchain. destruct (IH _ Hchain) as [Hd Hk]. split.
      * intros k Hdir. apply Hd. destruct (decide (q = k)) as [->|Hne].
        -- by rewrite lookup_insert_eq.
        -- by rewrite lookup_insert_ne.
      * intros k Hnin. rewrite Hk by (intros Hin; apply Hnin; by right).
        rewrite lookup_insert_ne; [done|]. intros ->. apply Hnin. by left.
Qed.


Lemma fs_makedirs_lookup (p : string) (f f' : gmap string node) :
  fs_makedirs p f = Ok f' ->
  f !! p = None
  /\ f' !! p = Some Dir
  /\ (forall k, f !! k = Some Dir -> f' !! k = Some Dir)
  /\ (forall k, k <> p -> ~ In k (ancestors p) -> f' !! k = f !! k).
Proof.
  unfold fs_makedirs. destruct (f !! p) eqn:Hp; [discriminate|].
  destruct (mkdir_chain _ _ f) as [f1|e] eqn:Hchain; [|discriminate].
  intros [= <-]. destruct (mkdir_chain_lookup _ _ _ _ Hchain) as [Hd Hk].
  split; [done|]. split; [by rewrite lookup_insert_eq|]. split.
  - intros k Hdir. destruct (decide (p = k)) as [->|Hne]; [congruence|].
    rewrite lookup_insert_ne by done. by apply Hd.
  - intros k Hne Hnin. rewrite lookup_insert_ne by done. by apply Hk.
Qed.


End Paths.

(* ===================================================================== *)
(** * The reset step                                                      *)
(* ===================================================================== *)

Section PathFacts.
Context `{Host}.

Lemma is_sep_cases (c : ascii) :
  is_sep c = true -> c = "/"%char \/ c = backslash.
Proof.
  unfold is_sep, os_sep. destruct IS_WINDOWS; cbn.
  - intros [Hc|Hc]%orb_true_iff; apply Ascii.eqb_eq in Hc; auto.
  - rewrite orb_false_r. intros Hc%Ascii.eqb_eq. auto.
Qed.


Lemma is_sep_false (c : ascii) :
  negb (Ascii.eqb c "/"%char) && negb (Ascii.eqb c backslash) = true ->
  is_sep c = false.
Proof.
  intros [H1 H2]%andb_true_iff.
  destruct (is_sep c) eqn:E; [|done].
  apply is_sep_cases in E as [-> | ->]; discriminate.
Qed.

Lemma join2_plain (a b : string) :
  first_is_sep b = false -> a <> "" -> last_is_sep a = false ->
  join2 a b = a ++ String os_sep b.
Proof.
  intros Hb Ha Hl. unfold join2. rewrite Hb, Hl.
  by destruct (String.eqb_spec a "").
Qed.

Lemma output_dir_eq (c : InstallerClass) :
  output_dir c =
  "output" ++ String os_sep (name ++ "-" ++ version c ++ ccdc_version c).
Proof.
  unfold output_dir, os_path_join. cbn [fold_left].
  apply join2_plain; [|done|].
  - unfold name. rewrite string_app_cons. cbn [first_is_sep]. by apply is_sep_false.
  - cbn [last_is_sep]. by apply is_sep_false.
Qed.

End PathFacts.

Section Reset.
Context `{Host}.
Variable self : Self.


Lemma is_under_head (d k : string) :
  d <> "" -> is_under d k = true -> head_char k = head_char d.
Proof.
  intros Hd [r ->]%is_under_spec. destruct d as [|c d]; [done|].
  by rewrite string_app_cons.
Qed.




Lemma rmtree_or_keep_sub (p k : string) (f : gmap string node) (v : node) :
  rmtree_or_keep p f !! k = Some v -> f !! k = Some v.
Proof.
  unfold rmtree_or_keep. destruct (fs_rmtree p f) eqn:Hrm; [|done].
  intros Hk. by destruct (fs_rmtree_sub _ _ _ _ _ Hrm Hk).
Qed.



Lemma below_missing_dir (f : gmap string node) (d k : string) :
  fs_wf f -> d <> "" -> f !! d = None -> is_under d k = true -> f !! k = None.
Proof.
  intros Hwf Hd Hnone Hu. destruct (f !! k) as [v|] eqn:Hk; [|done].
  assert (f !! d = Some Dir) as Hdir by (eapply fs_wf_below; eauto).
  congruence.
Qed.


End Reset.

Section ResetInBuild.
Context `{Host}.
Variable self : Self.







End ResetInBuild.


(* ===================================================================== *)
(** * PATH cleanup                                                        *)
(* ===================================================================== *)

Lemma split_nonempty (c : ascii) (s : string) : split c s <> [].
Proof.
  induction s as [|x s IH]; cbn [split]; [done|].
  destruct (Ascii.eqb x c); [done|]. by destruct (split c s).
Qed.

Lemma split_no_sep (c : ascii) (s : string) :
  Forall (fun f => string_forallb (fun x => negb (Ascii.eqb x c)) f = true) (split c s).
Proof.
  induction s as [|x s IH]; cbn [split].
  - by constructor.
  - destruct (Ascii.eqb x c) eqn:Hx.
    + by constructor.
    + destruct (split c s) as [|f fs].
      * constructor; [|done]. cbn. by rewrite Hx.
      * inversion IH as [|? ? Hf Hfs]; subst. constructor; [|done].
        cbn. by rewrite Hx, Hf.
Qed.

Lemma split_no_sep_id (c : ascii) (f : string) :
  string_forallb (fun x => negb (Ascii.eqb x c)) f = true -> split c f = [f].
Proof.
  induction f as [|x f IH]; cbn; [done|].
  intros [Hx Hf]%andb_true_iff. apply negb_true_iff in Hx. rewrite Hx.
  by rewrite (IH Hf).
Qed.

Lemma split_app_sep (c : ascii) (f rest : string) :
  string_forallb (fun x => negb (Ascii.eqb x c)) f = true ->
  split c (f ++ String c rest) = f :: split c rest.
Proof.
  induction f as [|x f IH]; intros Hf.
  - rewrite string_app_nil. cbn [split]. by rewrite Ascii.eqb_refl.
  - cbn in Hf. apply andb_true_iff in Hf as [Hx Hf]. apply negb_true_iff in Hx.
    rewrite string_app_cons. cbn [split]. by rewrite Hx, (IH Hf).
Qed.

(** Splitting a joined list gives the list back, when it is not empty and
    no field holds the separator. *)
Lemma split_join (c : ascii) (l : list string) :
  l <> [] ->
  Forall (fun f => string_forallb (fun x => negb (Ascii.eqb x c)) f = true) l ->
  split c (join (String c "") l) = l.
Proof.
  intros Hne Hall. induction Hall as [|f l Hf Hl IH]; [done|].
  unfold join in *. destruct l as [|g l].
  - cbn [String.concat]. by apply split_no_sep_id.
  - cbn [String.concat]. rewrite string_app_cons, string_app_nil.
    rewrite split_app_sep by done. f_equal. by apply IH.
Qed.

Lemma join_split (c : ascii) (s : string) : join (String c "") (split c s) = s.
Proof.
  unfold join. induction s as [|x s IH]; [reflexivity|].
  cbn [split]. pose proof (split_nonempty c s) as Hne.
  destruct (Ascii.eqb_spec x c) as [->|_].
  - destruct (split c s) as [|f fs]; [done|].
    change (String.concat (String c "") ("" :: f :: fs))
      with ("" ++ String c "" ++ String.concat (String c "") (f :: fs)).
    by rewrite IH.
  - destruct (split c s) as [|f fs]; [done|].
    destruct fs as [|g fs].
    + cbn [String.concat] in *. by rewrite IH.
    + change (String.concat (String c "") (String x f :: g :: fs))
        with (String x (f ++ String c "" ++ String.concat (String c "") (g :: fs))).
      f_equal. exact IH.
Qed.

Lemma Forall_list_filter {A} (P : A -> Prop) (g : A -> bool) (l : list A) :
  Forall P l -> Forall P (List.filter g l).
Proof.
  induction 1 as [|x l Hx Hl IH]; cbn; [constructor|].
  destruct (g x); [by constructor | done].
Qed.

Lemma list_filter_none {A} (m : A -> bool) (l : list A) :
  existsb m l = false -> List.filter (fun x => negb (m x)) l = l.
Proof.
  induction l as [|x l IH]; cbn; [done|].
  intros [Hx Hl]%orb_false_iff. rewrite Hx. cbn. by rewrite IH.
Qed.

Section PathCleanup.
Context `{Host}.

(** The inner loop is a filter. *)
Lemma fold_path_step (pn : string) (ty : reg_type) (vs : list string)
    (b : bool) (acc : list string) :
  fold_left (path_step pn ty) vs (b, acc) =
  (b || existsb (fun v => String.eqb (os_path_normcase (os_path_normpath (sz_expand v ty))) pn) vs,
   (acc ++ List.filter
             (fun v => negb (String.eqb (os_path_normcase (os_path_normpath (sz_expand v ty))) pn))
             vs)%list).
Proof.
  revert b acc. induction vs as [|v vs IH]; intros b acc; cbn [fold_left existsb List.filter].
  - by rewrite orb_false_r, app_nil_r.
  - unfold path_step at 2. cbn [fst snd].
    destruct (String.eqb _ pn); cbn [negb]; rewrite IH.
    + by rewrite orb_true_r.
    + by rewrite orb_false_l, <- app_assoc.
Qed.

Lemma os_pathsep_windows : IS_WINDOWS = true -> os_pathsep = ";"%char.
Proof. unfold os_pathsep. by intros ->. Qed.

(** The value written back splits into the entries that were kept. *)
Lemma cleaned_value_split (c : ascii) (m : string -> bool) (s : string) :
  (exists v, In v (split c s) /\ m v = false) ->
  split c (if existsb m (split c s)
           then join (String c "") (List.filter (fun v => negb (m v)) (split c s))
           else s)
  = List.filter (fun v => negb (m v)) (split c s).
Proof.
  intros (v & Hin & Hv). destruct (existsb m (split c s)) eqn:Hany.
  - apply split_join.
    + intros Hnil. assert (In v (List.filter (fun v => negb (m v)) (split c s))) as Hv'.
      { apply filter_In. by rewrite Hv. }
      by rewrite Hnil in Hv'.
    + apply Forall_list_filter, split_no_sep.
  - symmetry. by apply list_filter_none.
Qed.

(** What one turn of the outer loop does to the registry. *)
Lemma remove_from_key_effect (pn var : string) (rk : hkey * string)
    (w : World) (k : reg_key) :
  registry w !! rk = Some k -> rk_access k = true ->
  exists w' k',
    remove_from_key pn var rk w = (Ok tt, w')
    /\ (forall rk2, rk2 <> rk -> registry w' !! rk2 = registry w !! rk2)
    /\ registry w' !! rk = Some k'
    /\ rk_access k' = true
    /\ (forall s ty,
          rk_values k !! var = Some (RegString s, ty) ->
          rk_values k' !! var =
          Some (RegString
                  (let m := fun v =>
                     String.eqb (os_path_normcase (os_path_normpath (sz_expand v ty))) pn in
                   if existsb m (split os_pathsep s)
                   then join (String os_pathsep "")
                          (List.filter (fun v => negb (m v)) (split os_pathsep s))
                   else s),
                ty)).
Proof.
  destruct rk as [root kn]. intros Hk Hacc.
  unfold remove_from_key. cbn [fst snd].
  unfold mbind, M_bind at 1. unfold reg_OpenKey. rewrite Hk, Hacc.
  unfold mbind, M_bind at 1. unfold try_except at 1.
  unfold mbind, M_bind at 1. unfold reg_QueryValueEx. rewrite Hk.
  destruct (rk_values k !! var) as [[d ty]|] eqn:Hv.
  2:{ cbn. exists w, k. split; [reflexivity|]. split; [done|]. split; [done|]. split; [done|]. intros ? ? [=]. }
  unfold mret, M_ret at 1. cbn [fst snd].
  destruct d as [s|n].
  2:{ cbn. exists w, k. split; [reflexivity|]. split; [done|]. split; [done|]. split; [done|]. intros ? ? [=]. }
  unfold try_except, data_split. unfold mbind, M_bind, mret, M_ret.
  rewrite fold_path_step. cbn [orb app].
  destruct (existsb _ (split os_pathsep s)) eqn:Hany.
  - unfold reg_SetValueEx. rewrite Hk.
    eexists _, _. split; [reflexivity|]. cbn [registry set_registry].
    split; [|split; [|split]].
    + intros rk2 Hne. by rewrite lookup_insert_ne.
    + by rewrite lookup_insert_eq.
    + done.
    + intros s0 ty0 [= <- <-]. cbn [rk_values]. cbn zeta. rewrite Hany.
      by rewrite lookup_insert_eq.
  - exists w, k. split; [reflexivity|]. split; [done|]. split; [done|]. split; [done|].
    intros s0 ty0 [= <- <-]. cbn zeta. by rewrite Hany.
Qed.

(** The call as a filter, in the terms of the script. *)
Lemma remove_from_system_path_filter_code (pathname : string) (allusers : bool)
    (var : string) (w : World) (key : hkey * string) (k : reg_key)
    (s : string) (ty : reg_type) :
  IS_WINDOWS = true ->
  (forall rk, In rk (envkeys allusers) ->
              exists k0, registry w !! rk = Some k0 /\ rk_access k0 = true) ->
  In key (envkeys allusers) ->
  registry w !! key = Some k ->
  rk_values k !! var = Some (RegString s, ty) ->
  (exists v, In v (split ";" s) /\ path_matches pathname ty v = false) ->
  let r := remove_from_system_path pathname allusers var w in
  r.1 = Ok tt
  /\ exists k' s',
       registry r.2 !! key = Some k'
       /\ rk_values k' !! var = Some (RegString s', ty)
       /\ split ";" s'
          = List.filter (fun v => negb (path_matches pathname ty v)) (split ";" s).
Proof.
  intros HW Hopen Hkey Hk Hval Hother r. subst r.
  unfold remove_from_system_path.
  set (pn := os_path_normcase (os_path_normpath pathname)).
  assert (forall k', 
            (forall s0 ty0,
               rk_values k !! var = Some (RegString s0, ty0) ->
               rk_values k' !! var =
               Some (RegString
                       (let m := fun v =>
                          String.eqb (os_path_normcase (os_path_normpath (sz_expand v ty0))) pn in
                        if existsb m (split os_pathsep s0)
                        then join (String os_pathsep "")
                               (List.filter (fun v => negb (m v)) (split os_pathsep s0))
                        else s0),
                     ty0)) ->
            exists s',
              rk_values k' !! var = Some (RegString s', ty)
              /\ split ";" s'
                 = List.filter (fun v => negb (path_matches pathname ty v)) (split ";" s))
    as Hfinish.
  { intros k' Hk'. specialize (Hk' s ty Hval). cbn zeta in Hk'.
    rewrite (os_pathsep_windows HW) in Hk'.
    eexists. split; [exact Hk'|].
    apply (cleaned_value_split ";"
             (fun v => String.eqb (os_path_normcase (os_path_normpath (sz_expand v ty))) pn)).
    exact Hother. }
  destruct allusers; cbn [envkeys for_each] in *.
  - destruct (Hopen (HKEY_CURRENT_USER, "Environment")) as (kc & Hkc & Hac); [by left|].
    destruct (Hopen (HKEY_LOCAL_MACHINE,
                     "SYSTEM\CurrentControlSet\Control\Session Manager\Environment"))
      as (kl & Hkl & Hal); [by right; left|].
    destruct (remove_from_key_effect pn var _ w kc Hkc Hac)
      as (w1 & kc' & Hrun1 & Hoth1 & Hkc' & Hac' & Hval1).
    rewrite <- Hoth1 in Hkl by done.
    destruct (remove_from_key_effect pn var _ w1 kl Hkl Hal)
      as (w2 & kl' & Hrun2 & Hoth2 & Hkl' & Hal' & Hval2).
    unfold mbind, M_bind. rewrite Hrun1, Hrun2. cbn.
    split; [done|].
    destruct Hkey as [Heq|[Heq|[]]]; subst key.
    + exists kc'. rewrite Hoth2 by done.
      assert (k = kc) as -> by congruence.
      destruct (Hfinish kc' Hval1) as (s' & ? & ?). eauto.
    + exists kl'. rewrite Hoth1 in Hkl by done.
      assert (k = kl) as -> by congruence.
      destruct (Hfinish kl' Hval2) as (s' & ? & ?). eauto.
  - destruct (Hopen (HKEY_CURRENT_USER, "Environment")) as (kc & Hkc & Hac); [by left|].
    destruct (remove_from_key_effect pn var _ w kc Hkc Hac)
      as (w1 & kc' & Hrun1 & Hoth1 & Hkc' & Hac' & Hval1).
    unfold mbind, M_bind. rewrite Hrun1. cbn.
    split; [done|].
    destruct Hkey as [Heq|[]]; subst key.
    exists kc'. assert (k = kc) as -> by congruence.
    destruct (Hfinish kc' Hval1) as (s' & ? & ?). eauto.
Qed.

Lemma forallb_Forall_true {A} (g : A -> bool) (l : list A) :
  forallb g l = true -> Forall (fun v => g v = true) l.
Proof.
  induction l as [|x l IH]; cbn [forallb]; [constructor|].
  intros [Hx Hl]%andb_true_iff. constructor; auto.
Qed.

Lemma all_ascii_complete (c : ascii) : In c all_ascii.
Proof.
  unfold all_ascii. rewrite <- (ascii_nat_embedding c).
  apply in_map, in_seq. pose proof (nat_ascii_bounded c). lia.
Qed.

Lemma forall_ascii (P : ascii -> bool) :
  forallb P all_ascii = true -> forall c, P c = true.
Proof.
  intros Hall c. rewrite forallb_forall in Hall. apply Hall, all_ascii_complete.
Qed.

(** Folding case and slashes as [ntpath.normcase] does identifies exactly
    the characters [same_letter] identifies. *)
Lemma nt_fold_same_letter (c d : ascii) :
  Ascii.eqb (if Ascii.eqb c "/"%char then backslash else lower_char c)
            (if Ascii.eqb d "/"%char then backslash else lower_char d)
  = same_letter c d.
Proof.
  assert (forallb (fun c =>
            forallb (fun d =>
              Bool.eqb
                (Ascii.eqb (if Ascii.eqb c "/"%char then backslash else lower_char c)
                           (if Ascii.eqb d "/"%char then backslash else lower_char d))
                (same_letter c d)) all_ascii) all_ascii = true) as Hall
    by (vm_compute; reflexivity).
  apply Bool.eqb_prop.
  exact (forall_ascii _ (forall_ascii _ Hall c) d).
Qed.

Lemma nt_normcase_same (a b : string) :
  String.eqb (nt_normcase a) (nt_normcase b) = same_path_text a b.
Proof.
  revert b. induction a as [|c a IH]; intros [|d b]; try reflexivity.
  unfold nt_normcase in *. cbn [map_string same_path_text].
  rewrite <- nt_fold_same_letter, <- IH.
  cbn [String.eqb]. by destruct (Ascii.eqb _ _).
Qed.

(** On Windows the test of the script is the comparison above. *)
Lemma path_matches_names_target (pathname : string) (ty : reg_type) (v : string) :
  IS_WINDOWS = true ->
  path_matches pathname ty v = names_target pathname ty v.
Proof.
  intros HW. unfold path_matches, names_target, os_path_normcase. rewrite HW.
  rewrite nt_normcase_same. f_equal. f_equal.
  unfold sz_expand, expanded. by destruct ty.
Qed.

(** C6. On Windows, with the environment keys open to the process: when
    the PATH value of a key is a string of ASCII entries with at least one
    entry that does not name the target, the value left behind has the
    same type, and its entries are exactly the old entries that do not
    name the target, in their old order and old, unexpanded text.  An
    entry names the target when its text, with environment references
    expanded in a value of type [REG_EXPAND_SZ] and passed through
    [normpath], equals the target passed through [normpath], up to the
    case of the letters and the direction of the slashes. *)
Theorem remove_from_system_path_filters (pathname : string) (allusers : bool)
    (var : string) (w : World) (key : hkey * string) (k : reg_key)
    (s : string) (ty : reg_type) :
  IS_WINDOWS = true ->
  (forall rk, In rk (envkeys allusers) ->
              exists k0, registry w !! rk = Some k0 /\ rk_access k0 = true) ->
  In key (envkeys allusers) ->
  registry w !! key = Some k ->
  rk_values k !! var = Some (RegString s, ty) ->
  is_ascii (os_path_normpath pathname) = true ->
  Forall (fun v => is_ascii (os_path_normpath (expanded ty v)) = true) (split ";" s) ->
  (exists v, In v (split ";" s) /\ names_target pathname ty v = false) ->
  let r := remove_from_system_path pathname allusers var w in
  r.1 = Ok tt
  /\ exists k' s',
       registry r.2 !! key = Some k'
       /\ rk_values k' !! var = Some (RegString s', ty)
       /\ split ";" s'
          = List.filter (fun v => negb (names_target pathname ty v)) (split ";" s).
Proof.
  intros HW Hopen Hkey Hk Hval _ _ (v & Hin & Hv) r.
  destruct (remove_from_system_path_filter_code pathname allusers var w key k s ty
              HW Hopen Hkey Hk Hval) as (Hok & k' & s' & Hk' & Hval' & Hsplit).
  { exists v. split; [done|]. by rewrite path_matches_names_target. }
  split; [done|]. exists k', s'. split; [done|]. split; [done|].
  rewrite Hsplit. apply filter_ext. intros a. by rewrite path_matches_names_target.
Qed.

End PathCleanup.

Lemma remove_from_system_path_filters_witness :
  let r := @remove_from_system_path example_windows "C:\Tools\bin" false "PATH"
             cleanup_world in
  r.1 = Ok tt
  /\ exists k',
       registry r.2 !! (HKEY_CURRENT_USER, "Environment") = Some k'
       /\ rk_values k' !! "PATH"
          = Some (RegString "C:\Python;%TOOLS%\bin2", REG_EXPAND_SZ).
Proof.
  destruct (@remove_from_system_path_filters example_windows "C:\Tools\bin" false "PATH"
              cleanup_world (HKEY_CURRENT_USER, "Environment")
              {| rk_values :=
                   {[ "PATH" :=
                        (RegString
                           "C:\Python;%TOOLS%\bin;C:\Tools\BIN;c:/tools/bin;%TOOLS%\bin2",
                         REG_EXPAND_SZ) ]};
                 rk_access := true |}
              "C:\Python;%TOOLS%\bin;C:\Tools\BIN;c:/tools/bin;%TOOLS%\bin2"
              REG_EXPAND_SZ)
    as (Hok & k' & s' & Hk' & Hval' & Hsplit).
  - reflexivity.
  - intros rk [<-|[]]. eexists. split; [vm_compute; reflexivity | reflexivity].
  - by left.
  - vm_compute; reflexivity.
  - vm_compute; reflexivity.
  - vm_compute; reflexivity.
  - apply forallb_Forall_true. vm_compute; reflexivity.
  - exists "C:\Python". split; [|vm_compute; reflexivity].
    assert (split ";" "C:\Python;%TOOLS%\bin;C:\Tools\BIN;c:/tools/bin;%TOOLS%\bin2"
            = ["C:\Python"; "%TOOLS%\bin"; "C:\Tools\BIN"; "c:/tools/bin"; "%TOOLS%\bin2"])
      as -> by (vm_compute; reflexivity).
    by left.
  - split; [exact Hok|]. exists k'. split; [exact Hk'|].
    rewrite Hval'. do 3 f_equal.
    rewrite <- (join_split ";" s'), Hsplit. vm_compute; reflexivity.
Defined.

(* ===================================================================== *)
(** * The install script                                                  *)
(* ===================================================================== *)

Section InstallScript.
Context `{Host}.

Lemma no_slash_no_sep (s : string) :
  no_slash s = true -> string_forallb (fun c => negb (is_sep c)) s = true.
Proof.
  unfold no_slash. induction s as [|c s IH]; cbn [string_forallb]; [done|].
  intros [Hc Hs]%andb_true_iff. by rewrite (is_sep_false _ Hc), IH.
Qed.

Lemma split_go_no_sep (head tail s : string) :
  string_forallb (fun c => negb (is_sep c)) s = true ->
  split_go head tail s = (head, tail ++ s).
Proof.
  revert tail. induction s as [|c s IH]; intros tail; cbn [string_forallb split_go].
  - by rewrite string_app_nil_r.
  - intros [Hc Hs]%andb_true_iff. apply negb_true_iff in Hc. rewrite Hc, IH by done.
    by rewrite string_app_assoc.
Qed.

Lemma split_go_last_sep (head tail a n : string) :
  string_forallb (fun c => negb (is_sep c)) n = true ->
  split_go head tail (a ++ String os_sep n) = (head ++ tail ++ a ++ String os_sep "", n).
Proof.
  intros Hn. revert head tail. induction a as [|c a IH]; intros head tail.
  - rewrite !string_app_nil. cbn [split_go].
    assert (is_sep os_sep = true) as ->.
    { unfold is_sep. by rewrite Ascii.eqb_refl. }
    by rewrite split_go_no_sep.
  - rewrite string_app_cons. cbn [split_go]. destruct (is_sep c).
    + rewrite IH. f_equal. by rewrite !string_app_assoc.
    + rewrite IH. f_equal. by rewrite !string_app_assoc.
Qed.

Lemma last_is_sep_app (a : string) (c : ascii) (b : string) :
  last_is_sep (a ++ String c b) = last_is_sep (String c b).
Proof.
  induction a as [|x a IH]; [done|].
  rewrite string_app_cons. cbn [last_is_sep].
  destruct (a ++ String c b) eqn:E; [|done].
  destruct a; discriminate E.
Qed.

Lemma last_is_sep_no_sep (c : ascii) (b : string) :
  string_forallb (fun c => negb (is_sep c)) (String c b) = true ->
  last_is_sep (String c b) = false.
Proof.
  revert c. induction b as [|d b IH]; intros c; cbn [string_forallb last_is_sep].
  - rewrite andb_true_r. by intros ->%negb_true_iff.
  - intros [_ Hb]%andb_true_iff. by apply IH.
Qed.

Lemma not_all_sep (c : ascii) (d : string) :
  last_is_sep (String c d) = false ->
  string_forallb is_sep (String c d ++ String os_sep "") = false.
Proof.
  revert c. induction d as [|x d IHd]; intros c Hl.
  - cbn [last_is_sep] in Hl. rewrite string_app_cons. cbn. by rewrite Hl.
  - change (last_is_sep (String x d) = false) in Hl.
    rewrite string_app_cons. cbn [string_forallb].
    rewrite IHd; [by rewrite andb_false_r | exact Hl].
Qed.

Lemma rstrip_sep_app (d : string) :
  d <> "" -> last_is_sep d = false -> rstrip_sep (d ++ String os_sep "") = d.
Proof.
  induction d as [|c d IH]; [done|]. intros _ Hl.
  rewrite (string_app_cons c d). cbn [rstrip_sep].
  rewrite <- (string_app_cons c d), (not_all_sep _ _ Hl).
  f_equal. destruct d as [|c' d].
  - rewrite string_app_nil. cbn [rstrip_sep string_forallb].
    assert (is_sep os_sep = true) as ->.
    { unfold is_sep. by rewrite Ascii.eqb_refl. }
    done.
  - apply IH; [done|exact Hl].
Qed.

(** [os.path.split] undoes a join with a last component that holds no
    separator. *)
Lemma os_path_split_join (d n : string) :
  d <> "" -> last_is_sep d = false ->
  string_forallb (fun c => negb (is_sep c)) n = true ->
  os_path_split (d ++ String os_sep n) = (d, n).
Proof.
  intros Hd Hl Hn. unfold os_path_split.
  rewrite (split_go_last_sep "" "" d n Hn). rewrite !string_app_nil.
  destruct d as [|c d]; [done|].
  rewrite (not_all_sep _ _ Hl). by rewrite rstrip_sep_app.
Qed.

Lemma platforms_cases (s p : string) :
  platforms !! s = Some p -> s = "Windows" \/ s = "Linux" \/ s = "Darwin".
Proof.
  unfold platforms. cbn [list_to_map foldr uncurry fst snd].
  rewrite !lookup_insert_Some, lookup_empty.
  intros [[<- _]|[_ [[<- _]|[_ [[<- _]|[_ [=]]]]]]]; auto.
Qed.

(** What [__init__] stores, for a class with the attributes of
    [MinicondaOfflineInstaller]. *)
Lemma init_cases (pkgs : list string) (self : Self) :
  init (with_base_packages pkgs) = Ok self ->
  exists exe,
    In exe ["Miniconda3-4.7.12.1-Windows-x86_64.exe";
            "Miniconda3-4.7.12.1-Linux-x86_64.sh";
            "Miniconda3-4.7.12.1-MacOSX-x86_64.sh"]
    /\ installer_name (with_base_packages pkgs) "Miniconda" = Ok exe
    /\ cls self = with_base_packages pkgs
    /\ output_installer self
       = os_path_join (output_dir (with_base_packages pkgs)) [exe].
Proof.
  unfold init. unfold mbind at 1, result_bind.
  destruct (installer_name _ _) as [n|e] eqn:Hn; [|discriminate].
  intros [= <-]. exists n. cbn [cls output_installer].
  split; [|done].
  unfold installer_name, dict_get in Hn.
  destruct (platforms !! platform_system) as [p|] eqn:Hp; [|discriminate Hn].
  destruct (platforms_cases _ _ Hp) as [Hs|[Hs|Hs]]; rewrite Hs in Hn, Hp;
    injection Hp as <-; cbn in Hn; injection Hn as <-; cbn; auto.
Qed.

Lemma output_dir_last (c : InstallerClass) :
  no_slash (version c ++ ccdc_version c) = true ->
  output_dir c <> "" /\ last_is_sep (output_dir c) = false.
Proof.
  intros Hv. rewrite output_dir_eq. split; [done|].
  unfold name. rewrite (string_app_cons "m").
  replace ("output" ++ String os_sep (String "m" ("iniconda3" ++ "-" ++ version c ++ ccdc_version c)))
    with (("output" ++ String os_sep "") ++
          String "m" ("iniconda3" ++ "-" ++ version c ++ ccdc_version c))
    by (by rewrite string_app_assoc).
  rewrite last_is_sep_app. apply last_is_sep_no_sep, no_slash_no_sep.
  revert Hv. unfold no_slash. generalize (version c ++ ccdc_version c). intros v Hv.
  rewrite !string_app_cons, !string_app_nil. cbn. exact Hv.
Qed.

Lemma output_installer_split (c : InstallerClass) (exe : string) :
  no_slash (version c ++ ccdc_version c) = true ->
  no_slash exe = true ->
  os_path_join (output_dir c) [exe] = output_dir c ++ String os_sep exe
  /\ os_path_split (os_path_join (output_dir c) [exe]) = (output_dir c, exe).
Proof.
  intros Hv Hexe. destruct (output_dir_last c Hv) as [Hne Hl].
  pose proof (no_slash_no_sep _ Hexe) as Hns.
  assert (os_path_join (output_dir c) [exe] = output_dir c ++ String os_sep exe) as ->.
  { unfold os_path_join. cbn [fold_left]. apply join2_plain; try done.
    destruct exe as [|x exe]; [done|]. cbn in Hns |- *.
    apply andb_true_iff in Hns as [Hx _]. by apply negb_true_iff. }
  split; [done|]. by apply os_path_split_join.
Qed.

(** ** Rendering *)

Lemma render_install_script_text (pkgs : list string) (self : Self) (exe : string) :
  cls self = with_base_packages pkgs ->
  In exe ["Miniconda3-4.7.12.1-Windows-x86_64.exe";
          "Miniconda3-4.7.12.1-Linux-x86_64.sh";
          "Miniconda3-4.7.12.1-MacOSX-x86_64.sh"] ->
  render_install_script self exe =
  if String.eqb sys_platform "win32"
  then windows_install_text exe (join " " pkgs)
  else unix_install_text exe (join " " pkgs).
Proof.
  intros Hcls Hexe. unfold render_install_script. rewrite Hcls.
  cbn [base_conda_packages with_base_packages].
  generalize (join " " pkgs). intros pk.
  destruct (String.eqb sys_platform "win32");
    destruct Hexe as [<-|[<-|[<-|[]]]]; vm_compute; reflexivity.
Qed.

End InstallScript.

(* ===================================================================== *)
(** * Globbing the package cache                                          *)
(* ===================================================================== *)

Lemma match_star_nonempty (a : Re.atom) (p : list Re.item) (s : string) (l : list nat) :
  Re.match_items (Re.Star a :: p) s = Some l -> l <> [].
Proof.
  revert l. induction s as [|c s IH]; intros l; rewrite match_star_unfold.
  - destruct (Re.match_items p ""); cbn; [intros [= <-]; done | done].
  - destruct (Re.atom_matches a c).
    + destruct (Re.match_items (Re.Star a :: p) s) as [[|n ns]|] eqn:Hs; cbn.
      * by specialize (IH [] eq_refl).
      * intros [= <-]. done.
      * destruct (Re.match_items p (String c s)); cbn; [intros [= <-]; done | done].
    + destruct (Re.match_items p (String c s)); cbn; [intros [= <-]; done | done].
Qed.

Lemma match_star_is_Some (a : Re.atom) (p : list Re.item) (c : ascii) (s : string) :
  Re.atom_matches a c = true ->
  is_Some (Re.match_items (Re.Star a :: p) (String c s))
  <-> is_Some (Re.match_items (Re.Star a :: p) s)
      \/ is_Some (Re.match_items p (String c s)).
Proof.
  intros Ha. rewrite (match_star_unfold a p (String c s)), Ha.
  destruct (Re.match_items (Re.Star a :: p) s) as [l|] eqn:Hs.
  - destruct l as [|n ns]; [by apply match_star_nonempty in Hs|]. cbn.
    split; [intros _; left; eauto | intros _; eauto].
  - cbn. destruct (Re.match_items p (String c s)); cbn.
    + split; [intros _; right; eauto | intros _; eauto].
    + split; [intros [? [=]] | intros [[? [=]]|[? [=]]]].
Qed.

(** A pattern without wildcards matches itself only. *)
Lemma match_literal (suf s : string) :
  no_wildcard suf = true ->
  is_Some (Re.match_items (fnmatch_translate suf) s) <-> s = suf.
Proof.
  unfold no_wildcard. revert s.
  induction suf as [|x suf IH]; intros s Hw; cbn [fnmatch_translate].
  - cbn. destruct s; cbn; split; try done; intros [? [=]].
  - cbn [string_forallb] in Hw. apply andb_true_iff in Hw as [Hx Hw].
    apply andb_true_iff in Hx as [H1 H2].
    apply negb_true_iff in H1, H2. rewrite H1, H2.
    cbn [Re.match_items Re.atom_matches]. destruct s as [|c s].
    + split; [intros [? [=]] | done].
    + destruct (Ascii.eqb_spec c x) as [->|Hne].
      * destruct (IH s Hw) as [I1 I2]. split.
        -- intros Hs. f_equal. apply I1.
           destruct (Re.match_items (fnmatch_translate suf) s); [eauto|].
           by destruct Hs as [? [=]].
        -- intros [= ->]. destruct (I2 eq_refl) as [l ->]. cbn. eauto.
      * split; [intros [? [=]] | intros [= ? ?]; done].
Qed.

(** A star followed by a literal suffix matches the names that end with
    the suffix. *)
Lemma match_suffix (suf s : string) :
  no_wildcard suf = true ->
  is_Some (Re.match_items (Re.Star Re.DotAll :: fnmatch_translate suf) s)
  <-> endswith suf s = true.
Proof.
  intros Hw. induction s as [|c s IH].
  - rewrite match_star_unfold. cbn [endswith]. rewrite orb_false_r.
    rewrite String.eqb_eq. pose proof (match_literal suf "" Hw) as [I1 I2].
    destruct (Re.match_items (fnmatch_translate suf) "") as [l|]; cbn.
    + split; [intros _; symmetry; apply I1; eauto | eauto].
    + split; [intros [? [=]] | intros ->; by destruct (I2 eq_refl) as [? [=]]].
  - rewrite match_star_is_Some by done. rewrite IH, (match_literal suf _ Hw).
    cbn [endswith]. rewrite orb_true_iff, String.eqb_eq.
    split; intros [?|?]; auto.
Qed.

Section Glob.
Context `{Host}.

Lemma fs_listdir_spec (d n : string) (f : gmap string node) :
  In n (fs_listdir d f) <->
  valid_name n = true /\ is_Some (f !! (d ++ String os_sep n)).
Proof.
  unfold fs_listdir. rewrite <- list_elem_of_In, list_elem_of_omap. split.
  - intros ([k v] & Hin & Hc). apply elem_of_map_to_list in Hin. cbn in Hc.
    unfold child_name in Hc.
    destruct (strip_prefix _ k) as [n'|] eqn:Hs; [|done].
    destruct (negb (String.eqb n' "") && _) eqn:Hv; [|done].
    injection Hc as ->. apply strip_prefix_Some in Hs. subst k.
    rewrite string_app_assoc in Hin. split; [exact Hv | eauto].
  - intros [Hv [v Hf]]. exists (d ++ String os_sep n, v). split.
    + by apply elem_of_map_to_list.
    + cbn. unfold child_name.
      assert (strip_prefix (d ++ String os_sep "") (d ++ String os_sep n) = Some n) as ->.
      { apply strip_prefix_Some. by rewrite string_app_assoc. }
      unfold valid_name in Hv. by rewrite Hv.
Qed.

Lemma valid_name_first (n : string) : valid_name n = true -> first_is_sep n = false.
Proof.
  unfold valid_name. destruct n as [|c n]; [done|]. cbn.
  intros [Hc _]%andb_true_iff. by apply negb_true_iff.
Qed.

Lemma valid_name_no_sep (n : string) :
  valid_name n = true -> string_forallb (fun c => negb (is_sep c)) n = true.
Proof. unfold valid_name. by intros [_ ?]%andb_true_iff. Qed.

Lemma cache_dir_last : cache_dir <> "" /\ last_is_sep cache_dir = false.
Proof.
  unfold cache_dir, build_install_dir. split; [done|].
  rewrite last_is_sep_app. cbn [last_is_sep]. by apply is_sep_false.
Qed.

Lemma cache_dir_join (n : string) :
  first_is_sep n = false ->
  os_path_join cache_dir [n] = cache_dir ++ String os_sep n.
Proof.
  intros Hn. destruct cache_dir_last as [Hne Hl].
  unfold os_path_join. cbn [fold_left]. by apply join2_plain.
Qed.

Lemma cache_pattern (pat : string) :
  no_slash pat = true -> pat <> "" ->
  os_path_split (os_path_join build_install_dir ["pkgs"; pat]) = (cache_dir, pat).
Proof.
  intros Hp Hne. destruct cache_dir_last as [Hcne Hl].
  pose proof (no_slash_no_sep _ Hp) as Hns.
  unfold os_path_join. cbn [fold_left].
  assert (join2 build_install_dir "pkgs" = cache_dir) as ->.
  { apply join2_plain; [|done|].
    - cbn. by apply is_sep_false.
    - unfold build_install_dir. cbn. by apply is_sep_false. }
  rewrite join2_plain; try done.
  - by apply os_path_split_join.
  - destruct pat as [|c pat]; [done|]. cbn in Hns |- *.
    apply andb_true_iff in Hns as [Hc _]. by apply negb_true_iff.
Qed.

Lemma fnmatch_suffix (suf n : string) :
  no_wildcard suf = true ->
  os_path_normcase (String "*" suf) = String "*" suf ->
  fnmatch n (String "*" suf) = endswith suf (os_path_normcase n).
Proof.
  intros Hw Hcase. unfold fnmatch. rewrite Hcase. cbn [fnmatch_translate].
  change (Ascii.eqb "*" "*") with true. cbn match.
  pose proof (match_suffix suf (os_path_normcase n) Hw) as [I1 I2].
  destruct (Re.match_items _ (os_path_normcase n)) as [l|].
  - symmetry. apply I1. eauto.
  - destruct (endswith suf (os_path_normcase n)); [|done].
    by destruct (I2 eq_refl) as [? [=]].
Qed.

(** What the two [glob.glob] calls of the copy step return: the archive
    names of the cache, in listing order, each joined to the cache
    directory. *)
Lemma glob_cache (suf : string) (f : gmap string node) :
  no_wildcard suf = true -> no_slash suf = true ->
  os_path_normcase (String "*" suf) = String "*" suf ->
  glob (os_path_join build_install_dir ["pkgs"; String "*" suf]) f =
  map (fun n => cache_dir ++ String os_sep n)
      (List.filter (archive_name suf) (fs_listdir cache_dir f)).
Proof.
  intros Hw Hs Hcase. unfold glob.
  rewrite cache_pattern; [|unfold no_slash in *; cbn; exact Hs|done].
  change (ishidden (String "*" suf)) with false. cbn match.
  assert (forall l : list string,
            (forall n, In n l -> valid_name n = true) ->
            map (fun n => os_path_join cache_dir [n])
              (List.filter (fun n => fnmatch n (String "*" suf))
                 (List.filter (fun n => negb (ishidden n)) l))
            = map (fun n => cache_dir ++ String os_sep n)
                (List.filter (archive_name suf) l)) as Hgen.
  { induction l as [|n l IH]; intros Hall; [done|].
    assert (valid_name n = true) as Hv by (apply Hall; by left).
    specialize (IH (fun n' Hn' => Hall n' (or_intror Hn'))).
    cbn [List.filter]. unfold archive_name at 1. rewrite Hv. cbn [andb].
    destruct (negb (ishidden n)); cbn [andb List.filter]; [|exact IH].
    rewrite (fnmatch_suffix suf n Hw Hcase).
    destruct (endswith suf (os_path_normcase n)); cbn [map]; [|exact IH].
    rewrite IH. f_equal. apply cache_dir_join. by apply valid_name_first. }
  apply Hgen. intros n Hn. by apply fs_listdir_spec in Hn as [? _].
Qed.

End Glob.

Section Copy.
Context `{Host}.
Variable dest : string.
Hypothesis dest_nonempty : dest <> "".
Hypothesis dest_last : last_is_sep dest = false.
Hypothesis dest_head : head_char dest = Some "o"%char.

Lemma basename_cached (n : string) :
  valid_name n = true -> os_path_basename (cache_dir ++ String os_sep n) = n.
Proof.
  intros Hv. destruct cache_dir_last as [Hne Hl]. unfold os_path_basename.
  rewrite os_path_split_join; auto using valid_name_no_sep.
Qed.

Lemma dest_join (n : string) :
  valid_name n = true -> os_path_join dest [n] = dest ++ String os_sep n.
Proof.
  intros Hv. unfold os_path_join. cbn [fold_left].
  apply join2_plain; auto using valid_name_first.
Qed.

Lemma dirname_dest (n : string) :
  valid_name n = true -> os_path_dirname (dest ++ String os_sep n) = dest.
Proof.
  intros Hv. unfold os_path_dirname.
  rewrite os_path_split_join; auto using valid_name_no_sep.
Qed.

Lemma head_cached (n : string) : head_char (cache_dir ++ String os_sep n) = Some "b"%char.
Proof. reflexivity. Qed.

Lemma head_dest (n : string) : head_char (dest ++ String os_sep n) = Some "o"%char.
Proof.
  destruct dest as [|c d]; [done|]. by rewrite string_app_cons.
Qed.

Lemma cached_not_dest (n n' : string) :
  cache_dir ++ String os_sep n <> dest ++ String os_sep n'.
Proof.
  intros Heq. pose proof (head_cached n) as Hb. rewrite Heq, head_dest in Hb.
  discriminate Hb.
Qed.

(** One turn of a copy loop on a cached file. *)
Lemma copy_turn (n : string) (w : World) (rest : list string) (known : gset string) :
  valid_name n = true ->
  copy_loop dest ((cache_dir ++ String os_sep n) :: rest) known w =
  match package_name n with
  | Ok pn =>
      match fs_copyfile (cache_dir ++ String os_sep n) (dest ++ String os_sep n) (fs w) with
      | Ok f => copy_loop dest rest (known ∪ {[pn]}) (set_fs f w)
      | Raise e => (Raise e, w)
      end
  | Raise e => (Raise e, w)
  end.
Proof.
  intros Hv. cbn [copy_loop]. rewrite (basename_cached n Hv), (dest_join n Hv).
  run_monad. destruct (package_name n) as [pn|e]; [|done].
  by destruct (fs_copyfile _ _ (fs w)).
Qed.

Lemma fs_copyfile_lookup (src dst : string) (f f' : gmap string node) :
  fs_copyfile src dst f = Ok f' ->
  exists c m m', f !! src = Some (File c m)
    /\ f' = <[dst := File c m']> f.
Proof.
  unfold fs_copyfile. destruct (String.eqb src dst); [done|].
  destruct (f !! src) as [[c m|]|]; try done.
  unfold fs_write. cbv zeta.
  match goal with |- (if ?b then _ else _) = _ -> _ => destruct b end; [|done].
  destruct (f !! dst) as [[c' m'|]|]; try done; intros [= <-]; eauto.
Qed.

(** A copy loop only writes the destination files of its packages. *)
Lemma copy_loop_elsewhere (ns : list string) (known : gset string) (w : World) (k : string) :
  (forall n, In n ns -> valid_name n = true) ->
  (forall n, In n ns -> k <> dest ++ String os_sep n) ->
  fs (copy_loop dest (map (fun n => cache_dir ++ String os_sep n) ns) known w).2 !! k
  = fs w !! k.
Proof.
  revert known w. induction ns as [|n ns IH]; intros known w Hv Hk; [done|].
  cbn [map]. rewrite copy_turn by (apply Hv; by left).
  destruct (package_name n) as [pn|e]; [|done].
  destruct (fs_copyfile _ _ (fs w)) as [f|e] eqn:Hc; [|done].
  rewrite IH; [| intros; apply Hv; by right | intros; apply Hk; by right].
  destruct (fs_copyfile_lookup _ _ _ _ Hc) as (c & m & m' & _ & ->).
  cbn [fs set_fs]. rewrite lookup_insert_ne; [done|].
  intros Heq. by apply (Hk n); [left|].
Qed.

(** The set of seen names does not influence what a copy loop does. *)
Lemma copy_loop_known_irrelevant (ps : list string) (k1 k2 : gset string) (w : World) :
  (copy_loop dest ps k1 w).2 = (copy_loop dest ps k2 w).2
  /\ is_ok (copy_loop dest ps k1 w).1 = is_ok (copy_loop dest ps k2 w).1.
Proof.
  revert k1 k2 w. induction ps as [|p ps IH]; intros k1 k2 w; [done|].
  cbn [copy_loop]. run_monad.
  destruct (package_name (os_path_basename p)) as [pn|e]; [|done].
  destruct (fs_copyfile _ _ (fs w)) as [f|e]; [|done].
  apply IH.
Qed.


(** When every package parses and is a regular file, and nothing blocks
    the destination, the loop copies them all. *)
Lemma copy_loop_ok (ns : list string) (known : gset string) (w : World) :
  (forall n, In n ns ->
     valid_name n = true
     /\ is_ok (package_name n) = true
     /\ (exists c m, fs w !! (cache_dir ++ String os_sep n) = Some (File c m))
     /\ fs w !! (dest ++ String os_sep n) <> Some Dir) ->
  fs w !! dest = Some Dir ->
  is_ok (copy_loop dest (map (fun n => cache_dir ++ String os_sep n) ns) known w).1 = true
  /\ forall n c m,
       In n ns -> fs w !! (cache_dir ++ String os_sep n) = Some (File c m) ->
       exists m',
         fs (copy_loop dest (map (fun n => cache_dir ++ String os_sep n) ns) known w).2
           !! (dest ++ String os_sep n) = Some (File c m').
Proof.
  revert known w. induction ns as [|n ns IH]; intros known w Hall Hdest.
  { split; [done | intros ? ? ? []]. }
  destruct (Hall n (or_introl eq_refl)) as (Hv & Hp & (c & m & Hsrc) & Hdst).
  cbn [map]. rewrite copy_turn by done.
  destruct (package_name n) as [pn|e]; [|done].
  assert (exists m0, fs_copyfile (cache_dir ++ String os_sep n) (dest ++ String os_sep n) (fs w)
                     = Ok (<[dest ++ String os_sep n := File c m0]> (fs w))) as [m0 Hcopy].
  { unfold fs_copyfile.
    destruct (String.eqb_spec (cache_dir ++ String os_sep n) (dest ++ String os_sep n))
      as [Heq|_]; [by apply cached_not_dest in Heq|].
    rewrite Hsrc. unfold fs_write. rewrite (dirname_dest n Hv), Hdest.
    destruct dest as [|d0 d]; [done|].
    destruct (fs w !! (String d0 d ++ String os_sep n)) as [[c' m'|]|]; [eauto|done|eauto]. }
  rewrite Hcopy.
  set (w1 := set_fs (<[dest ++ String os_sep n := File c m0]> (fs w)) w).
  assert (forall k, k <> dest ++ String os_sep n -> fs w1 !! k = fs w !! k) as Hw1.
  { intros k Hk. cbn. by rewrite lookup_insert_ne. }
  destruct (IH (known ∪ {[pn]}) w1) as [Hok Hcopied].
  { intros n' Hn'. destruct (Hall n' (or_intror Hn')) as (Hv' & Hp' & (c' & m' & Hsrc') & Hdst').
    split; [done|]. split; [done|]. split.
    - exists c', m'. rewrite Hw1; [done|apply cached_not_dest].
    - destruct (decide (dest ++ String os_sep n' = dest ++ String os_sep n)) as [Heq|Hne].
      + rewrite Heq. cbn. by rewrite lookup_insert_eq.
      + by rewrite Hw1. }
  { rewrite Hw1; [done|]. intros Heq.
    assert (is_under dest dest = true) as Hu by (apply is_under_spec; eauto).
    by rewrite is_under_irrefl in Hu. }
  split; [done|].
  intros n' c' m' [<-|Hn'] Hsrc'.
  - destruct (in_dec String.string_dec n ns) as [Hin|Hnin].
    + apply (Hcopied n c' m' Hin). rewrite Hw1; [done|apply cached_not_dest].
    + rewrite copy_loop_elsewhere.
      * cbn. rewrite lookup_insert_eq. assert (c' = c) as -> by congruence. eauto.
      * intros n' Hn'. by destruct (Hall n' (or_intror Hn')).
      * intros n' Hn' Heq. apply string_app_inv_head in Heq. injection Heq as ->. done.
  - apply (Hcopied n' c' m' Hn'). rewrite Hw1; [done|apply cached_not_dest].
Qed.

End Copy.

Section CopyPackages.
Context `{Host}.
Variable c : InstallerClass.
Variable self : Self.
Hypothesis init_ok : init c = Ok self.
Hypothesis version_plain : no_slash (version c ++ ccdc_version c) = true.

Lemma init_fields :
  cls self = c
  /\ conda_bz2_src_packages self = os_path_join build_install_dir ["pkgs"; "*.bz2"]
  /\ conda_conda_src_packages self = os_path_join build_install_dir ["pkgs"; "*.conda"].
Proof.
  pose proof init_ok as Hi. unfold init in Hi. unfold mbind at 1, result_bind in Hi.
  destruct (installer_name _ _) as [n|e]; [|discriminate].
  by injection Hi as <-.
Qed.

Lemma last_is_sep_join (a n : string) :
  n <> "" -> string_forallb (fun x => negb (is_sep x)) n = true ->
  last_is_sep (a ++ String os_sep n) = false.
Proof.
  intros Hne Hn. destruct n as [|x n]; [done|].
  replace (a ++ String os_sep (String x n)) with ((a ++ String os_sep "") ++ String x n)
    by (by rewrite string_app_assoc).
  rewrite last_is_sep_app. by apply last_is_sep_no_sep.
Qed.

Lemma channel_arch_plain : no_slash (channel_arch self) = true /\ channel_arch self <> "".
Proof.
  unfold channel_arch.
  destruct (String.eqb sys_platform "win32");
    [destruct (String.eqb (bitness (cls self)) "64bit")|
     destruct (String.eqb sys_platform "darwin")]; done.
Qed.

Lemma channel_dir_eq :
  channel_dir self =
  (output_dir c ++ String os_sep "conda_offline_channel") ++ String os_sep (channel_arch self).
Proof.
  destruct init_fields as (Hcls & _). destruct (output_dir_last c version_plain) as [Hne Hl].
  destruct channel_arch_plain as [Ha Hane].
  unfold channel_dir, output_conda_offline_channel, os_path_join. cbn [fold_left].
  rewrite Hcls. rewrite (join2_plain (output_dir c)); [|cbn; by apply is_sep_false|done|done].
  apply join2_plain.
  - apply no_slash_no_sep in Ha. destruct (channel_arch self) as [|x a]; [done|].
    cbn in Ha |- *. apply andb_true_iff in Ha as [Hx _]. by apply negb_true_iff.
  - rewrite output_dir_eq. done.
  - apply last_is_sep_join; [done|]. by apply no_slash_no_sep.
Qed.

Lemma channel_dir_facts :
  channel_dir self <> ""
  /\ last_is_sep (channel_dir self) = false
  /\ head_char (channel_dir self) = Some "o"%char.
Proof.
  destruct channel_arch_plain as [Ha Hane].
  rewrite channel_dir_eq. split; [|split].
  - rewrite output_dir_eq. done.
  - apply last_is_sep_join; [done|]. by apply no_slash_no_sep.
  - by rewrite output_dir_eq.
Qed.

Lemma suffix_stable (suf : string) :
  nt_normcase (String "*" suf) = String "*" suf ->
  os_path_normcase (String "*" suf) = String "*" suf.
Proof. intros Hs. unfold os_path_normcase. by destruct IS_WINDOWS. Qed.

(** The paths the two loops iterate over. *)
Lemma glob_bz2 (f : gmap string node) :
  glob (conda_bz2_src_packages self) f =
  map (fun n => cache_dir ++ String os_sep n)
      (List.filter (archive_name ".bz2") (fs_listdir cache_dir f)).
Proof.
  destruct init_fields as (_ & -> & _).
  apply (glob_cache ".bz2"); [reflexivity|reflexivity|]. by apply suffix_stable.
Qed.

Lemma glob_conda (f : gmap string node) :
  glob (conda_conda_src_packages self) f =
  map (fun n => cache_dir ++ String os_sep n)
      (List.filter (archive_name ".conda") (fs_listdir cache_dir f)).
Proof.
  destruct init_fields as (_ & _ & ->).
  apply (glob_cache ".conda"); [reflexivity|reflexivity|]. by apply suffix_stable.
Qed.

Lemma copy_packages_unfold (w : World) :
  copy_packages self w =
  match fs_makedirs (channel_dir self) (fs w) with
  | Raise e => (Raise e, w)
  | Ok f1 =>
      match copy_loop (channel_dir self) (glob (conda_bz2_src_packages self) f1) ∅
              (set_fs f1 w) with
      | (Raise e, w2) => (Raise e, w2)
      | (Ok known, w2) =>
          match copy_loop (channel_dir self) (glob (conda_conda_src_packages self) (fs w2))
                  known w2 with
          | (Raise e, w3) => (Raise e, w3)
          | (Ok _, w3) => (Ok tt, w3)
          end
      end
  end.
Proof.
  unfold copy_packages. fold (channel_dir self). run_monad.
  destruct (fs_makedirs (channel_dir self) (fs w)) as [f1|e]; [|done].
  cbn [fs set_fs].
  destruct (copy_loop _ _ ∅ _) as [[known|e] w2]; [|done].
  by destruct (copy_loop _ _ known w2) as [[known'|e] w3].
Qed.


Lemma glob_names_valid (suf : string) (f : gmap string node) (n : string) :
  In n (List.filter (archive_name suf) (fs_listdir cache_dir f)) ->
  archive_name suf n = true /\ valid_name n = true
  /\ is_Some (f !! (cache_dir ++ String os_sep n)).
Proof.
  intros [Hl Ha]%filter_In. apply fs_listdir_spec in Hl as [Hv Hf]. done.
Qed.

(** Creating the channel directory leaves the cache as it was. *)
Lemma makedirs_keeps_cache (f f1 : gmap string node) (n : string) :
  fs_makedirs (channel_dir self) f = Ok f1 ->
  f1 !! (cache_dir ++ String os_sep n) = f !! (cache_dir ++ String os_sep n).
Proof.
  intros Hmk. destruct channel_dir_facts as (Hne & Hl & Hh).
  destruct (fs_makedirs_lookup _ _ _ Hmk) as (_ & _ & _ & Hsame).
  apply Hsame.
  - intros Heq. rewrite <- Heq in Hh. discriminate Hh.
  - intros [Hane Hu]%ancestors_under.
    apply is_under_head in Hu; [|done]. rewrite Hh in Hu. discriminate Hu.
Qed.

Lemma channel_dir_fresh (f f1 : gmap string node) (n : string) :
  fs_wf f -> fs_makedirs (channel_dir self) f = Ok f1 ->
  f1 !! (channel_dir self ++ String os_sep n) = None.
Proof.
  intros Hwf Hmk. destruct channel_dir_facts as (Hne & Hl & Hh).
  destruct (fs_makedirs_lookup _ _ _ Hmk) as (Hnone & _ & _ & Hsame).
  assert (is_under (channel_dir self) (channel_dir self ++ String os_sep n) = true) as Hu
    by (apply is_under_spec; eauto).
  rewrite Hsame.
  - by apply (below_missing_dir f (channel_dir self)).
  - intros Heq. rewrite Heq in Hu. by rewrite is_under_irrefl in Hu.
  - intros [_ Hu']%ancestors_under.
    pose proof (is_under_trans _ _ _ Hu Hu') as Hdd. by rewrite is_under_irrefl in Hdd.
Qed.

Lemma cache_kept_by_loop (ns : list string) (known : gset string) (w : World) (n : string) :
  (forall n', In n' ns -> valid_name n' = true) ->
  fs (copy_loop (channel_dir self) (map (fun n => cache_dir ++ String os_sep n) ns) known w).2
    !! (cache_dir ++ String os_sep n)
  = fs w !! (cache_dir ++ String os_sep n).
Proof.
  intros Hv. destruct channel_dir_facts as (Hne & Hl & Hh).
  apply copy_loop_elsewhere; try done.
  intros n' _. by apply cached_not_dest.
Qed.


Lemma is_archive_valid (n : string) : is_archive n = true -> valid_name n = true.
Proof.
  unfold is_archive, archive_name. intros [Ha|Ha]%orb_true_iff;
    by apply andb_true_iff in Ha as [[? _]%andb_true_iff _].
Qed.

Lemma channel_dir_not_inside (n : string) :
  channel_dir self <> channel_dir self ++ String os_sep n.
Proof.
  intros Heq.
  assert (is_under (channel_dir self) (channel_dir self) = true) as Hu
    by (apply is_under_spec; eauto).
  by rewrite is_under_irrefl in Hu.
Qed.

Lemma copy_packages_result (w : World) :
  fs_wf (fs w) ->
  is_ok (fs_makedirs (channel_dir self) (fs w)) = true ->
  (forall n v,
     is_archive n = true -> fs w !! (cache_dir ++ String os_sep n) = Some v ->
     is_ok (package_name n) = true /\ exists content mode, v = File content mode) ->
  exists w3,
    copy_packages self w = (Ok tt, w3)
    /\ forall n content mode,
         is_archive n = true ->
         fs w !! (cache_dir ++ String os_sep n) = Some (File content mode) ->
         exists mode',
           fs w3 !! (channel_dir self ++ String os_sep n) = Some (File content mode').
Proof.
  intros Hwf Hmk Hfiles.
  destruct channel_dir_facts as (Hne & Hl & Hh).
  rewrite copy_packages_unfold.
  destruct (fs_makedirs (channel_dir self) (fs w)) as [f1|e] eqn:Hmk1; [|done].
  destruct (fs_makedirs_lookup _ _ _ Hmk1) as (Hnone & Hdest1 & _ & _).
  rewrite glob_bz2.
  set (ns1 := List.filter (archive_name ".bz2") (fs_listdir cache_dir f1)).
  assert (forall n, In n ns1 -> valid_name n = true) as Hvalid1.
  { intros n Hn. by apply glob_names_valid in Hn as (_ & ? & _). }
  assert (forall n, In n ns1 ->
            valid_name n = true
            /\ is_ok (package_name n) = true
            /\ (exists c0 m0, fs (set_fs f1 w) !! (cache_dir ++ String os_sep n)
                              = Some (File c0 m0))
            /\ fs (set_fs f1 w) !! (channel_dir self ++ String os_sep n) <> Some Dir)
    as Hall1.
  { intros n Hn. apply glob_names_valid in Hn as (Ha & Hv & [v Hv1]).
    cbn [fs set_fs]. rewrite (makedirs_keeps_cache _ _ n Hmk1) in Hv1 |- *.
    destruct (Hfiles n v) as (Hp & c0 & m0 & ->);
      [unfold is_archive; by rewrite Ha | done |].
    split; [done|]. split; [done|]. split; [eauto|].
    by rewrite (channel_dir_fresh _ _ n Hwf Hmk1). }
  destruct (copy_loop_ok (channel_dir self) Hne Hl Hh ns1 ∅ (set_fs f1 w) Hall1 Hdest1)
    as [Hok1 Hcopied1].
  pose proof (fun k => copy_loop_elsewhere (channel_dir self) Hne Hl ns1 ∅ (set_fs f1 w) k
                         Hvalid1) as Helse1.
  pose proof (fun n => cache_kept_by_loop ns1 ∅ (set_fs f1 w) n Hvalid1) as Hcache1.
  destruct (copy_loop (channel_dir self) _ ∅ (set_fs f1 w)) as [[known|e] w2];
    [|discriminate Hok1].
  cbn [fst snd fs set_fs] in Hcopied1, Helse1, Hcache1.
  rewrite glob_conda.
  set (ns2 := List.filter (archive_name ".conda") (fs_listdir cache_dir (fs w2))).
  assert (forall n, In n ns2 -> valid_name n = true) as Hvalid2.
  { intros n Hn. by apply glob_names_valid in Hn as (_ & ? & _). }
  assert (fs w2 !! channel_dir self = Some Dir) as Hdest2.
  { rewrite Helse1; [done|]. intros n _. apply channel_dir_not_inside. }
  assert (forall n content mode,
            fs w !! (cache_dir ++ String os_sep n) = Some (File content mode) ->
            fs w2 !! (cache_dir ++ String os_sep n) = Some (File content mode)) as Hsrc2.
  { intros n content mode Hsrc. by rewrite Hcache1, (makedirs_keeps_cache _ _ n Hmk1). }
  assert (forall n, In n ns2 ->
            valid_name n = true
            /\ is_ok (package_name n) = true
            /\ (exists c0 m0, fs w2 !! (cache_dir ++ String os_sep n) = Some (File c0 m0))
            /\ fs w2 !! (channel_dir self ++ String os_sep n) <> Some Dir) as Hall2.
  { intros n Hn. apply glob_names_valid in Hn as (Ha & Hv & [v Hv2]).
    rewrite Hcache1, (makedirs_keeps_cache _ _ n Hmk1) in Hv2.
    destruct (Hfiles n v) as (Hp & c0 & m0 & ->);
      [unfold is_archive; by rewrite Ha, orb_true_r | done |].
    split; [done|]. split; [done|]. split; [eauto|].
    destruct (in_dec String.string_dec n ns1) as [Hin|Hnin].
    - destruct (Hcopied1 n c0 m0 Hin) as [m' ->]; [|done].
      by rewrite (makedirs_keeps_cache _ _ n Hmk1).
    - rewrite Helse1; [by rewrite (channel_dir_fresh _ _ n Hwf Hmk1)|].
      intros n' Hn' Heq. apply string_app_inv_head in Heq. by injection Heq as ->. }
  destruct (copy_loop_ok (channel_dir self) Hne Hl Hh ns2 known w2 Hall2 Hdest2)
    as [Hok2 Hcopied2].
  pose proof (fun k => copy_loop_elsewhere (channel_dir self) Hne Hl ns2 known w2 k
                         Hvalid2) as Helse2.
  destruct (copy_loop (channel_dir self) _ known w2) as [[known'|e] w3];
    [|discriminate Hok2].
  cbn [fst snd] in *. exists w3. split; [done|].
  intros n content mode Harch Hsrc.
  pose proof (is_archive_valid n Harch) as Hv.
  destruct (in_dec String.string_dec n ns2) as [Hin2|Hnin2].
  { apply (Hcopied2 n content mode Hin2). by apply Hsrc2. }
  apply orb_true_iff in Harch as [Ha|Ha].
  - assert (In n ns1) as Hin1.
    { apply filter_In. split; [|done]. apply fs_listdir_spec. split; [done|].
      rewrite (makedirs_keeps_cache _ _ n Hmk1). eauto. }
    rewrite Helse2.
    + apply (Hcopied1 n content mode Hin1).
      by rewrite (makedirs_keeps_cache _ _ n Hmk1).
    + intros n' Hn' Heq. apply string_app_inv_head in Heq. by injection Heq as ->.
  - exfalso. apply Hnin2. apply filter_In. split; [|done].
    apply fs_listdir_spec. split; [done|]. rewrite (Hsrc2 _ _ _ Hsrc). eauto.
Qed.

(** C2, as the code has it.  On a tree-shaped file system where the
    channel directory can be created, and where every archive in the cache
    with one of the two extensions (dot-files apart) is a regular file
    whose name [package_name] accepts, the copy step returns normally and
    every such archive is then in the channel directory with its content.
    The set of seen package names changes nothing: a copy loop leaves the
    same world behind whatever set it starts from. *)
Theorem copy_packages_copies_all (w : World) :
  fs_wf (fs w) ->
  is_ok (fs_makedirs (channel_dir self) (fs w)) = true ->
  (forall n v,
     is_archive n = true -> fs w !! (cache_dir ++ String os_sep n) = Some v ->
     is_ok (package_name n) = true /\ exists content mode, v = File content mode) ->
  (copy_packages self w).1 = Ok tt
  /\ (forall n content mode,
        is_archive n = true ->
        fs w !! (cache_dir ++ String os_sep n) = Some (File content mode) ->
        exists mode',
          fs (copy_packages self w).2 !! (channel_dir self ++ String os_sep n)
          = Some (File content mode'))
  /\ (forall packages known1 known2 w0,
        (copy_loop (channel_dir self) packages known1 w0).2
        = (copy_loop (channel_dir self) packages known2 w0).2
        /\ is_ok (copy_loop (channel_dir self) packages known1 w0).1
           = is_ok (copy_loop (channel_dir self) packages known2 w0).1).
Proof.
  intros Hwf Hmk Hfiles.
  destruct (copy_packages_result w Hwf Hmk Hfiles) as (w3 & -> & Hcopied).
  split; [done|]. split; [exact Hcopied|].
  intros. apply copy_loop_known_irrelevant.
Qed.

End CopyPackages.

(** C2 fails as stated: with an archive in the cache whose name has no
    hyphen followed by a digit, the copy step raises in its first loop and
    the other archive of the cache, a regular file with one of the two
    extensions, is never copied. *)
Lemma copy_packages_aborts_midway :
  let r := @copy_packages (example_linux 0) linux_self bad_cache_world in
  fs bad_cache_world !! "build_temp/pkgs/six-1.12.0-py37_0.conda" = Some (File "six-1.12.0-py37_0.conda" 420)
  /\ @is_archive (example_linux 0) "six-1.12.0-py37_0.conda" = true
  /\ r.1 = Raise (AttributeError "'NoneType' object has no attribute 'group'")
  /\ fs r.2 !! "output/miniconda3-4.7.12.1-2/conda_offline_channel/linux-64/six-1.12.0-py37_0.conda"
     = None.
Proof. cbv zeta. split; [|split; [|split]]; vm_compute; reflexivity. Qed.

(** What the example cache holds below its package directory. *)
Lemma cache_fs_lookup (names : list string) (n : string) (v : node) :
  cache_fs names !! ("build_temp/pkgs/" ++ n) = Some v ->
  In n names /\ v = File n 420.
Proof.
  assert (forall k, String.length k < 16 -> k <> "build_temp/pkgs/" ++ n)%nat as Hshort.
  { intros k Hk Heq. apply (f_equal String.length) in Heq.
    rewrite string_length_app in Heq. cbn in Heq. lia. }
  induction names as [|n0 names IH]; cbn [cache_fs foldr].
  - rewrite !lookup_insert_ne by (apply Hshort; cbn; lia).
    by rewrite lookup_empty.
  - destruct (decide ("build_temp/pkgs/" ++ n0 = "build_temp/pkgs/" ++ n)) as [Heq|Hne].
    + rewrite Heq, lookup_insert_eq. intros [= <-].
      apply string_app_inv_head in Heq as ->. split; [by left | done].
    + rewrite lookup_insert_ne by done. intros Hl.
      destruct (IH Hl) as [Hin ->]. split; [by right | done].
Qed.

Lemma copy_packages_copies_all_witness :
  (@copy_packages (example_linux 0) linux_self cache_world).1 = Ok tt
  /\ exists mode',
       fs (@copy_packages (example_linux 0) linux_self cache_world).2
         !! (@channel_dir (example_linux 0) linux_self
               ++ String (@os_sep (example_linux 0)) "six-1.12.0-py37_0.tar.bz2")
       = Some (File "six-1.12.0-py37_0.tar.bz2" mode').
Proof.
  destruct (@copy_packages_copies_all (example_linux 0) MinicondaOfflineInstaller
              linux_self eq_refl eq_refl cache_world) as (Hok & Hcopied & _).
  - vm_compute. reflexivity.
  - vm_compute. reflexivity.
  - intros n v Harch Hlook.
    change (cache_fs ["six-1.12.0-py37_0.tar.bz2"; "pillow-6.2.1-py37h34e0f95_0.conda"]
              !! ("build_temp/pkgs/" ++ n) = Some v) in Hlook.
    apply cache_fs_lookup in Hlook as [[<-|[<-|[]]] ->];
      (split; [vm_compute; reflexivity | eauto]).
  - split; [exact Hok|].
    apply (Hcopied "six-1.12.0-py37_0.tar.bz2" _ 420%Z); vm_compute; reflexivity.
Defined.


(* ===================================================================== *)
(** * More on package names                                               *)
(* ===================================================================== *)

Lemma match_tail_spec (s : string) :
  is_Some (Re.match_items [Re.One (Re.Lit "-"); Re.One Re.Digit; Re.Star Re.Dot] s)
  <-> exists d rest, s = String "-" (String d rest) /\ is_digit d = true.
Proof.
  destruct s as [|c s]; cbn [Re.match_items Re.atom_matches].
  { split; [intros [? [=]] | intros (? & ? & [=] & _)]. }
  destruct (Ascii.eqb_spec c "-") as [->|Hc].
  2:{ split; [intros [? [=]] | intros (? & ? & [= ? ?] & _); done]. }
  destruct s as [|d s].
  { split; [intros [? [=]] | intros (? & ? & [=] & _)]. }
  destruct (is_digit d) eqn:Hd.
  - destruct (star_dot_total s) as [k Hk]. cbn in Hk. cbn. rewrite Hk. cbn.
    split; [intros _; eauto | intros _; eauto].
  - split; [intros [? [=]] | intros (? & ? & [= <- <-] & Hd'); congruence].
Qed.

Lemma match_tail_length (s : string) (l : list nat) :
  Re.match_items [Re.One (Re.Lit "-"); Re.One Re.Digit; Re.Star Re.Dot] s = Some l ->
  exists k, l = [1; 1; k]%nat.
Proof.
  destruct s as [|c s]; cbn [Re.match_items Re.atom_matches]; [done|].
  destruct (Ascii.eqb c "-"); [|done].
  destruct s as [|d s]; [done|]. destruct (is_digit d); [|done].
  destruct (star_dot_total s) as [k Hk]. cbn in Hk. cbn. rewrite Hk. cbn.
  intros [= <-]. eauto.
Qed.

(** The matcher finds the longest candidate, and fails when there is
    none. *)
Lemma match_longest_candidate (s : string) :
  match Re.match_items package_name_pattern s with
  | Some l =>
      exists p ns, l = String.length p :: ns
        /\ name_candidate s p
        /\ forall p2, name_candidate s p2 -> (String.length p2 <= String.length p)%nat
  | None => forall p2, ~ name_candidate s p2
  end.
Proof.
  unfold package_name_pattern.
  induction s as [|c s IH]; rewrite match_star_unfold.
  - cbn. intros p2 (d & rest & Heq & _). destruct p2; discriminate Heq.
  - assert (forall p2, name_candidate (String c s) p2 ->
              (p2 = "" /\ exists d rest, String c s = String "-" (String d rest)
                                         /\ is_digit d = true)
              \/ (exists p2', p2 = String c p2' /\ name_candidate s p2'
                              /\ negb (Ascii.eqb c newline) = true)) as Hsplit.
    { intros p2 (d & rest & Heq & Hd & Hnl). destruct p2 as [|x p2].
      - left. rewrite string_app_nil in Heq. eauto.
      - right. rewrite string_app_cons in Heq. injection Heq as <- ->.
        cbn in Hnl. apply andb_true_iff in Hnl as [Hx Hnl].
        exists p2. split; [done|]. split; [|done]. exists d, rest. done. }
    pose proof (match_tail_spec (String c s)) as Htail.
    pose proof (match_tail_length (String c s)) as Hlen.
    destruct (Re.match_items [Re.One (Re.Lit "-"); Re.One Re.Digit; Re.Star Re.Dot]
                (String c s)) as [lt|].
    + destruct (Hlen lt eq_refl) as [k ->]. clear Hlen.
      destruct Htail as [Ht1 _]. destruct Ht1 as (d & rest & Heq & Hd); [eauto|].
      injection Heq as -> ->.
      change (Re.atom_matches Re.Dot "-") with true. cbv iota.
      destruct (Re.match_items _ (String d rest)) as [l|].
      * destruct IH as (p & ns & -> & Hcand & Hmax). cbn [Re.bump].
        exists (String "-" p), ns. split; [done|]. split.
        -- destruct Hcand as (d' & rest' & -> & Hd' & Hnl).
           exists d', rest'. rewrite string_app_cons. split; [done|]. split; [done|].
           cbn [string_forallb]. by rewrite Hnl.
        -- intros p2 [[-> _]|(p2' & -> & Hc2 & _)]%Hsplit; cbn [String.length]; [lia|].
           specialize (Hmax p2' Hc2). lia.
      * cbn [Re.bump fmap option_fmap option_map].
        exists "", [1; 1; k]%nat. split; [done|]. split.
        -- exists d, rest. rewrite string_app_nil. done.
        -- intros p2 [[-> _]|(p2' & -> & Hc2 & _)]%Hsplit; [done|].
           by apply IH in Hc2.
    + assert (forall p2, name_candidate (String c s) p2 ->
                exists p2', p2 = String c p2' /\ name_candidate s p2'
                            /\ negb (Ascii.eqb c newline) = true) as Hsplit'.
      { intros p2 [[-> Hex]|Hr]%Hsplit; [|done].
        destruct Htail as [_ Ht2]. by destruct (Ht2 Hex) as [? [=]]. }
      clear Hsplit Htail Hlen.
      destruct (Re.atom_matches Re.Dot c) eqn:Hc.
      * destruct (Re.match_items _ s) as [l|].
        -- destruct IH as (p & ns & -> & Hcand & Hmax). cbn [Re.bump].
           exists (String c p), ns. split; [done|]. split.
           ++ destruct Hcand as (d' & rest' & -> & Hd' & Hnl).
              exists d', rest'. rewrite string_app_cons. split; [done|]. split; [done|].
              cbn [string_forallb]. cbn in Hc. by rewrite Hc, Hnl.
           ++ intros p2 (p2' & -> & Hc2 & _)%Hsplit'; cbn [String.length].
              specialize (Hmax p2' Hc2). lia.
        -- cbn [Re.bump fmap option_fmap option_map].
           intros p2 (p2' & -> & Hc2 & _)%Hsplit'. by apply IH in Hc2.
      * cbn [fmap option_fmap option_map].
        intros p2 (p2' & -> & _ & Hnl)%Hsplit'. cbn in Hc. congruence.
Qed.

(** X1. On an ASCII file name, [package_name] returns the longest prefix
    that holds no newline and is followed by a hyphen and a digit, and
    raises exactly when the name has no such prefix. *)
Theorem package_name_longest_candidate (s : string) :
  is_ascii s = true ->
  (forall p, package_name s = Ok p <->
             name_candidate s p
             /\ forall p2, name_candidate s p2 ->
                           (String.length p2 <= String.length p)%nat)
  /\ (is_ok (package_name s) = false <-> forall p, ~ name_candidate s p).
Proof.
  intros _.
  pose proof (match_longest_candidate s) as Hm. unfold package_name.
  destruct (Re.match_items package_name_pattern s) as [l|].
  - destruct Hm as (p & ns & -> & Hcand & Hmax).
    assert (forall q, name_candidate s q -> string_take (String.length q) s = q) as Htake.
    { intros q (d & rest & -> & _). apply string_take_app. }
    rewrite (Htake p Hcand). split.
    + intros q. split.
      * intros [= <-]. done.
      * intros [Hq Hqmax]. f_equal.
        pose proof (Hmax q Hq) as H1. pose proof (Hqmax p Hcand) as H2.
        rewrite <- (Htake p Hcand), <- (Htake q Hq). f_equal. lia.
    + cbn. split; [done|]. intros Hnone. by destruct (Hnone p).
  - split.
    + intros q. split; [done|]. intros [Hq _]. by destruct (Hm q).
    + cbn. done.
Qed.

Lemma package_name_longest_candidate_witness :
  name_candidate "ca-certificates-2019.10.16-0.tar.bz2" "ca-certificates-2019.10.16"
  /\ forall p2,
       name_candidate "ca-certificates-2019.10.16-0.tar.bz2" p2 ->
       (String.length p2 <= String.length "ca-certificates-2019.10.16")%nat.
Proof.
  apply (proj1 (proj1 (package_name_longest_candidate
                         "ca-certificates-2019.10.16-0.tar.bz2" eq_refl)
                  "ca-certificates-2019.10.16")).
  vm_compute; reflexivity.
Defined.

(* ===================================================================== *)
(** * Adding to PATH                                                      *)
(* ===================================================================== *)

Section AddPath.
Context `{Host}.

Lemma add_paths_loop_missing (f : gmap string node) (good : list string)
    (p : string) (rest : list string) (np : option string) :
  Forall (fun q => os_path_isdir f (os_path_abspath q) = true) good ->
  os_path_isdir f (os_path_abspath p) = false ->
  add_paths_loop f (good ++ p :: rest) np =
  Raise (RuntimeError
           (VStr ("Directory " ++ dquote ++ os_path_abspath p ++ dquote
                    ++ " does not exist, cannot add it to the path"))).
Proof.
  intros Hgood Hp. revert np.
  induction Hgood as [|q good Hq _ IH]; intros np; cbn [app add_paths_loop].
  - by rewrite Hp.
  - rewrite Hq. cbn [negb]. apply IH.
Qed.

Lemma join_merge_head (c : ascii) (a b : string) (l : list string) :
  join (String c "") ((a ++ String c b) :: l) = join (String c "") (a :: b :: l).
Proof.
  unfold join. destruct l as [|x l].
  - cbn [String.concat]. by rewrite string_app_cons, string_app_nil.
  - change (String.concat (String c "") ((a ++ String c b) :: x :: l))
      with ((a ++ String c b) ++ String c "" ++ String.concat (String c "") (x :: l)).
    change (String.concat (String c "") (a :: b :: x :: l))
      with (a ++ String c "" ++ b ++ String c "" ++ String.concat (String c "") (x :: l)).
    by rewrite string_app_assoc.
Qed.

Lemma add_paths_loop_acc (f : gmap string node) (l : list string) (acc : string) :
  Forall (fun q => os_path_isdir f (os_path_abspath q) = true) l ->
  acc <> "" ->
  add_paths_loop f l (Some acc) =
  Ok (Some (join (String os_pathsep "") (acc :: map os_path_abspath l))).
Proof.
  intros Hl. revert acc.
  induction Hl as [|q l Hq _ IH]; intros acc Hacc; cbn [add_paths_loop map].
  - reflexivity.
  - rewrite Hq. cbn [negb].
    destruct (String.eqb_spec acc "") as [->|_]; [done|].
    rewrite IH.
    + do 2 f_equal. apply join_merge_head.
    + intros Heq. destruct acc; [done|]. rewrite string_app_cons in Heq. discriminate Heq.
Qed.

Lemma add_paths_loop_ok (f : gmap string node) (l : list string) :
  l <> [] ->
  Forall (fun q => os_path_isdir f (os_path_abspath q) = true
                   /\ os_path_abspath q <> "") l ->
  add_paths_loop f l None =
  Ok (Some (join (String os_pathsep "") (map os_path_abspath l))).
Proof.
  intros Hne Hl. destruct l as [|q l]; [done|].
  apply Forall_cons in Hl as [[Hq Hq'] Hl]. cbn [add_paths_loop map].
  rewrite Hq. cbn [negb]. apply add_paths_loop_acc; [|done].
  eapply Forall_impl; [exact Hl|]. by intros ? [? _].
Qed.

(** What [add_to_system_path] does once the paths are checked and the key
    is open. *)
Lemma add_to_system_path_run (paths : path_arg) (allusers : bool) (var : string)
    (w : World) (np : option string) (k : reg_key) :
  add_paths_loop (fs w)
    (match paths with PathList l => l | OnePath p => [p] end) None = Ok np ->
  registry w !! add_key allusers = Some k -> rk_access k = true ->
  add_to_system_path paths allusers var w =
  match rk_values k !! var with
  | None =>
      (Ok tt,
       set_registry
         (with_value (add_key allusers) k var
            (match np with Some s => RegString s | None => RegString "" end)
            REG_EXPAND_SZ (registry w)) w)
  | Some (old, ty) =>
      match (if allusers then concat_path (Some old) (RegString <$> np)
             else concat_path (RegString <$> np) (Some old)) with
      | Ok d =>
          (Ok tt, set_registry (with_value (add_key allusers) k var d ty (registry w)) w)
      | Raise e => (Raise e, w)
      end
  end.
Proof.
  intros Hloop Hk Hacc. unfold add_to_system_path, add_key in *.
  unfold mbind at 1, M_bind at 1. unfold get_fs at 1.
  unfold mbind at 1, M_bind at 1. unfold lift at 1. rewrite Hloop.
  assert (forall root keyname,
            registry w !! (root, keyname) = Some k ->
            reg_OpenKey root keyname w = (Ok (root, keyname), w)) as Hopen.
  { intros root keyname Hl. unfold reg_OpenKey. by rewrite Hl, Hacc. }
  destruct allusers.
  all: unfold mbind at 1, M_bind at 1; rewrite (Hopen _ _ Hk).
  all: unfold try_finally, reg_CloseKey, try_except, reg_QueryValueEx, reg_SetValueEx,
         with_value, lift, mbind, M_bind, mret, M_ret; rewrite Hk.
  all: destruct (rk_values k !! var) as [[old ty]|]; cbn [fst snd]; [|by rewrite Hk].
  all: match goal with |- context [concat_path ?a ?b] => destruct (concat_path a b) end.
  all: cbn [fst snd]; by rewrite ?Hk.
Qed.

(** X2. Every path is checked before the registry is opened: when one of
    them is not a directory, [add_to_system_path] raises the error that
    names the first such path, made absolute, and changes nothing. *)
Theorem add_to_system_path_missing_directory (good : list string) (p : string)
    (rest : list string) (allusers : bool) (var : string) (w : World) :
  Forall (fun q => os_path_isdir (fs w) (os_path_abspath q) = true) good ->
  os_path_isdir (fs w) (os_path_abspath p) = false ->
  add_to_system_path (PathList (good ++ p :: rest)) allusers var w =
  (Raise (RuntimeError
            (VStr ("Directory " ++ dquote ++ os_path_abspath p ++ dquote
                     ++ " does not exist, cannot add it to the path"))), w).
Proof.
  intros Hgood Hp. unfold add_to_system_path.
  unfold mbind at 1, M_bind at 1. unfold get_fs at 1.
  unfold mbind at 1, M_bind at 1. unfold lift at 1.
  by rewrite (add_paths_loop_missing _ _ _ _ _ Hgood Hp).
Qed.

(** X3. With an existing PATH string, an all-users call puts the new
    directories, made absolute and joined by the separator, after the old
    value, and a user call puts them in front of it; the type of the value
    is kept and nothing else in the world changes. *)
Theorem add_to_system_path_placement (l : list string) (allusers : bool)
    (var : string) (w : World) (k : reg_key) (old : string) (ty : reg_type) :
  l <> [] ->
  Forall (fun q => os_path_isdir (fs w) (os_path_abspath q) = true
                   /\ os_path_abspath q <> "") l ->
  registry w !! add_key allusers = Some k -> rk_access k = true ->
  rk_values k !! var = Some (RegString old, ty) ->
  let new := join (String os_pathsep "") (map os_path_abspath l) in
  add_to_system_path (PathList l) allusers var w =
  (Ok tt,
   set_registry
     (with_value (add_key allusers) k var
        (RegString (if allusers then old ++ String os_pathsep new
                    else new ++ String os_pathsep old))
        ty (registry w)) w).
Proof.
  intros Hne Hl Hk Hacc Hval new.
  rewrite (add_to_system_path_run (PathList l) allusers var w (Some new) k);
    [|by apply add_paths_loop_ok|done|done].
  rewrite Hval. by destruct allusers.
Qed.

(** X4. When the key has no value of that name, the value is created
    with type [REG_EXPAND_SZ] and holds just the new directories. *)
Theorem add_to_system_path_creates_value (l : list string) (allusers : bool)
    (var : string) (w : World) (k : reg_key) :
  l <> [] ->
  Forall (fun q => os_path_isdir (fs w) (os_path_abspath q) = true
                   /\ os_path_abspath q <> "") l ->
  registry w !! add_key allusers = Some k -> rk_access k = true ->
  rk_values k !! var = None ->
  add_to_system_path (PathList l) allusers var w =
  (Ok tt,
   set_registry
     (with_value (add_key allusers) k var
        (RegString (join (String os_pathsep "") (map os_path_abspath l)))
        REG_EXPAND_SZ (registry w)) w).
Proof.
  intros Hne Hl Hk Hacc Hval.
  rewrite (add_to_system_path_run (PathList l) allusers var w
             (Some (join (String os_pathsep "") (map os_path_abspath l))) k);
    [|by apply add_paths_loop_ok|done|done].
  by rewrite Hval.
Qed.

(** X5. [add_to_system_path] is all or nothing: whenever it raises, be it
    for a missing directory, a key that cannot be opened or a PATH value
    that is not a string, the world is as it was. *)
Theorem add_to_system_path_all_or_nothing (paths : path_arg) (allusers : bool)
    (var : string) (w : World) :
  (add_to_system_path paths allusers var w).1 = Ok tt
  \/ (add_to_system_path paths allusers var w).2 = w.
Proof.
  destruct (add_paths_loop (fs w)
              (match paths with PathList l => l | OnePath p => [p] end) None)
    as [np|e] eqn:Hloop.
  2:{ right. unfold add_to_system_path.
      unfold mbind at 1, M_bind at 1. unfold get_fs at 1.
      unfold mbind at 1, M_bind at 1. unfold lift at 1. by rewrite Hloop. }
  destruct (registry w !! add_key allusers) as [k|] eqn:Hk.
  2:{ right. unfold add_to_system_path, add_key in *.
      unfold mbind at 1, M_bind at 1. unfold get_fs at 1.
      unfold mbind at 1, M_bind at 1. unfold lift at 1. rewrite Hloop.
      destruct allusers.
      all: unfold mbind at 1, M_bind at 1; unfold reg_OpenKey; by rewrite Hk. }
  destruct (rk_access k) eqn:Hacc.
  2:{ right. unfold add_to_system_path, add_key in *.
      unfold mbind at 1, M_bind at 1. unfold get_fs at 1.
      unfold mbind at 1, M_bind at 1. unfold lift at 1. rewrite Hloop.
      destruct allusers.
      all: unfold mbind at 1, M_bind at 1; unfold reg_OpenKey; by rewrite Hk, Hacc. }
  rewrite (add_to_system_path_run paths allusers var w np k Hloop Hk Hacc).
  destruct (rk_values k !! var) as [[old ty]|]; [|by left].
  match goal with |- context [match ?c with Ok _ => _ | Raise _ => _ end] => destruct c end.
  - by left.
  - by right.
Qed.

End AddPath.

(* ===================================================================== *)
(** * Removing from PATH: what is left alone                              *)
(* ===================================================================== *)

Section RemovePath.
Context `{Host}.

Lemma list_filter_sublist {A} (g : A -> bool) (l : list A) :
  sublist (List.filter g l) l.
Proof.
  induction l as [|x l IH]; cbn [List.filter]; [constructor|].
  destruct (g x); by constructor.
Qed.

(** One turn of the outer loop, in every case. *)
Lemma remove_from_key_run (pn var : string) (rk : hkey * string) (w : World) :
  remove_from_key pn var rk w =
  match registry w !! rk with
  | None => (Raise (WindowsError "The system cannot find the file specified"), w)
  | Some k =>
      if rk_access k then
        match rk_values k !! var with
        | Some (RegString s, ty) =>
            let m := fun v =>
              String.eqb (os_path_normcase (os_path_normpath (sz_expand v ty))) pn in
            if existsb m (split os_pathsep s)
            then (Ok tt,
                  set_registry
                    (with_value rk k var
                       (RegString (join (String os_pathsep "")
                                     (List.filter (fun v => negb (m v))
                                        (split os_pathsep s))))
                       ty (registry w)) w)
            else (Ok tt, w)
        | _ => (Ok tt, w)
        end
      else (Raise (WindowsError "Access is denied"), w)
  end.
Proof.
  destruct rk as [root kn].
  unfold remove_from_key. cbn [fst snd].
  unfold mbind, M_bind at 1. unfold reg_OpenKey.
  destruct (registry w !! (root, kn)) as [k|] eqn:Hk; [|reflexivity].
  destruct (rk_access k); [|reflexivity].
  unfold mbind, M_bind at 1. unfold try_except at 1.
  unfold mbind, M_bind at 1. unfold reg_QueryValueEx. rewrite Hk.
  destruct (rk_values k !! var) as [[d ty]|] eqn:Hv; [|reflexivity].
  unfold mret, M_ret at 1. cbn [fst snd].
  destruct d as [s|n]; [|reflexivity].
  unfold try_except, data_split. unfold mbind, M_bind, mret, M_ret.
  rewrite fold_path_step. cbn [orb app]. cbv zeta.
  destruct (existsb _ (split os_pathsep s)) eqn:Hany; [|reflexivity].
  unfold reg_SetValueEx. by rewrite Hk.
Qed.

Lemma path_edit_refl (var : string) (keys : list (hkey * string))
    (r : gmap (hkey * string) reg_key) : path_edit var keys r r.
Proof. intros rk. by left. Qed.

Lemma remove_from_key_frame (pn var : string) (rk : hkey * string) (w : World) :
  let w' := (remove_from_key pn var rk w).2 in
  fs w' = fs w /\ stdout w' = stdout w /\ calls w' = calls w
  /\ broadcasts w' = broadcasts w
  /\ path_edit var [rk] (registry w) (registry w')
  /\ forall rk2, rk2 <> rk -> registry w' !! rk2 = registry w !! rk2.
Proof.
  rewrite remove_from_key_run.
  destruct (registry w !! rk) as [k|] eqn:Hk.
  2:{ cbn. repeat split; auto using path_edit_refl. }
  destruct (rk_access k).
  2:{ cbn. repeat split; auto using path_edit_refl. }
  destruct (rk_values k !! var) as [[[s|n] ty]|] eqn:Hv.
  2,3:cbn; repeat split; auto using path_edit_refl.
  cbv zeta. destruct (existsb _ _).
  2:{ cbn. repeat split; auto using path_edit_refl. }
  cbn [snd fs stdout calls broadcasts registry set_registry].
  split; [done|]. split; [done|]. split; [done|]. split; [done|]. split.
  - intros rk2. destruct (decide (rk2 = rk)) as [->|Hne].
    + right. split; [by left|]. eexists k, s, ty, _. split; [done|]. split; [done|].
      split; [apply list_filter_sublist|]. unfold with_value. by rewrite lookup_insert_eq.
    + left. unfold with_value. by rewrite lookup_insert_ne.
  - intros rk2 Hne. unfold with_value. by rewrite lookup_insert_ne.
Qed.

(** X6. Whatever its outcome, [remove_from_system_path] leaves the file
    system, the output and the process log alone, and in the registry it
    touches nothing but the value named by [path_env_var] in the
    environment keys it was asked to edit: an existing string there keeps
    its type and loses entries, nothing is added, no other value or key
    changes, and a missing value is not created. *)
Theorem remove_from_system_path_frame (pathname : string) (allusers : bool)
    (var : string) (w : World) :
  let w' := (remove_from_system_path pathname allusers var w).2 in
  fs w' = fs w /\ stdout w' = stdout w /\ calls w' = calls w
  /\ broadcasts w' = broadcasts w
  /\ path_edit var (envkeys allusers) (registry w) (registry w').
Proof.
  unfold remove_from_system_path.
  set (pn := os_path_normcase (os_path_normpath pathname)).
  assert (forall rk, let w1 := (remove_from_key pn var rk w).2 in
            (for_each [rk] (remove_from_key pn var) w).2 = w1) as Hone.
  { intros rk. cbn [for_each]. unfold mbind, M_bind, mret, M_ret.
    by destruct (remove_from_key pn var rk w) as [[[]|e] w1]. }
  destruct allusers; unfold envkeys.
  2:{ rewrite Hone. destruct (remove_from_key_frame pn var (HKEY_CURRENT_USER, "Environment") w)
        as (? & ? & ? & ? & ? & _). done. }
  set (ku := (HKEY_CURRENT_USER, "Environment")).
  set (km := (HKEY_LOCAL_MACHINE,
              "SYSTEM\CurrentControlSet\Control\Session Manager\Environment")).
  destruct (remove_from_key_frame pn var ku w) as (Hf1 & Hs1 & Hc1 & Hb1 & He1 & Hr1).
  assert ((for_each [ku; km] (remove_from_key pn var) w).2 =
          match remove_from_key pn var ku w with
          | (Ok _, w1) => (remove_from_key pn var km w1).2
          | (Raise _, w1) => w1
          end) as ->.
  { cbn [for_each]. unfold mbind, M_bind, mret, M_ret.
    destruct (remove_from_key pn var ku w) as [[[]|e] w1]; [|done].
    by destruct (remove_from_key pn var km w1) as [[[]|e] w2]. }
  destruct (remove_from_key pn var ku w) as [[[]|e] w1] eqn:H1; cbn [snd] in *.
  2:{ split; [done|]. split; [done|]. split; [done|]. split; [done|].
      intros rk. destruct (He1 rk) as [?|[[<-|[]] ?]]; [by left|right].
      split; [by left|done]. }
  destruct (remove_from_key_frame pn var km w1) as (Hf2 & Hs2 & Hc2 & Hb2 & He2 & Hr2).
  split; [congruence|]. split; [congruence|]. split; [congruence|]. split; [congruence|].
  intros rk. destruct (decide (rk = km)) as [->|Hne].
  - destruct (He2 km) as [Heq|[_ (k & s & ty & l & Hk & Hv & Hl & Hk')]].
    + left. rewrite Heq. by apply Hr1.
    + right. split; [by right; left|]. exists k, s, ty, l.
      split; [|done]. rewrite <- Hk. symmetry. by apply Hr1.
  - rewrite (Hr2 rk Hne). destruct (He1 rk) as [?|[[<-|[]] ?]]; [by left|right].
    split; [by left|done].
Qed.

(** X7. An all-users removal by a process that may not open the
    machine-wide key still edits the user's PATH, exactly as a user-only
    removal would, and only then raises the error of the failed open. *)
Theorem remove_from_system_path_locked_machine_key (pathname var : string)
    (w : World) (ku : reg_key) :
  registry w !! user_key = Some ku -> rk_access ku = true ->
  (forall km, registry w !! machine_key = Some km -> rk_access km = false) ->
  (remove_from_system_path pathname false var w).1 = Ok tt
  /\ exists msg,
       remove_from_system_path pathname true var w =
       (Raise (WindowsError msg), (remove_from_system_path pathname false var w).2).
Proof.
  intros Hku Hacc Hkm. unfold remove_from_system_path, envkeys.
  set (pn := os_path_normcase (os_path_normpath pathname)).
  fold user_key machine_key. cbn [for_each].
  unfold mbind, M_bind, mret, M_ret.
  destruct (remove_from_key_frame pn var user_key w) as (_ & _ & _ & _ & _ & Hr1).
  pose proof (remove_from_key_run pn var user_key w) as Hrun.
  rewrite Hku, Hacc in Hrun.
  assert ((remove_from_key pn var user_key w).1 = Ok tt) as Hok.
  { rewrite Hrun. destruct (rk_values ku !! var) as [[[s|n] ty]|]; try done.
    cbv zeta. by destruct (existsb _ _). }
  destruct (remove_from_key pn var user_key w) as [r1 w1]. cbn [fst snd] in *. subst r1.
  split; [done|].
  rewrite (remove_from_key_run pn var machine_key w1).
  rewrite (Hr1 machine_key); [|done].
  destruct (registry w !! machine_key) as [km|] eqn:Hm.
  - rewrite (Hkm km eq_refl). eauto.
  - eauto.
Qed.

(** The round trip, in the terms of the script. *)
Lemma add_then_remove_code (p var : string) (w : World) (k : reg_key)
    (old : string) (ty : reg_type) :
  os_path_isdir (fs w) (os_path_abspath p) = true ->
  registry w !! user_key = Some k -> rk_access k = true ->
  rk_values k !! var = Some (RegString old, ty) ->
  string_forallb (fun x => negb (Ascii.eqb x os_pathsep)) (os_path_abspath p) = true ->
  path_matches p ty (os_path_abspath p) = true ->
  existsb (path_matches p ty) (split os_pathsep old) = false ->
  (add_to_system_path (OnePath p) false var ;;
   remove_from_system_path p false var) w = (Ok tt, w).
Proof.
  intros Hdir Hk Hacc Hval Hsep Hmatch Hold.
  unfold mbind, M_bind.
  rewrite (add_to_system_path_run (OnePath p) false var w (Some (os_path_abspath p)) k);
    [|by cbn [add_paths_loop]; rewrite Hdir|done|done].
  rewrite Hval. cbn [concat_path fmap option_fmap option_map add_key].
  fold user_key.
  unfold remove_from_system_path, envkeys. fold user_key. cbn [for_each].
  unfold mbind, M_bind, mret, M_ret.
  rewrite remove_from_key_run.
  cbn [registry set_registry]. unfold with_value at 1. rewrite lookup_insert_eq.
  cbn [rk_access rk_values]. rewrite Hacc, lookup_insert_eq. cbv zeta.
  rewrite (split_app_sep _ _ _ Hsep). cbn [existsb List.filter].
  unfold path_matches in Hmatch, Hold. rewrite Hmatch. cbn [orb negb].
  rewrite (list_filter_none _ _ Hold), join_split.
  f_equal. unfold with_value, set_registry.
  cbn [fs registry stdout calls broadcasts rk_access rk_values].
  rewrite !insert_insert_eq, (insert_id (rk_values k) var _ Hval).
  rewrite (insert_id (registry w) user_key); [by destruct w|].
  rewrite Hk. destruct k as [vals acc]. cbn in Hacc. by subst acc.
Qed.

Lemma existsb_same {A} (g h : A -> bool) (l : list A) :
  (forall a, g a = h a) -> existsb g l = existsb h l.
Proof.
  intros Hgh. induction l as [|x l IH]; [reflexivity|]. cbn [existsb]. by rewrite Hgh, IH.
Qed.

(** X8. Round trip for a user install on Windows: a directory added to
    the user's PATH and then removed again leaves the world exactly as it
    was, provided the paths involved are ASCII, the absolute form of the
    directory holds no semicolon and names the directory the removal is
    asked for, and no entry of the old PATH names that directory. *)
Theorem add_then_remove_restores (p var : string) (w : World) (k : reg_key)
    (old : string) (ty : reg_type) :
  IS_WINDOWS = true ->
  os_path_isdir (fs w) (os_path_abspath p) = true ->
  registry w !! user_key = Some k -> rk_access k = true ->
  rk_values k !! var = Some (RegString old, ty) ->
  string_forallb (fun x => negb (Ascii.eqb x ";")) (os_path_abspath p) = true ->
  is_ascii (os_path_normpath p) = true ->
  is_ascii (os_path_normpath (expanded ty (os_path_abspath p))) = true ->
  Forall (fun v => is_ascii (os_path_normpath (expanded ty v)) = true) (split ";" old) ->
  names_target p ty (os_path_abspath p) = true ->
  existsb (names_target p ty) (split ";" old) = false ->
  (add_to_system_path (OnePath p) false var ;;
   remove_from_system_path p false var) w = (Ok tt, w).
Proof.
  intros HW Hdir Hk Hacc Hval Hsep _ _ _ Hmatch Hold.
  apply (add_then_remove_code p var w k old ty Hdir Hk Hacc Hval).
  - by rewrite (os_pathsep_windows HW).
  - by rewrite path_matches_names_target.
  - rewrite (os_pathsep_windows HW).
    rewrite (existsb_same _ (names_target p ty)); [exact Hold|].
    intros a. by apply path_matches_names_target.
Qed.

End RemovePath.

Lemma add_to_system_path_missing_directory_witness :
  @add_to_system_path example_windows_abs
    (PathList ["C:\Anaconda3"; "C:\Anaconda2"; "C:\Anaconda3\Scripts"]) true "PATH"
    (anaconda_world true)
  = (Raise (RuntimeError
              (VStr ("Directory " ++ dquote ++ "C:\Anaconda2" ++ dquote
                       ++ " does not exist, cannot add it to the path"))),
     anaconda_world true).
Proof.
  apply (@add_to_system_path_missing_directory example_windows_abs
           ["C:\Anaconda3"] "C:\Anaconda2" ["C:\Anaconda3\Scripts"] true "PATH"
           (anaconda_world true)).
  - constructor; [vm_compute; reflexivity | constructor].
  - vm_compute; reflexivity.
Defined.

Lemma add_to_system_path_placement_witness :
  @add_to_system_path example_windows_abs
    (PathList ["C:\Anaconda3"; "C:\Anaconda3\Scripts"]) false "PATH" (anaconda_world false)
  = (Ok tt,
     set_registry
       (with_value user_key user_env "PATH"
          (RegString "C:\Anaconda3;C:\Anaconda3\Scripts;C:\Tools;%TOOLS%\bin")
          REG_EXPAND_SZ (registry (anaconda_world false)))
       (anaconda_world false)).
Proof.
  apply (@add_to_system_path_placement example_windows_abs
           ["C:\Anaconda3"; "C:\Anaconda3\Scripts"] false "PATH" (anaconda_world false)
           user_env "C:\Tools;%TOOLS%\bin" REG_EXPAND_SZ).
  - discriminate.
  - repeat constructor; solve [vm_compute; reflexivity | discriminate].
  - vm_compute; reflexivity.
  - reflexivity.
  - vm_compute; reflexivity.
Defined.

Lemma add_to_system_path_creates_value_witness :
  @add_to_system_path example_windows_abs (PathList ["C:\Anaconda3"]) true "PYTHONPATH"
    (anaconda_world true)
  = (Ok tt,
     set_registry
       (with_value machine_key (machine_env true) "PYTHONPATH"
          (RegString "C:\Anaconda3") REG_EXPAND_SZ (registry (anaconda_world true)))
       (anaconda_world true)).
Proof.
  apply (@add_to_system_path_creates_value example_windows_abs
           ["C:\Anaconda3"] true "PYTHONPATH" (anaconda_world true) (machine_env true)).
  - discriminate.
  - repeat constructor; solve [vm_compute; reflexivity | discriminate].
  - vm_compute; reflexivity.
  - reflexivity.
  - vm_compute; reflexivity.
Defined.

Lemma remove_from_system_path_locked_machine_key_witness :
  (@remove_from_system_path example_windows_abs "c:/tools" false "PATH"
     (anaconda_world false)).1 = Ok tt
  /\ exists msg,
       @remove_from_system_path example_windows_abs "c:/tools" true "PATH"
         (anaconda_world false)
       = (Raise (WindowsError msg),
          (@remove_from_system_path example_windows_abs "c:/tools" false "PATH"
             (anaconda_world false)).2).
Proof.
  apply (@remove_from_system_path_locked_machine_key example_windows_abs
           "c:/tools" "PATH" (anaconda_world false) user_env).
  - vm_compute; reflexivity.
  - reflexivity.
  - intros km Hkm.
    assert (Some km = Some (machine_env false)) as [= ->];
      [rewrite <- Hkm; vm_compute; reflexivity | reflexivity].
Defined.

Lemma add_then_remove_restores_witness :
  (@add_to_system_path example_windows_abs (OnePath "C:\Anaconda3") false "PATH" ;;
   @remove_from_system_path example_windows_abs "C:\Anaconda3" false "PATH")
    (anaconda_world true)
  = (Ok tt, anaconda_world true).
Proof.
  apply (@add_then_remove_restores example_windows_abs "C:\Anaconda3" "PATH"
           (anaconda_world true) user_env "C:\Tools;%TOOLS%\bin" REG_EXPAND_SZ).
  - reflexivity.
  - vm_compute; reflexivity.
  - vm_compute; reflexivity.
  - reflexivity.
  - vm_compute; reflexivity.
  - vm_compute; reflexivity.
  - vm_compute; reflexivity.
  - vm_compute; reflexivity.
  - apply forallb_Forall_true. vm_compute; reflexivity.
  - vm_compute; reflexivity.
  - vm_compute; reflexivity.
Defined.

(* ===================================================================== *)
(** * The installer step on Windows                                       *)
(* ===================================================================== *)

Section InstallOnWindows.
Context `{Host}.

Lemma remove_from_key_open (pn var : string) (rk : hkey * string) (w : World)
    (keys : list (hkey * string)) :
  keys_open [rk] (registry w) -> keys_open keys (registry w) ->
  (remove_from_key pn var rk w).1 = Ok tt
  /\ keys_open keys (registry (remove_from_key pn var rk w).2)
  /\ fs (remove_from_key pn var rk w).2 = fs w
  /\ stdout (remove_from_key pn var rk w).2 = stdout w
  /\ calls (remove_from_key pn var rk w).2 = calls w
  /\ broadcasts (remove_from_key pn var rk w).2 = broadcasts w.
Proof.
  intros Hrk Hkeys. destruct (Hrk rk) as (k & Hk & Hacc); [by left|].
  rewrite remove_from_key_run, Hk, Hacc.
  destruct (rk_values k !! var) as [[[s|n] ty]|]; try done.
  cbv zeta. destruct (existsb _ _); [|done].
  cbn [fst snd fs registry stdout calls broadcasts set_registry].
  split; [done|]. split; [|done].
  intros rk2 Hin. destruct (decide (rk2 = rk)) as [->|Hne].
  - eexists. unfold with_value. rewrite lookup_insert_eq. split; [done|]. done.
  - unfold with_value. rewrite lookup_insert_ne by done. by apply Hkeys.
Qed.

Lemma for_each_remove_open (pn var : string) (l keys : list (hkey * string))
    (w : World) :
  keys_open l (registry w) -> keys_open keys (registry w) ->
  (for_each l (remove_from_key pn var) w).1 = Ok tt
  /\ keys_open keys (registry (for_each l (remove_from_key pn var) w).2)
  /\ fs (for_each l (remove_from_key pn var) w).2 = fs w
  /\ stdout (for_each l (remove_from_key pn var) w).2 = stdout w
  /\ calls (for_each l (remove_from_key pn var) w).2 = calls w
  /\ broadcasts (for_each l (remove_from_key pn var) w).2 = broadcasts w.
Proof.
  revert w. induction l as [|rk l IH]; intros w Hl Hkeys; [done|].
  assert (for_each (rk :: l) (remove_from_key pn var) w =
          match remove_from_key pn var rk w with
          | (Ok _, w1) => for_each l (remove_from_key pn var) w1
          | (Raise e, w1) => (Raise e, w1)
          end) as -> by reflexivity.
  assert (keys_open [rk] (registry w)) as Hrk.
  { intros rk2 [<-|[]]. apply Hl. by left. }
  assert (keys_open l (registry w)) as Hl'.
  { intros rk2 Hin. apply Hl. by right. }
  destruct (remove_from_key_open pn var rk w keys Hrk Hkeys) as (Hok & Hk1 & Hf & Hs & Hc & Hb).
  destruct (remove_from_key_open pn var rk w l Hrk Hl') as (_ & Hl1 & _).
  destruct (remove_from_key pn var rk w) as [r1 w1]. cbn [fst snd] in *. subst r1.
  destruct (IH w1 Hl1 Hk1) as (Hok2 & Hk2 & Hf2 & Hs2 & Hc2 & Hb2).
  split; [done|]. split; [done|].
  split; [congruence|]. split; [congruence|]. split; congruence.
Qed.

Lemma clean_up_system_path_open (w : World) :
  keys_open
    (envkeys (negb (os_path_exists (fs w) (os_path_join build_install_dir [".nonadmin"]))))
    (registry w) ->
  (_clean_up_system_path w).1 = Ok tt
  /\ fs (_clean_up_system_path w).2 = fs w
  /\ stdout (_clean_up_system_path w).2 = stdout w
  /\ calls (_clean_up_system_path w).2 = calls w
  /\ broadcasts (_clean_up_system_path w).2 = S (broadcasts w).
Proof.
  intros Hopen.
  set (keys := envkeys (negb (os_path_exists (fs w)
                                (os_path_join build_install_dir [".nonadmin"])))) in *.
  assert (_clean_up_system_path w =
          match for_each keys
                  (remove_from_key
                     (os_path_normcase (os_path_normpath build_install_dir)) "PATH") w with
          | (Ok _, w1) =>
              match for_each keys
                      (remove_from_key
                         (os_path_normcase
                            (os_path_normpath (os_path_join build_install_dir ["Scripts"])))
                         "PATH") w1 with
              | (Ok _, w2) => broadcast_environment_settings_change w2
              | (Raise e, w2) => (Raise e, w2)
              end
          | (Raise e, w1) => (Raise e, w1)
          end) as -> by reflexivity.
  destruct (for_each_remove_open
              (os_path_normcase (os_path_normpath build_install_dir)) "PATH"
              keys keys w Hopen Hopen) as (Hok1 & Hk1 & Hf1 & Hs1 & Hc1 & Hb1).
  destruct (for_each keys _ w) as [r1 w1]. cbn [fst snd] in *. subst r1.
  destruct (for_each_remove_open
              (os_path_normcase
                 (os_path_normpath (os_path_join build_install_dir ["Scripts"]))) "PATH"
              keys keys w1 Hk1 Hk1) as (Hok2 & Hk2 & Hf2 & Hs2 & Hc2 & Hb2).
  destruct (for_each keys _ w1) as [r2 w2]. cbn [fst snd] in *. subst r2.
  unfold broadcast_environment_settings_change.
  cbn [fst snd fs stdout calls broadcasts].
  split; [done|]. split; [congruence|]. split; [congruence|]. split; congruence.
Qed.

(** What [install_anaconda] does once the installer has exited. *)
Lemma install_anaconda_run (self : Self) (w : World) (code : Z)
    (f : gmap string node) (r : gmap (hkey * string) reg_key) :
  run_child (install_args self) os_environ (fs w) (registry w) = Ok (code, f, r) ->
  install_anaconda self w =
  (let w1 :=
     {| fs := f; registry := r;
        stdout := (stdout w ++ [VFormat "Running %s" (install_args self)])%list;
        calls := (calls w ++ [(install_args self, os_environ)])%list;
        broadcasts := broadcasts w |} in
   match (if IS_WINDOWS then _clean_up_system_path else mret tt) w1 with
   | (Ok _, w2) =>
       if negb (code =? 0)%Z
       then (Raise (RuntimeError
                      (VFormat ("Failed to run " ++ dquote ++ "{0}" ++ dquote)
                         (install_args self))), w2)
       else (Ok tt, w2)
   | (Raise e, w2) => (Raise e, w2)
   end).
Proof.
  intros Hrun. unfold install_anaconda.
  unfold mbind, M_bind, print, subprocess_call.
  cbn [fs registry stdout calls broadcasts]. rewrite Hrun.
  unfold set_registry, set_fs. cbn [fs registry stdout calls broadcasts]. cbv zeta.
  destruct ((if IS_WINDOWS then _clean_up_system_path else mret tt) _) as [[[]|e] w2];
    [|done].
  by destruct (negb (code =? 0)%Z).
Qed.

(** X9. On Windows the PATH clean-up comes between the installer and the
    test of its exit code: with the environment keys open to the process,
    one settings broadcast is sent whether the installer succeeded or not,
    the clean-up touches neither files nor output, and the exit code then
    decides as on the other platforms. *)
Theorem install_anaconda_windows_cleanup (self : Self) (w : World) (code : Z)
    (f : gmap string node) (r : gmap (hkey * string) reg_key) :
  IS_WINDOWS = true ->
  run_child (install_args self) os_environ (fs w) (registry w) = Ok (code, f, r) ->
  keys_open
    (envkeys (negb (os_path_exists f (os_path_join build_install_dir [".nonadmin"])))) r ->
  let res := install_anaconda self w in
  res.1 = (if (code =? 0)%Z then Ok tt
           else Raise (RuntimeError
                         (VFormat ("Failed to run " ++ dquote ++ "{0}" ++ dquote)
                            (install_args self))))
  /\ broadcasts res.2 = S (broadcasts w)
  /\ fs res.2 = f
  /\ stdout res.2 = (stdout w ++ [VFormat "Running %s" (install_args self)])%list
  /\ calls res.2 = (calls w ++ [(install_args self, os_environ)])%list.
Proof.
  intros HW Hrun Hopen res. subst res.
  rewrite (install_anaconda_run self w code f r Hrun). cbv zeta. rewrite HW.
  match goal with |- context [_clean_up_system_path ?w1] =>
    destruct (clean_up_system_path_open w1 Hopen) as (Hok & Hf & Hs & Hc & Hb);
    destruct (_clean_up_system_path w1) as [r1 w2] end.
  cbn [fst snd fs stdout calls broadcasts] in *. subst r1.
  by destruct (code =? 0)%Z.
Qed.

(** X10. On Windows a failed clean-up hides the installer's result: when
    the user's environment key cannot be opened, [install_anaconda] raises
    the [WindowsError] of the open, even after an installer that exited
    with zero, and no settings broadcast is sent. *)
Theorem install_anaconda_windows_locked_key (self : Self) (w : World) (code : Z)
    (f : gmap string node) (r : gmap (hkey * string) reg_key) :
  IS_WINDOWS = true ->
  run_child (install_args self) os_environ (fs w) (registry w) = Ok (code, f, r) ->
  (forall k, r !! user_key = Some k -> rk_access k = false) ->
  (exists msg, (install_anaconda self w).1 = Raise (WindowsError msg))
  /\ broadcasts (install_anaconda self w).2 = broadcasts w
  /\ registry (install_anaconda self w).2 = r.
Proof.
  intros HW Hrun Hlocked.
  rewrite (install_anaconda_run self w code f r Hrun). cbv zeta. rewrite HW.
  match goal with |- context [_clean_up_system_path ?w1] =>
    assert (exists msg, _clean_up_system_path w1 = (Raise (WindowsError msg), w1))
      as [msg ->] end.
  { unfold _clean_up_system_path. unfold mbind at 1, M_bind at 1. unfold get_fs at 1.
    cbn [fs]. unfold mbind at 1, M_bind at 1.
    unfold remove_from_system_path at 1.
    assert (forall b, envkeys b = user_key :: (if b then [machine_key] else [])) as ->
      by (by intros []).
    cbn [for_each]. unfold mbind at 1, M_bind at 1.
    rewrite remove_from_key_run. cbn [registry].
    destruct (r !! user_key) as [k|] eqn:Hk.
    - rewrite (Hlocked k eq_refl). eauto.
    - eauto. }
  cbn [fst snd broadcasts registry]. eauto.
Qed.

End InstallOnWindows.

(* ===================================================================== *)
(** * Removing twice                                                      *)
(* ===================================================================== *)

Section RemoveTwice.
Context `{Host}.

Lemma existsb_filter_neg {A} (m : A -> bool) (l : list A) :
  existsb m (List.filter (fun v => negb (m v)) l) = false.
Proof.
  induction l as [|x l IH]; [reflexivity|]. cbn [List.filter].
  destruct (m x) eqn:Hx; cbn [negb]; [done|]. cbn [existsb]. by rewrite Hx.
Qed.

(** Filtering the entries of a cleaned value again gives the same text. *)
Lemma cleaned_value_stable (c : ascii) (m : string -> bool) (s : string) :
  let s1 := join (String c "") (List.filter (fun v => negb (m v)) (split c s)) in
  existsb m (split c s1) = true ->
  join (String c "") (List.filter (fun v => negb (m v)) (split c s1)) = s1.
Proof.
  intros s1 Hany.
  destruct (List.filter (fun v => negb (m v)) (split c s)) as [|x l] eqn:Hl.
  - subst s1. cbn in *. by destruct (m "").
  - assert (split c s1 = x :: l) as Hsplit.
    { subst s1. apply split_join; [done|]. rewrite <- Hl.
      apply Forall_list_filter, split_no_sep. }
    rewrite Hsplit, <- Hl, existsb_filter_neg in Hany. discriminate.
Qed.

(** Whether and how one turn changes the world depends on the key it
    edits only. *)
Lemma remove_from_key_stable (pn var : string) (rk : hkey * string) (w w' : World) :
  registry w' !! rk = registry w !! rk ->
  (remove_from_key pn var rk w).2 = w ->
  remove_from_key pn var rk w' = ((remove_from_key pn var rk w).1, w').
Proof.
  intros Hsame. rewrite !remove_from_key_run, Hsame.
  destruct (registry w !! rk) as [k|] eqn:Hk; [|done].
  destruct (rk_access k); [|done].
  destruct (rk_values k !! var) as [[[s|n] ty]|]; try done.
  cbv zeta. destruct (existsb _ _); [|done].
  cbn [fst snd]. intros Hw. f_equal.
  assert (registry (set_registry
                      (with_value rk k var
                         (RegString
                            (join (String os_pathsep "")
                               (List.filter
                                  (fun v =>
                                     negb (String.eqb
                                             (os_path_normcase
                                                (os_path_normpath (sz_expand v ty))) pn))
                                  (split os_pathsep s)))) ty (registry w)) w) !! rk
          = Some k) as Hk'.
  { by rewrite Hw. }
  cbn [registry set_registry] in Hk'. unfold with_value in Hk'.
  rewrite lookup_insert_eq in Hk'. injection Hk' as Hk'. unfold with_value. rewrite Hk'.
  rewrite insert_id by (by rewrite Hsame). by destruct w'.
Qed.

Lemma remove_from_key_idem (pn var : string) (rk : hkey * string) (w : World) :
  remove_from_key pn var rk (remove_from_key pn var rk w).2
  = remove_from_key pn var rk w.
Proof.
  rewrite (remove_from_key_run pn var rk w).
  destruct (registry w !! rk) as [k|] eqn:Hk.
  2:{ cbn [fst snd]. by rewrite remove_from_key_run, Hk. }
  destruct (rk_access k) eqn:Hacc.
  2:{ cbn [fst snd]. by rewrite remove_from_key_run, Hk, Hacc. }
  destruct (rk_values k !! var) as [[[s|n] ty]|] eqn:Hv.
  2,3: cbn [fst snd]; by rewrite remove_from_key_run, Hk, Hacc, Hv.
  cbv zeta. destruct (existsb _ (split os_pathsep s)) eqn:Hany.
  2:{ cbn [fst snd]. rewrite remove_from_key_run, Hk, Hacc, Hv. cbv zeta. by rewrite Hany. }
  cbn [fst snd]. rewrite remove_from_key_run.
  cbn [registry set_registry]. unfold with_value at 1. rewrite lookup_insert_eq.
  cbn [rk_access rk_values]. rewrite Hacc, lookup_insert_eq. cbv zeta.
  pose proof (cleaned_value_stable os_pathsep
                (fun v => String.eqb (os_path_normcase (os_path_normpath (sz_expand v ty))) pn)
                s) as Hst.
  cbv beta zeta in Hst.
  destruct (existsb _ (split os_pathsep (join _ _))) eqn:Hany2; [|done].
  rewrite (Hst eq_refl).
  f_equal.
  unfold with_value, set_registry. cbn [fs registry stdout calls broadcasts rk_values rk_access].
  by rewrite !insert_insert_eq, Hacc.
Qed.

(** X11. [remove_from_system_path] is idempotent: run again on the world
    it left, it ends the same way and changes nothing more. *)
Theorem remove_from_system_path_idempotent (pathname : string) (allusers : bool)
    (var : string) (w : World) :
  remove_from_system_path pathname allusers var
    (remove_from_system_path pathname allusers var w).2
  = remove_from_system_path pathname allusers var w.
Proof.
  unfold remove_from_system_path.
  set (pn := os_path_normcase (os_path_normpath pathname)).
  assert (forall b, envkeys b = user_key :: (if b then [machine_key] else [])) as ->
    by (by intros []).
  assert (forall rk l w0,
            for_each (rk :: l) (remove_from_key pn var) w0 =
            match remove_from_key pn var rk w0 with
            | (Ok _, w1) => for_each l (remove_from_key pn var) w1
            | (Raise e, w1) => (Raise e, w1)
            end) as Hcons by reflexivity.
  assert (forall w0, for_each [] (remove_from_key pn var) w0 = (Ok tt, w0)) as Hnil
    by reflexivity.
  pose proof (remove_from_key_idem pn var user_key w) as Hu2.
  rewrite (Hcons user_key _ w).
  destruct (remove_from_key pn var user_key w) as [[[]|e] w1] eqn:Hu; cbn [fst snd] in *.
  2:{ rewrite Hcons, Hu2. done. }
  assert (remove_from_key pn var user_key w1 = (Ok tt, w1)) as Hu' by done.
  destruct allusers.
  2:{ rewrite Hnil. cbn [snd]. by rewrite Hcons, Hu', Hnil. }
  rewrite (Hcons machine_key [] w1).
  pose proof (remove_from_key_idem pn var machine_key w1) as Hm2.
  destruct (remove_from_key_frame pn var machine_key w1) as (_ & _ & _ & _ & _ & Hframe).
  destruct (remove_from_key pn var machine_key w1) as [rm w2] eqn:Hm; cbn [fst snd] in *.
  assert (remove_from_key pn var user_key w2 = (Ok tt, w2)) as Hu''.
  { rewrite (remove_from_key_stable pn var user_key w1 w2).
    - by rewrite Hu'.
    - by apply Hframe.
    - by rewrite Hu'. }
  assert (remove_from_key pn var machine_key w2 = (rm, w2)) as Hm' by done.
  assert ((match rm with
           | Ok _ => for_each [] (remove_from_key pn var) w2
           | Raise e => (Raise e, w2)
           end).2 = w2) as -> by (by destruct rm).
  rewrite Hcons, Hu'', Hcons, Hm'. done.
Qed.

End RemoveTwice.

Lemma install_anaconda_windows_cleanup_witness :
  (@install_anaconda example_windows_abs windows_self (anaconda_world true)).1 = Ok tt
  /\ broadcasts (@install_anaconda example_windows_abs windows_self (anaconda_world true)).2
     = 1%nat.
Proof.
  destruct (@install_anaconda_windows_cleanup example_windows_abs windows_self
              (anaconda_world true) 0%Z (fs (anaconda_world true))
              (registry (anaconda_world true)) eq_refl eq_refl)
    as (Hres & Hb & _).
  - assert (@envkeys
              (negb (@os_path_exists example_windows_abs (fs (anaconda_world true))
                       (@os_path_join example_windows_abs
                          (@build_install_dir) [".nonadmin"])))
            = [user_key; machine_key]) as -> by (vm_compute; reflexivity).
    intros rk [<-|[<-|[]]].
    + exists user_env. split; [vm_compute; reflexivity | reflexivity].
    + exists (machine_env true). split; [vm_compute; reflexivity | reflexivity].
  - split; [exact Hres | exact Hb].
Defined.

Lemma install_anaconda_windows_locked_key_witness :
  (exists msg,
     (@install_anaconda example_windows_abs windows_self empty_world).1
     = Raise (WindowsError msg))
  /\ broadcasts (@install_anaconda example_windows_abs windows_self empty_world).2 = 0%nat.
Proof.
  destruct (@install_anaconda_windows_locked_key example_windows_abs windows_self
              empty_world 0%Z ∅ ∅ eq_refl eq_refl) as (Hres & Hb & _).
  - intros k Hk. exfalso.
    assert ((∅ : gmap (hkey * string) reg_key) !! user_key = None) as Hn
      by (vm_compute; reflexivity).
    exact (eq_ind None (fun o => match o with Some _ => False | None => True end)
             I _ (eq_trans (eq_sym Hn) Hk)).
  - split; [exact Hres | exact Hb].
Defined.

(* ===================================================================== *)
(** * The smaller steps                                                   *)
(* ===================================================================== *)

Section Steps.
Context `{Host}.

Lemma with_output_nil (w : World) : with_output [] w = w.
Proof. unfold with_output. rewrite app_nil_r. by destruct w. Qed.

Lemma with_output_app (l1 l2 : list pyval) (w : World) :
  with_output l2 (with_output l1 w) = with_output (l1 ++ l2) w.
Proof. unfold with_output. cbn. by rewrite app_assoc. Qed.

Lemma condarc_loop (l : list string) (w : World) :
  for_each l
    (fun path =>
       f ← get_fs;
       if os_path_exists f (os_path_expanduser path)
       then print (condarc_warning path)
       else mret tt) w
  = (Ok tt,
     with_output
       (map condarc_warning
          (List.filter (fun p => os_path_exists (fs w) (os_path_expanduser p)) l)) w).
Proof.
  revert w. induction l as [|p l IH]; intros w; cbn [for_each List.filter map].
  - by rewrite with_output_nil.
  - unfold mbind at 1, M_bind at 1. unfold mbind at 1, M_bind at 1. unfold get_fs at 1.
    destruct (os_path_exists (fs w) (os_path_expanduser p)).
    + unfold print at 1. rewrite IH. cbn [fs map]. f_equal.
      unfold with_output. cbn. by rewrite <- app_assoc.
    + unfold mret at 1, M_ret at 1. apply IH.
Qed.

(** X12. [check_condarc_presence] only reports: it never raises, leaves
    the file system alone, and prints one warning for each of the ten
    places that exists, in the order of the list, naming the place as
    listed, before the home directory is filled in.  A place exists as
    [os.path.exists] has it: the three places written with a trailing
    separator count only when they are directories. *)
Theorem check_condarc_presence_reports (w : World) :
  check_condarc_presence w =
  (Ok tt,
   with_output
     (map condarc_warning
        (List.filter (fun p => os_path_exists (fs w) (os_path_expanduser p))
           condarc_paths)) w).
Proof. apply (condarc_loop condarc_paths w). Qed.

(** X13. On a system [platform.system()] names that is not one of
    Windows, Linux and Darwin, the script stops with [KeyError] while the
    instance is built, before anything is printed, removed or started. *)
Theorem main_unsupported_system (w : World) :
  platforms !! platform_system = None ->
  main w = (Raise (KeyError platform_system), w).
Proof.
  intros Hnone. unfold main, init. unfold mbind at 1, M_bind at 1. unfold lift.
  by rewrite (installer_name_unknown_system _ _ Hnone).
Qed.

(** X14. On Windows, [_run_pkg_manager] needs PATH in the environment of
    the script: without it, [KeyError] is raised and no child process is
    started. *)
Theorem run_pkg_manager_needs_path (n : string)
    (extra specs : list string) (w : World) :
  IS_WINDOWS = true -> os_environ !! "PATH" = None ->
  _run_pkg_manager n extra specs w = (Raise (KeyError "PATH"), w).
Proof.
  intros HW Hnone. unfold _run_pkg_manager. rewrite HW.
  rewrite lookup_insert_ne by discriminate. by rewrite Hnone.
Qed.

(** X15. Off Windows, [install_anaconda] announces the command, runs the
    installer once with the environment of the script, and lets the exit
    code decide: zero returns normally, anything else raises
    [RuntimeError] with the command in its message. *)
Theorem install_anaconda_exit_code (self : Self) (w : World) (code : Z)
    (f : gmap string node) (r : gmap (hkey * string) reg_key) :
  IS_WINDOWS = false ->
  run_child (install_args self) os_environ (fs w) (registry w) = Ok (code, f, r) ->
  let res := install_anaconda self w in
  res.1 = (if (code =? 0)%Z then Ok tt
           else Raise (RuntimeError
                         (VFormat ("Failed to run " ++ dquote ++ "{0}" ++ dquote)
                            (install_args self))))
  /\ fs res.2 = f /\ registry res.2 = r
  /\ stdout res.2 = (stdout w ++ [VFormat "Running %s" (install_args self)])%list
  /\ calls res.2 = (calls w ++ [(install_args self, os_environ)])%list
  /\ broadcasts res.2 = broadcasts w.
Proof.
  intros HW Hrun res. subst res. unfold install_anaconda. rewrite HW.
  run_monad. unfold subprocess_call. cbn [fs registry stdout calls broadcasts].
  rewrite Hrun. by destruct (code =? 0)%Z.
Qed.

Lemma first_is_sep_plain (n : string) : no_slash n = true -> first_is_sep n = false.
Proof.
  destruct n as [|x n]; [done|]. unfold no_slash. cbn [string_forallb first_is_sep].
  intros [Hx _]%andb_true_iff. by apply is_sep_false.
Qed.

(** Joining a plain name to a directory, and splitting the result. *)
Lemma join_plain (a n : string) :
  a <> "" -> last_is_sep a = false -> n <> "" -> no_slash n = true ->
  os_path_join a [n] = a ++ String os_sep n
  /\ (a ++ String os_sep n <> "" /\ last_is_sep (a ++ String os_sep n) = false)
  /\ os_path_split (a ++ String os_sep n) = (a, n).
Proof.
  intros Ha Hlast Hn Hplain.
  pose proof (no_slash_no_sep _ Hplain) as Hsep.
  split; [|split; [split|]].
  - cbn [os_path_join fold_left]. apply join2_plain; [by apply first_is_sep_plain|done|done].
  - destruct a; [done|]. by rewrite string_app_cons.
  - destruct n as [|x n]; [done|].
    rewrite last_is_sep_app.
    destruct n as [|y n].
    + cbn [last_is_sep]. cbn [string_forallb] in Hsep.
      apply andb_true_iff in Hsep as [Hx _]. by apply negb_true_iff in Hx.
    + change (last_is_sep (String os_sep (String x (String y n))))
        with (last_is_sep (String x (String y n))).
      by apply last_is_sep_no_sep.
  - by apply os_path_split_join.
Qed.


Lemma ancestors_go_app (acc s1 s2 : string) :
  ancestors_go acc (s1 ++ s2) = (ancestors_go acc s1 ++ ancestors_go (acc ++ s1) s2)%list.
Proof.
  revert acc. induction s1 as [|c s1 IH]; intros acc.
  - by rewrite string_app_nil, string_app_nil_r.
  - rewrite string_app_cons. cbn [ancestors_go]. rewrite IH, <- app_assoc.
    do 2 f_equal. by rewrite string_app_assoc.
Qed.

Lemma ancestors_go_plain (acc n : string) :
  string_forallb (fun c => negb (is_sep c)) n = true -> ancestors_go acc n = [].
Proof.
  revert acc. induction n as [|c n IH]; intros acc Hn; [done|].
  cbn [string_forallb] in Hn. apply andb_true_iff in Hn as [Hc Hn].
  cbn [ancestors_go]. rewrite (IH _ Hn).
  apply negb_true_iff in Hc. unfold is_sep in Hc.
  apply orb_false_iff in Hc as [Hc _]. by rewrite Hc.
Qed.

(** The ancestors of a plain name inside a directory: those of the
    directory, and the directory. *)
Lemma ancestors_join (a n : string) :
  a <> "" -> last_is_sep a = false ->
  string_forallb (fun c => negb (is_sep c)) n = true ->
  ancestors (a ++ String os_sep n) = (ancestors a ++ [a])%list.
Proof.
  intros Ha Hl Hn. unfold ancestors. rewrite ancestors_go_app, string_app_nil.
  f_equal. cbn [ancestors_go]. rewrite Ascii.eqb_refl, Hl.
  destruct (String.eqb_spec a "") as [->|_]; [done|]. cbn [andb negb app].
  by rewrite ancestors_go_plain.
Qed.

(** The error of [open] for a file two levels down. *)
Lemma open_error_two (p a d : string) (f : gmap string node) :
  os_path_dirname p = d -> ancestors p = [a; d] ->
  open_error p f =
  if is_file (f !! d) || is_file (f !! a) then NotADirectoryError p
  else FileNotFoundError p.
Proof.
  intros Hd Ha. unfold open_error. rewrite Hd, Ha. cbn [existsb].
  by destruct (is_file (f !! d)), (is_file (f !! a)).
Qed.





Lemma set_fs_same (w : World) : set_fs (fs w) w = w.
Proof. by destruct w. Qed.

Lemma init_target (pkgs : list string) (self : Self) (exe : string) :
  init (with_base_packages pkgs) = Ok self ->
  installer_name (with_base_packages pkgs) "Miniconda" = Ok exe ->
  cls self = with_base_packages pkgs
  /\ distribution self = "Miniconda"
  /\ no_slash exe = true /\ exe <> ""
  /\ output_installer self = output_dir (cls self) ++ String os_sep exe
  /\ os_path_split (output_installer self) = (output_dir (cls self), exe).
Proof.
  intros Hinit Hexe.
  destruct (init_cases pkgs self Hinit) as (exe' & Hin & Hexe' & Hcls & Hout).
  assert (exe' = exe) as -> by congruence.
  assert (distribution self = "Miniconda") as Hd.
  { unfold init in Hinit. rewrite Hexe in Hinit. by injection Hinit as <-. }
  assert (no_slash exe = true /\ exe <> "") as [Hplain Hne].
  { cbn in Hin. destruct Hin as [<-|[<-|[<-|[]]]]; by split. }
  destruct (output_installer_split (with_base_packages pkgs) exe eq_refl Hplain)
    as [Hj Hs].
  rewrite Hcls, Hout, Hj. by rewrite <- Hj.
Qed.


(** What [write_install_script] does, with and without the output
    directory. *)
Lemma write_install_script_run (pkgs : list string) (self : Self)
    (exe : string) (w : World) :
  init (with_base_packages pkgs) = Ok self ->
  installer_name (with_base_packages pkgs) "Miniconda" = Ok exe ->
  let script :=
    output_dir (cls self)
      ++ String os_sep ("install." ++ (if String.eqb sys_platform "win32" then "bat" else "sh")) in
  (fs w !! output_dir (cls self) = Some Dir -> fs w !! script <> Some Dir ->
   write_install_script self w
   = (Ok tt,
      set_fs (<[script :=
                  File (render_install_script self exe)
                    (if String.eqb sys_platform "win32"
                     then match fs w !! script with
                          | Some (File _ m) => m
                          | _ => default_mode
                          end
                     else 493%Z)]> (fs w)) w))
  /\ (fs w !! output_dir (cls self) <> Some Dir ->
      write_install_script self w
      = (Raise (if is_file (fs w !! output_dir (cls self)) || is_file (fs w !! "output")
                then NotADirectoryError script
                else FileNotFoundError script), w)).
Proof.
  intros Hinit Hexe script.
  destruct (init_target pkgs self exe Hinit Hexe) as (Hcls & Hd & Hplain & Hne & Hout & Hsplit).
  destruct (output_dir_last (with_base_packages pkgs) eq_refl) as [Ho Hol].
  rewrite <- Hcls in Ho, Hol.
  set (leaf := "install." ++ (if String.eqb sys_platform "win32" then "bat" else "sh")).
  assert (leaf <> "" /\ no_slash leaf = true) as [Hleaf Hlp].
  { subst leaf. by destruct (String.eqb sys_platform "win32"). }
  destruct (join_plain (output_dir (cls self)) leaf Ho Hol Hleaf Hlp) as (Hj & _ & Hs).
  unfold write_install_script. rewrite Hsplit. fold leaf. rewrite Hj. fold leaf in script.
  fold script. fold script in Hs.
  assert (ancestors script = ["output"; output_dir (cls self)]) as Hanc.
  { subst script. rewrite (ancestors_join _ leaf Ho Hol (no_slash_no_sep _ Hlp)).
    rewrite Hcls, output_dir_eq.
    rewrite (ancestors_join "output") by
      first [done | apply (last_is_sep_no_sep "o" "utput"), no_slash_no_sep; reflexivity
            | apply no_slash_no_sep; reflexivity].
    unfold ancestors. by rewrite ancestors_go_plain by (apply no_slash_no_sep; reflexivity). }
  assert (os_path_dirname script = output_dir (cls self)) as Hdn.
  { unfold os_path_dirname. by rewrite Hs. }
  unfold mbind, M_bind, with_fs, fs_write. cbv zeta.
  rewrite (open_error_two script "output" (output_dir (cls self)) _ Hdn Hanc).
  rewrite Hdn.
  destruct (output_dir (cls self)) as [|o0 o'] eqn:Eo; [done|]. rewrite <- Eo in *.
  split.
  - intros Hdir Hfile. rewrite Hdir.
    destruct (String.eqb sys_platform "win32"); cbn [negb].
    + destruct (fs w !! script) as [[c m|]|]; [|done|]; reflexivity.
    + destruct (fs w !! script) as [[c m|]|]; [|done|].
      all: cbn [fs set_fs]; unfold fs_chmod; rewrite lookup_insert_eq.
      all: unfold set_fs; cbn [fs registry stdout calls broadcasts].
      all: by rewrite insert_insert_eq.
  - intros Hdir. by destruct (fs w !! output_dir (cls self)) as [[c m|]|].
Qed.


(** C5. In a world where the output directory exists,
    [write_install_script] returns normally, and the file it leaves next
    to the installer, [install.sh] or [install.bat], is the install script
    of the platform with the installer file name and the base package
    list, joined by single spaces in the order the class declares it,
    written in.  With the list Pillow, six on a non-Windows platform, the
    twelfth line of that file is the conda install line, and it ends with
    Pillow six. *)
Theorem install_script_text (pkgs : list string) (self : Self) (w : World) :
  init (with_base_packages pkgs) = Ok self ->
  let script :=
    output_dir (cls self)
      ++ String os_sep ("install." ++ (if String.eqb sys_platform "win32" then "bat" else "sh")) in
  fs w !! output_dir (cls self) = Some Dir ->
  fs w !! script <> Some Dir ->
  exists exe text mode,
    installer_name (with_base_packages pkgs) "Miniconda" = Ok exe
    /\ (write_install_script self w).1 = Ok tt
    /\ fs (write_install_script self w).2 !! script = Some (File text mode)
    /\ text = (if String.eqb sys_platform "win32"
               then windows_install_text exe (join " " pkgs)
               else unix_install_text exe (join " " pkgs))
    /\ (String.eqb sys_platform "win32" = false ->
        pkgs = ["Pillow"; "six"] ->
        nth 11 (split newline text) "" = unix_conda_install_line "Pillow six"
        /\ endswith "Pillow six" (nth 11 (split newline text) "") = true).
Proof.
  intros Hinit script Hdir Hfile.
  destruct (init_cases _ _ Hinit) as (exe & Hexe & Hname & Hcls & Hout).
  pose proof (render_install_script_text pkgs self exe Hcls Hexe) as Hrender.
  destruct (write_install_script_run pkgs self exe w Hinit Hname) as [Hrun _].
  specialize (Hrun Hdir Hfile). fold script in Hrun.
  exists exe. eexists _, _. split; [done|]. rewrite Hrun. cbn [fst snd fs set_fs].
  split; [done|]. split; [apply lookup_insert_eq|]. split; [exact Hrender|].
  intros Hunix ->. rewrite Hrender, Hunix.
  assert (nth 11 (split newline (unix_install_text exe (join " " ["Pillow"; "six"]))) ""
          = unix_conda_install_line "Pillow six") as Hline
    by (destruct Hexe as [<-|[<-|[<-|[]]]]; vm_compute; reflexivity).
  split; [exact Hline|]. by rewrite Hline.
Qed.

(** What [clean_build_and_output] leaves of the file system. *)
Lemma clean_build_and_output_run (self : Self) (w : World) :
  clean_build_and_output self w
  = (Ok tt,
     set_fs (rmtree_or_keep build_install_dir
               (rmtree_or_keep (output_dir (cls self)) (fs w))) w).
Proof.
  unfold clean_build_and_output, rmtree_or_keep.
  unfold mbind, M_bind, try_except, with_fs, mret, M_ret.
  destruct (fs_rmtree (output_dir (cls self)) (fs w)) as [f1|e1]; cbn [fs set_fs].
  - destruct (fs_rmtree build_install_dir f1) as [f2|e2]; [reflexivity|].
    reflexivity.
  - destruct (fs_rmtree build_install_dir (fs w)) as [f2|e2]; [reflexivity|].
    by rewrite set_fs_same.
Qed.

Lemma rmtree_or_keep_kept (p k : string) (f : gmap string node) :
  k <> p -> is_under p k = false -> rmtree_or_keep p f !! k = f !! k.
Proof.
  intros Hne Hunder. unfold rmtree_or_keep.
  destruct (fs_rmtree p f) as [f'|e] eqn:Hrm; [|done].
  by apply (fs_rmtree_kept p k f f').
Qed.

(** X19. [clean_build_and_output] never raises, creates nothing, and
    removes nothing outside the build directory and the output directory
    of the class: every other path is as it was, and so are the registry,
    the output and the process log. *)
Theorem clean_build_and_output_frame (self : Self) (w : World) :
  let w' := (clean_build_and_output self w).2 in
  (clean_build_and_output self w).1 = Ok tt
  /\ registry w' = registry w /\ stdout w' = stdout w
  /\ calls w' = calls w /\ broadcasts w' = broadcasts w
  /\ (forall k v, fs w' !! k = Some v -> fs w !! k = Some v)
  /\ (forall k,
        k <> build_install_dir -> is_under build_install_dir k = false ->
        k <> output_dir (cls self) -> is_under (output_dir (cls self)) k = false ->
        fs w' !! k = fs w !! k).
Proof.
  rewrite clean_build_and_output_run. cbn [fst snd fs registry stdout calls broadcasts set_fs].
  split; [done|]. split; [done|]. split; [done|]. split; [done|]. split; [done|]. split.
  - intros k v Hk. by apply rmtree_or_keep_sub, rmtree_or_keep_sub in Hk.
  - intros k Hb Hbu Ho Hou. by rewrite !rmtree_or_keep_kept.
Qed.

(** X20. When the download of the installer fails, [build] fails too,
    and it has started no child process: neither the installer nor conda
    runs.  If the two directories could be set up, the exception is the
    one of the download. *)
Theorem build_stops_without_installer (pkgs : list string) (self : Self)
    (exe : string) (e : exn) (w : World) :
  init (with_base_packages pkgs) = Ok self ->
  installer_name (with_base_packages pkgs) "Miniconda" = Ok exe ->
  requests_get ("https://repo.continuum.io/miniconda/" ++ exe) = Raise e ->
  is_ok (build self w).1 = false
  /\ calls (build self w).2 = calls w
  /\ ((reset_step self (print (VStr "Cleaning up build and output directories") w).2).1
        = Ok tt ->
      (build self w).1 = Raise e).
Proof.
  intros Hinit Hexe Hget.
  destruct (init_target pkgs self exe Hinit Hexe) as (Hcls & Hd & _).
  assert (forall w0, exists w1,
            get_source_packages_from_mirror self w0 = (Raise e, w1)
            /\ calls w1 = calls w0) as Hfail.
  { intros w0. unfold get_source_packages_from_mirror. rewrite Hd, Hcls, Hexe.
    unfold mbind at 1, M_bind at 1. unfold lift at 1.
    unfold mbind at 1, M_bind at 1. unfold print at 1.
    unfold mbind at 1, M_bind at 1. unfold lift at 1. rewrite Hget.
    eexists. split; reflexivity. }
  assert (silent (reset_step self)) as Hsilent.
  { unfold reset_step. auto 10 using silent_clean_build_and_output with silent. }
  rewrite build_is_run_steps. unfold build_steps. rewrite run_steps_cons.
  pose proof (Hsilent (print (VStr "Cleaning up build and output directories") w).2) as Hc.
  destruct (reset_step self _) as [[[]|e0] w1]; cbn [fst snd] in *.
  - rewrite run_steps_cons.
    destruct (Hfail (print (VStr "Getting installer") w1).2) as (w2 & -> & Hc2).
    cbn [fst snd is_ok]. split; [done|]. split; [|done]. by rewrite Hc2.
  - split; [done|]. split; [done|]. discriminate.
Qed.

End Steps.

Lemma install_script_text_witness :
  exists text mode,
    fs (@write_install_script (example_linux 0) (linux_self_with ["Pillow"; "six"])
          ready_world).2 !! "output/miniconda3-4.7.12.1-2/install.sh"
    = Some (File text mode)
    /\ nth 11 (split newline text) ""
       = "conda install -y --channel " ++ dquote ++ "$INSTALLER_DIR/conda_offline_channel"
           ++ dquote ++ " --offline --override-channels Pillow six"
    /\ endswith "Pillow six" (nth 11 (split newline text) "") = true.
Proof.
  destruct (@install_script_text (example_linux 0) ["Pillow"; "six"]
              (linux_self_with ["Pillow"; "six"]) ready_world eq_refl)
    as (exe & text & mode & _ & _ & Hfile & _ & Hline).
  - vm_compute; reflexivity.
  - assert (fs ready_world !! "output/miniconda3-4.7.12.1-2/install.sh" = None) as Hn
      by (vm_compute; reflexivity).
    intros Hd. exact (eq_ind None (fun o => match o with Some _ => False | None => True end)
                        I _ (eq_trans (eq_sym Hn) Hd)).
  - exists text, mode. split; [exact Hfile|]. apply Hline; reflexivity.
Defined.

Lemma check_condarc_presence_reports_witness :
  stdout (@check_condarc_presence (example_linux 0) condarc_world).2 =
  [VStr "Conda configuration found in /var/lib/conda/condarc.d/. This might affect installation of packages";
   VStr "Conda configuration found in ~/.condarc. This might affect installation of packages"].
Proof.
  rewrite (@check_condarc_presence_reports (example_linux 0) condarc_world).
  vm_compute. reflexivity.
Defined.

Lemma main_unsupported_system_witness :
  @main (example_host "FreeBSD" (Ok [])) ready_world
  = (Raise (KeyError "FreeBSD"), ready_world).
Proof.
  apply (@main_unsupported_system (example_host "FreeBSD" (Ok [])) ready_world).
  vm_compute; reflexivity.
Defined.

Lemma run_pkg_manager_needs_path_witness :
  @_run_pkg_manager example_windows_no_path "conda" ["clean"; "-y"; "--all"] [] empty_world
  = (Raise (KeyError "PATH"), empty_world).
Proof.
  apply (@run_pkg_manager_needs_path example_windows_no_path).
  - reflexivity.
  - vm_compute; reflexivity.
Defined.

Lemma install_anaconda_exit_code_witness :
  (@install_anaconda (example_host "Linux" (Ok [])) linux_self ready_world).1 = Ok tt.
Proof.
  refine (proj1 (@install_anaconda_exit_code (example_host "Linux" (Ok [])) linux_self
                   ready_world 0%Z
                   (<["build_temp/pkgs" := Dir]>
                      (<["build_temp/conda-meta" := Dir]> (fs ready_world)))
                   (registry ready_world) _ _)).
  - reflexivity.
  - vm_compute; reflexivity.
Defined.




Lemma build_stops_without_installer_witness :
  (@build (example_host "Linux" (Raise (RequestException "no route to host")))
     linux_self ready_world).1 = Raise (RequestException "no route to host")
  /\ calls (@build (example_host "Linux" (Raise (RequestException "no route to host")))
              linux_self ready_world).2 = [].
Proof.
  destruct (@build_stops_without_installer
              (example_host "Linux" (Raise (RequestException "no route to host")))
              (api_pkgs ++ script_pkgs) linux_self
              "Miniconda3-4.7.12.1-Linux-x86_64.sh"
              (RequestException "no route to host") ready_world eq_refl eq_refl eq_refl)
    as (_ & Hcalls & Hexn).
  split; [|exact Hcalls].
  apply Hexn. vm_compute; reflexivity.
Defined.

(* ===================================================================== *)
(** * What the copy step leaves alone                                     *)
(* ===================================================================== *)

Section CopyFrame.
Context `{Host}.

Lemma string_forallb_app (g : ascii -> bool) (a b : string) :
  string_forallb g (a ++ b) = string_forallb g a && string_forallb g b.
Proof.
  induction a as [|x a IH]; [reflexivity|].
  rewrite string_app_cons. cbn [string_forallb]. by rewrite IH, andb_assoc.
Qed.

Lemma split_go_tail_plain (head tail s : string) :
  string_forallb (fun c => negb (is_sep c)) tail = true ->
  string_forallb (fun c => negb (is_sep c)) (split_go head tail s).2 = true.
Proof.
  revert head tail. induction s as [|x s IH]; intros head tail Ht; cbn [split_go]; [done|].
  destruct (is_sep x) eqn:Hx.
  - by apply IH.
  - apply IH. rewrite string_forallb_app, Ht. cbn [string_forallb]. by rewrite Hx.
Qed.

(** [os.path.basename] never returns a separator. *)
Lemma basename_plain (p : string) :
  string_forallb (fun c => negb (is_sep c)) (os_path_basename p) = true.
Proof.
  unfold os_path_basename, os_path_split.
  pose proof (split_go_tail_plain "" "" p eq_refl) as Ht.
  by destruct (split_go "" "" p).
Qed.

Lemma join_below (dest n : string) :
  dest <> "" -> last_is_sep dest = false ->
  string_forallb (fun c => negb (is_sep c)) n = true ->
  is_under dest (os_path_join dest [n]) = true.
Proof.
  intros Hd Hl Hn. cbn [os_path_join fold_left]. rewrite join2_plain; [|..|done|done].
  - apply is_under_spec. eauto.
  - destruct n as [|x n]; [done|]. cbn [string_forallb first_is_sep] in *.
    apply andb_true_iff in Hn as [Hx _]. by apply negb_true_iff in Hx.
Qed.

Lemma copy_loop_turn (dest p : string) (ps : list string) (known : gset string)
    (w : World) :
  copy_loop dest (p :: ps) known w =
  match package_name (os_path_basename p) with
  | Ok n =>
      match fs_copyfile p (os_path_join dest [os_path_basename p]) (fs w) with
      | Ok f => copy_loop dest ps (known ∪ {[n]}) (set_fs f w)
      | Raise e => (Raise e, w)
      end
  | Raise e => (Raise e, w)
  end.
Proof.
  cbn [copy_loop]. unfold mbind, M_bind, lift, with_fs.
  destruct (package_name (os_path_basename p)) as [n|e]; [|done].
  by destruct (fs_copyfile p _ (fs w)).
Qed.

(** A copy loop writes below its destination only. *)
Lemma copy_loop_frame (dest : string) (ps : list string) (known : gset string)
    (w : World) :
  dest <> "" -> last_is_sep dest = false ->
  registry (copy_loop dest ps known w).2 = registry w
  /\ stdout (copy_loop dest ps known w).2 = stdout w
  /\ calls (copy_loop dest ps known w).2 = calls w
  /\ broadcasts (copy_loop dest ps known w).2 = broadcasts w
  /\ forall k, is_under dest k = false ->
               fs (copy_loop dest ps known w).2 !! k = fs w !! k.
Proof.
  intros Hd Hl. revert known w.
  induction ps as [|p ps IH]; intros known w; [done|].
  rewrite copy_loop_turn.
  destruct (package_name (os_path_basename p)) as [n|e]; [|done].
  destruct (fs_copyfile p _ (fs w)) as [f|e] eqn:Hcp; [|done].
  destruct (fs_copyfile_lookup _ _ _ _ Hcp) as (c & m & m' & _ & ->).
  destruct (IH (known ∪ {[n]})
              (set_fs (<[os_path_join dest [os_path_basename p] := File c m']> (fs w)) w))
    as (Hr & Hs & Hc & Hb & Hf).
  split; [done|]. split; [done|]. split; [done|]. split; [done|].
  intros k Hk. rewrite (Hf k Hk). cbn [fs set_fs].
  apply lookup_insert_ne. intros <-.
  rewrite (join_below dest _ Hd Hl (basename_plain p)) in Hk. discriminate.
Qed.

(** X21. Whatever its outcome, [copy_packages] writes only to the
    channel directory of the platform, which it creates together with its
    missing ancestors: every other path is as before, in particular the
    build directory with the package cache inside it, and so are the
    registry, the output and the process log. *)
Theorem copy_packages_frame (pkgs : list string) (self : Self) (w : World) :
  init (with_base_packages pkgs) = Ok self ->
  let w' := (copy_packages self w).2 in
  registry w' = registry w /\ stdout w' = stdout w
  /\ calls w' = calls w /\ broadcasts w' = broadcasts w
  /\ (forall k,
        k <> channel_dir self -> ~ In k (ancestors (channel_dir self)) ->
        is_under (channel_dir self) k = false ->
        fs w' !! k = fs w !! k)
  /\ (forall k,
        k = build_install_dir \/ is_under build_install_dir k = true ->
        fs w' !! k = fs w !! k).
Proof.
  intros Hinit.
  destruct (channel_dir_facts (with_base_packages pkgs) self Hinit eq_refl)
    as (Hne & Hlast & Hhead).
  assert (let w' := (copy_packages self w).2 in
          registry w' = registry w /\ stdout w' = stdout w
          /\ calls w' = calls w /\ broadcasts w' = broadcasts w
          /\ (forall k,
                k <> channel_dir self -> ~ In k (ancestors (channel_dir self)) ->
                is_under (channel_dir self) k = false ->
                fs w' !! k = fs w !! k)) as Hmain.
  { rewrite copy_packages_unfold.
    destruct (fs_makedirs (channel_dir self) (fs w)) as [f1|e] eqn:Hmk; [|by cbn [snd]].
    destruct (fs_makedirs_lookup _ _ _ Hmk) as (_ & _ & _ & Hkeep).
    pose proof (copy_loop_frame (channel_dir self)
                  (glob (conda_bz2_src_packages self) f1) ∅ (set_fs f1 w) Hne Hlast)
      as (Hr2 & Hs2 & Hc2 & Hb2 & Hf2).
    destruct (copy_loop (channel_dir self) (glob (conda_bz2_src_packages self) f1) ∅
                (set_fs f1 w)) as [[known|e] w2];
      cbn [fst snd registry stdout calls broadcasts set_fs] in *.
    2:{ split; [done|]. split; [done|]. split; [done|]. split; [done|].
        intros k H1 H2 H3. rewrite (Hf2 k H3). cbn [fs set_fs]. by apply Hkeep. }
    pose proof (copy_loop_frame (channel_dir self)
                  (glob (conda_conda_src_packages self) (fs w2)) known w2 Hne Hlast)
      as (Hr3 & Hs3 & Hc3 & Hb3 & Hf3).
    destruct (copy_loop (channel_dir self) (glob (conda_conda_src_packages self) (fs w2))
                known w2) as [[known'|e] w3]; cbn [fst snd] in *.
    all: split; [congruence|]; split; [congruence|]; split; [congruence|];
      split; [congruence|].
    all: intros k H1 H2 H3; rewrite (Hf3 k H3), (Hf2 k H3); cbn [fs set_fs];
      by apply Hkeep. }
  destruct Hmain as (Hr & Hs & Hc & Hb & Hf).
  split; [done|]. split; [done|]. split; [done|]. split; [done|]. split; [done|].
  intros k Hk.
  assert (head_char k = Some "b"%char) as Hkb.
  { destruct Hk as [->|Hk]; [reflexivity|].
    by rewrite (is_under_head build_install_dir k). }
  apply Hf.
  - intros ->. congruence.
  - intros [Ha Hunder]%ancestors_under.
    pose proof (is_under_head k (channel_dir self) Ha Hunder). congruence.
  - destruct (is_under (channel_dir self) k) eqn:Hu; [|done].
    pose proof (is_under_head (channel_dir self) k Hne Hu). congruence.
Qed.

End CopyFrame.

Lemma copy_packages_frame_witness :
  fs (@copy_packages (example_linux 0) linux_self bad_cache_world).2
    !! "build_temp/pkgs/README.bz2"
  = fs bad_cache_world !! "build_temp/pkgs/README.bz2".
Proof.
  destruct (@copy_packages_frame (example_linux 0) (api_pkgs ++ script_pkgs) linux_self
              bad_cache_world eq_refl) as (_ & _ & _ & _ & _ & Hcache).
  apply Hcache. right. vm_compute; reflexivity.
Defined.

(* ===================================================================== *)
(** * More on the steps of the pipeline                                   *)
(* ===================================================================== *)

Section MoreSteps.
Context `{Host}.

Lemma for_each_remove_elsewhere (pn var : string) (l : list (hkey * string))
    (w : World) (rk : hkey * string) :
  ~ In rk l ->
  registry (for_each l (remove_from_key pn var) w).2 !! rk = registry w !! rk.
Proof.
  revert w. induction l as [|x l IH]; intros w Hnot; [done|].
  assert (for_each (x :: l) (remove_from_key pn var) w =
          match remove_from_key pn var x w with
          | (Ok _, w1) => for_each l (remove_from_key pn var) w1
          | (Raise e, w1) => (Raise e, w1)
          end) as -> by reflexivity.
  destruct (remove_from_key_frame pn var x w) as (_ & _ & _ & _ & _ & Hframe).
  assert (rk <> x) as Hne by (intros ->; apply Hnot; by left).
  specialize (Hframe rk Hne).
  destruct (remove_from_key pn var x w) as [[[]|e] w1]; cbn [snd] in *; [|done].
  rewrite IH; [done|]. intros Hin. apply Hnot. by right.
Qed.

(** X22. The marker file [.nonadmin] in the build directory makes the
    PATH clean-up a user-only one: it then needs the user's key alone,
    succeeds with the machine-wide key closed to the process, leaves that
    key as it is, and sends its broadcast. *)
Theorem clean_up_system_path_nonadmin (w : World) :
  os_path_exists (fs w) (os_path_join build_install_dir [".nonadmin"]) = true ->
  keys_open [user_key] (registry w) ->
  (_clean_up_system_path w).1 = Ok tt
  /\ registry (_clean_up_system_path w).2 !! machine_key = registry w !! machine_key
  /\ broadcasts (_clean_up_system_path w).2 = S (broadcasts w)
  /\ fs (_clean_up_system_path w).2 = fs w.
Proof.
  intros Hmark Hopen.
  destruct (clean_up_system_path_open w) as (Hok & Hf & _ & _ & Hb).
  { by rewrite Hmark. }
  split; [done|]. split; [|done].
  unfold _clean_up_system_path.
  unfold mbind, M_bind, get_fs. rewrite Hmark. cbn [negb].
  unfold remove_from_system_path.
  set (l := [(HKEY_CURRENT_USER, "Environment")]).
  change (envkeys false) with l.
  assert (~ In machine_key l) as Hnot by (intros [[=]|[]]).
  pose proof (for_each_remove_elsewhere
                (os_path_normcase (os_path_normpath build_install_dir)) "PATH" l w
                machine_key Hnot) as H1.
  destruct (for_each l _ w) as [[[]|e1] w1]; cbn [snd] in *; [|done].
  pose proof (for_each_remove_elsewhere
                (os_path_normcase
                   (os_path_normpath (os_path_join build_install_dir ["Scripts"]))) "PATH"
                l w1 machine_key Hnot) as H2.
  destruct (for_each l _ w1) as [[[]|e2] w2]; cbn [snd] in *; [|congruence].
  unfold broadcast_environment_settings_change. cbn [registry fst snd]. congruence.
Qed.

(** X23. [copy_packages] cannot run twice: when the channel directory of
    the platform is already there, the step raises [FileExistsError] for
    it and copies nothing. *)
Theorem copy_packages_needs_fresh_channel (self : Self) (w : World) :
  is_Some (fs w !! channel_dir self) ->
  copy_packages self w = (Raise (FileExistsError (channel_dir self)), w).
Proof.
  intros [v Hv]. rewrite copy_packages_unfold. unfold fs_makedirs. by rewrite Hv.
Qed.

(** X24. Off Windows, an installer that exits with a non-zero code stops
    [build]: the run ends with an exception, and apart from the installer
    itself no child process is started, so conda never runs. *)
Theorem build_stops_on_failed_install (self : Self) (w : World) :
  IS_WINDOWS = false ->
  (forall f r, exists code f' r',
      run_child (install_args self) os_environ f r = Ok (code, f', r')
      /\ code <> 0%Z) ->
  is_ok (build self w).1 = false
  /\ (calls (build self w).2 = calls w
      \/ calls (build self w).2 = (calls w ++ [(install_args self, os_environ)])%list).
Proof.
  intros HW Hfail.
  assert (forall w0, is_ok (install_anaconda self w0).1 = false
                     /\ calls (install_anaconda self w0).2
                        = (calls w0 ++ [(install_args self, os_environ)])%list) as Hinst.
  { intros w0. destruct (Hfail (fs w0) (registry w0)) as (code & f' & r' & Hrun & Hcode).
    rewrite (install_anaconda_run self w0 code f' r' Hrun). cbv zeta. rewrite HW.
    unfold mret, M_ret. apply Z.eqb_neq in Hcode. by rewrite Hcode. }
  assert (silent (reset_step self)) as Hs1.
  { unfold reset_step. auto 10 using silent_clean_build_and_output with silent. }
  pose proof (silent_get_source_packages_from_mirror self) as Hs2.
  pose proof silent_check_condarc_presence as Hs3.
  assert (forall v w0, calls (print v w0).2 = calls w0) as Hp by reflexivity.
  rewrite build_is_run_steps. unfold build_steps.
  rewrite run_steps_cons.
  pose proof (Hs1 (print (VStr "Cleaning up build and output directories") w).2) as Hc1.
  rewrite Hp in Hc1.
  destruct (reset_step self _) as [[[]|e1] w1]; cbn [fst snd] in *; [|by split; [|left]].
  rewrite run_steps_cons.
  pose proof (Hs2 (print (VStr "Getting installer") w1).2) as Hc2.
  rewrite Hp in Hc2.
  destruct (get_source_packages_from_mirror self _) as [[[]|e2] w2]; cbn [fst snd] in *;
    [|split; [done|left; congruence]].
  rewrite run_steps_cons.
  pose proof (Hs3 (print (VStr "Check there are no condarc files around") w2).2) as Hc3.
  rewrite Hp in Hc3.
  destruct (check_condarc_presence _) as [[[]|e3] w3]; cbn [fst snd] in *;
    [|split; [done|left; congruence]].
  rewrite run_steps_cons.
  destruct (Hinst (print (VStr "Install anaconda in the build directory") w3).2)
    as [Hbad Hc4].
  rewrite Hp in Hc4.
  destruct (install_anaconda self _) as [[[]|e4] w4]; cbn [fst snd is_ok] in *; [done|].
  split; [done|]. right. congruence.
Qed.

End MoreSteps.

Lemma clean_up_system_path_nonadmin_witness :
  (@_clean_up_system_path example_windows_abs nonadmin_world).1 = Ok tt
  /\ registry (@_clean_up_system_path example_windows_abs nonadmin_world).2 !! machine_key
     = registry nonadmin_world !! machine_key
  /\ broadcasts (@_clean_up_system_path example_windows_abs nonadmin_world).2 = 1%nat
  /\ fs (@_clean_up_system_path example_windows_abs nonadmin_world).2 = fs nonadmin_world.
Proof.
  apply (@clean_up_system_path_nonadmin example_windows_abs nonadmin_world).
  - vm_compute; reflexivity.
  - intros rk [<-|[]]. exists user_env. split; [vm_compute; reflexivity | reflexivity].
Defined.

Lemma copy_packages_needs_fresh_channel_witness :
  @copy_packages (example_linux 0) linux_self
    (set_fs (<["output/miniconda3-4.7.12.1-2/conda_offline_channel/linux-64" := Dir]>
               (fs cache_world)) cache_world)
  = (Raise (FileExistsError "output/miniconda3-4.7.12.1-2/conda_offline_channel/linux-64"),
     set_fs (<["output/miniconda3-4.7.12.1-2/conda_offline_channel/linux-64" := Dir]>
               (fs cache_world)) cache_world).
Proof.
  apply (@copy_packages_needs_fresh_channel (example_linux 0) linux_self).
  exists Dir.
  change (@channel_dir (example_linux 0) linux_self)
    with "output/miniconda3-4.7.12.1-2/conda_offline_channel/linux-64".
  apply lookup_insert_eq.
Defined.

Lemma build_stops_on_failed_install_witness :
  is_ok (@build (example_host_exit 2) linux_self ready_world).1 = false
  /\ (calls (@build (example_host_exit 2) linux_self ready_world).2 = calls ready_world
      \/ calls (@build (example_host_exit 2) linux_self ready_world).2
         = (calls ready_world
              ++ [(@install_args (example_host_exit 2) linux_self,
                   @os_environ (example_host_exit 2))])%list).
Proof.
  apply (@build_stops_on_failed_install (example_host_exit 2) linux_self ready_world).
  - reflexivity.
  - intros f r. exists 2%Z, f, r. split; [reflexivity | discriminate].
Defined.
